(** * Thumbnail pipeline of photo-upload-s3-app: a shallow embedding

    The development embeds the Lambda handlers of the repository:

    - [src/lambda/lambda_function.py]   (rawpy, multi-record handler),
    - [src/lambda_function_pil.py]      (Pillow only, single record),
    - [src/lambda/lambda_function_py39.py]   (the RAW-only variant of the
      first, with the path code and the single-record handler of the
      second),
    - [src/lambda-package/restore_notification_lambda.py]   (the mail
      sent once archived objects have been restored),

    together with the fragments of the Python runtime they rely on
    ([str.split], [str.zfill], [os.path.splitext], [os.path.join],
    [bytes.find], binary64 arithmetic, ...).  External collaborators (S3,
    rawpy, Pillow, DynamoDB, SES) are oracles collected in records;
    exceptions are explicit. *)

From Stdlib Require Import ZArith List String Ascii Bool Lia Reals Lra.
From Stdlib Require Import Strings.Byte.
From Stdlib Require Import Floats.SpecFloat.
From Stdlib Require Import DecimalString.
Import ListNotations.

Open Scope string_scope.
Open Scope Z_scope.

(* ===================================================================== *)
(** ** Exceptions and the result monad *)
(* ===================================================================== *)

(** The exception classes the handlers distinguish.  [LibRawError] and
    [OSError] are the two classes named by the inner [except] clause of
    [process_raw_file]; everything else is only ever caught by
    [except Exception]. *)
Inductive exn : Type :=
| LibRawError
| OSError
| NameError (name : string)
| ValueError
| ZeroDivisionError
| OverflowError
| IndexError
| ClientError
| OtherError.

Inductive result (A : Type) : Type :=
| Ok (a : A)
| Raise (e : exn).
Arguments Ok {A} a.
Arguments Raise {A} e.

Definition bind {A B : Type} (r : result A) (k : A -> result B) : result B :=
  match r with
  | Ok a => k a
  | Raise e => Raise e
  end.

(** [try: body except Exception: handler] *)
Definition try_except {A : Type} (body : result A) (handler : exn -> result A)
  : result A :=
  match body with
  | Ok a => Ok a
  | Raise e => handler e
  end.

Declare Scope result_scope.
Delimit Scope result_scope with result.
Notation "x <- c ;; k" := (bind c (fun x => k))
  (at level 61, c at next level, right associativity) : result_scope.
Notation "c ;;; k" := (bind c (fun _ => k))
  (at level 61, right associativity) : result_scope.

Definition bytes := list byte.

(* ===================================================================== *)
(** ** Python string primitives *)
(* ===================================================================== *)

Module Py.

(** Keys arrive percent-encoded in the S3 event, so they are ASCII; a
    Python [str] is modelled as a [string] of 8-bit characters. *)

Definition is_ascii_digit (c : ascii) : bool :=
  let n := nat_of_ascii c in (Nat.leb 48 n && Nat.leb n 57)%bool.

Fixpoint all_chars (p : ascii -> bool) (s : string) : bool :=
  match s with
  | EmptyString => true
  | String c s' => (p c && all_chars p s')%bool
  end.

(** [str.isdigit()]: false on the empty string. *)
Definition isdigit (s : string) : bool :=
  match s with
  | EmptyString => false
  | _ => all_chars is_ascii_digit s
  end.

Definition len (s : string) : Z := Z.of_nat (String.length s).

Fixpoint repeat_char (c : ascii) (n : nat) : string :=
  match n with
  | O => EmptyString
  | S n' => String c (repeat_char c n')
  end.

(** [str.zfill(width)]: left-pads with ['0'], after a leading sign. *)
Definition zfill (s : string) (width : Z) : string :=
  if len s >=? width then s
  else
    let fill := repeat_char "0"%char (Z.to_nat (width - len s)) in
    match s with
    | String c rest =>
        if (Ascii.eqb c "+"%char || Ascii.eqb c "-"%char)%bool
        then String c (fill ++ rest)
        else fill ++ s
    | EmptyString => fill
    end.

(** [str.split(sep)] for a one-character separator. *)
Fixpoint split (sep : ascii) (s : string) : list string :=
  match s with
  | EmptyString => [EmptyString]
  | String c s' =>
      if Ascii.eqb c sep then EmptyString :: split sep s'
      else match split sep s' with
           | [] => [String c EmptyString]
           | h :: t => String c h :: t
           end
  end.

(** [sep.join(parts)] *)
Fixpoint join (sep : string) (parts : list string) : string :=
  match parts with
  | [] => EmptyString
  | [p] => p
  | p :: rest => p ++ sep ++ join sep rest
  end.

Definition to_lower_char (c : ascii) : ascii :=
  let n := nat_of_ascii c in
  if (Nat.leb 65 n && Nat.leb n 90)%bool then ascii_of_nat (n + 32) else c.

(** [str.lower()] *)
Fixpoint lower (s : string) : string :=
  match s with
  | EmptyString => EmptyString
  | String c s' => String (to_lower_char c) (lower s')
  end.

(** [x in list_of_str] *)
Definition in_list (x : string) (l : list string) : bool :=
  existsb (String.eqb x) l.

(** [s.startswith(p)] *)
Definition startswith (s p : string) : bool := String.prefix p s.

(** [sub in s] for strings: some suffix of [s] starts with [sub]. *)
Fixpoint contains (sub s : string) : bool :=
  (String.prefix sub s ||
   match s with
   | EmptyString => false
   | String _ s' => contains sub s'
   end)%bool.

Fixpoint drop (n : nat) (s : string) : string :=
  match n, s with
  | O, _ => s
  | S n', String _ s' => drop n' s'
  | S _, EmptyString => EmptyString
  end.

(** [s.replace(old, new)] for a non-empty [old]: leftmost, non-overlapping.
    The fuel is the length of the text still to scan. *)
Fixpoint replace_fuel (fuel : nat) (old new s : string) : string :=
  match fuel with
  | O => s
  | S fuel' =>
      match s with
      | EmptyString => EmptyString
      | String c s' =>
          if String.prefix old s
          then new ++ replace_fuel (fuel' - (String.length old - 1))%nat
                                   old new (drop (String.length old) s)
          else String c (replace_fuel fuel' old new s')
      end
  end.

Definition replace (s old new : string) : string :=
  replace_fuel (String.length s) old new s.

(** [s.rfind(c)] for a character: index of the last occurrence, or -1. *)
Fixpoint rfind_from (c : ascii) (s : string) (i : Z) (last : Z) : Z :=
  match s with
  | EmptyString => last
  | String d s' => rfind_from c s' (i + 1) (if Ascii.eqb d c then i else last)
  end.

Definition rfind (s : string) (c : ascii) : Z := rfind_from c s 0 (-1).

(** [s[:i]] and [s[i:]] for [0 <= i]. *)
Definition slice_to (s : string) (i : Z) : string :=
  String.substring 0 (Z.to_nat i) s.
Definition slice_from (s : string) (i : Z) : string := drop (Z.to_nat i) s.

(** [s[i:i+1]] *)
Definition char_at (s : string) (i : Z) : string :=
  String.substring (Z.to_nat i) 1 s.

(** [os.path.basename] of posixpath: [p[p.rfind('/') + 1:]]. *)
Definition basename (p : string) : string :=
  slice_from p (rfind p "/"%char + 1).

(** The leading-dot loop of [genericpath._splitext]: is there a character
    other than [extsep] in [p[filenameIndex:dotIndex]]? *)
Fixpoint has_non_dot (p : string) (filenameIndex : Z) (n : nat) : bool :=
  match n with
  | O => false
  | S n' =>
      if negb (String.eqb (char_at p filenameIndex) ".")
      then true
      else has_non_dot p (filenameIndex + 1) n'
  end.

(** [os.path.splitext] of posixpath ([genericpath._splitext] with
    [sep = '/'], no [altsep], [extsep = '.']). *)
Definition splitext (p : string) : string * string :=
  let sepIndex := rfind p "/"%char in
  let dotIndex := rfind p "."%char in
  if dotIndex >? sepIndex then
    let filenameIndex := sepIndex + 1 in
    if has_non_dot p filenameIndex (Z.to_nat (dotIndex - filenameIndex))
    then (slice_to p dotIndex, slice_from p dotIndex)
    else (p, EmptyString)
  else (p, EmptyString).

(** [s.endswith(suffix)] *)
Definition endswith (s suffix : string) : bool :=
  (String.length suffix <=? String.length s)%nat
  && String.eqb (drop (String.length s - String.length suffix) s) suffix.

(** [os.path.join(a, b)] of posixpath. *)
Definition path_join (a b : string) : string :=
  if startswith b "/" then b
  else if String.eqb a "" || endswith a "/" then a ++ b
  else a ++ "/" ++ b.

End Py.


(* ===================================================================== *)
(** ** Python [bytes] primitives *)
(* ===================================================================== *)

Module PyBytes.

Fixpoint prefix (p s : bytes) : bool :=
  match p, s with
  | [], _ => true
  | _ :: _, [] => false
  | a :: p', b :: s' => (Byte.eqb a b && prefix p' s')%bool
  end.

(** Scan of [s], whose first byte has index [i], for [sub]. *)
Fixpoint find_from (sub s : bytes) (i : Z) : Z :=
  if prefix sub s then i
  else match s with
       | [] => -1
       | _ :: s' => find_from sub s' (i + 1)
       end.

(** [data.find(sub, start)] for [0 <= start]: lowest index [>= start] at
    which [sub] occurs, or -1. *)
Definition find (data sub : bytes) (start : Z) : Z :=
  if start >? Z.of_nat (List.length data) then -1
  else find_from sub (skipn (Z.to_nat start) data) start.

(** [data[lo:hi]] for [0 <= lo]. *)
Definition slice (data : bytes) (lo hi : Z) : bytes :=
  firstn (Z.to_nat (hi - lo)) (skipn (Z.to_nat lo) data).

Definition len (data : bytes) : Z := Z.of_nat (List.length data).

End PyBytes.

(* ===================================================================== *)
(** ** Python [float] (IEEE-754 binary64) *)
(* ===================================================================== *)

Module PyFloat.

Definition prec : Z := 53.
Definition emax : Z := 1024.

Definition float := spec_float.

(** [float(n)]: exact for [|n| < 2^53], correctly rounded beyond. *)
Definition of_int (n : Z) : float := binary_normalize prec emax n 0 false.

(** [a / b] on two [int]s (true division).  CPython returns the correctly
    rounded quotient; for operands below [2^53] this is the binary64
    quotient of the two conversions. *)
Definition truediv (a b : Z) : result float :=
  if b =? 0 then Raise ZeroDivisionError
  else Ok (SFdiv prec emax (of_int a) (of_int b)).

(** [n * x] with [n : int], [x : float] *)
Definition int_mul (n : Z) (x : float) : float :=
  SFmul prec emax (of_int n) x.

(** [n / x] with [n : int], [x : float] *)
Definition int_div (n : Z) (x : float) : result float :=
  match x with
  | S754_zero _ => Raise ZeroDivisionError
  | _ => Ok (SFdiv prec emax (of_int n) x)
  end.

(** [int(x)]: truncation toward zero; raises on infinities and NaN. *)
Definition to_int (x : float) : result Z :=
  match x with
  | S754_zero _ => Ok 0
  | S754_finite s m e =>
      let a := if 0 <=? e then Z.pos m * 2 ^ e else Z.pos m / 2 ^ (- e) in
      Ok (if s then - a else a)
  | S754_infinity _ => Raise OverflowError
  | S754_nan => Raise ValueError
  end.

End PyFloat.

(* ===================================================================== *)
(** ** The outside world: S3, rawpy/imageio, Pillow *)
(* ===================================================================== *)

(** Result of writing an encoded image to a path that already may exist:
    either the file now holds [content], or the call raised and the file
    is left holding [partial]. *)
Inductive save_outcome : Type :=
| Saved (content : bytes)
| SaveFailed (e : exn) (partial : bytes).

Record World : Type := {
  (* boto3 S3 client *)
  s3_download_file : string -> string -> result bytes;
  s3_get_object : string -> string -> result bytes;
  s3_upload_file : bytes -> string -> string -> result unit;
  s3_put_object : string -> string -> bytes -> result unit;
  (* rawpy / imageio *)
  raw_handle : Type;
  ndarray : Type;
  rawpy_imread : bytes -> result raw_handle;
  raw_extract_thumb : raw_handle -> result (string * bytes);
  raw_postprocess : raw_handle -> result ndarray;
  imageio_imsave : ndarray -> Z -> result bytes;
  (* Pillow *)
  image : Type;
  draw_handle : Type;
  Image_open : bytes -> result image;
  Image_new : Z * Z -> Z * Z * Z -> result image;
  Image_size : image -> Z * Z;
  Image_mode : image -> string;
  Image_convert : image -> string -> result image;
  Image_resize : image -> Z * Z -> result image;
  Image_thumbnail : image -> Z * Z -> result image;
  Image_save : image -> Z -> bool -> save_outcome;
  exif_transpose : image -> result image;
  ImageDraw_Draw : image -> result draw_handle;
  Draw_textsize : draw_handle -> string -> result (Z * Z);
  Draw_text : draw_handle -> image -> Z * Z -> string -> Z * Z * Z -> result image
}.

(** [img.save(buffer_or_fresh_path, ...)] seen as a [result]. *)
Definition save_result (o : save_outcome) : result bytes :=
  match o with
  | Saved b => Ok b
  | SaveFailed e _ => Raise e
  end.

(** One entry of [event['Records']]. *)
Record s3_record : Type := {
  eventSource : string;
  eventName : string;
  bucket_name : string;
  object_key : string
}.

(** Observable actions of a handler run, in order. *)
Inductive action : Type :=
| LogSkipThumbnailDir (key : string)
| LogUnsupported (filename : string)
| LogPathFailure (key : string)
| Download (bucket key : string)
| LogGenerationFailure (filename : string)
| LogOptimizeFailure
| Upload (content : bytes) (bucket key : string)
| PutObject (bucket key : string) (body : bytes) (source_key : string)
| Cleanup (filename : string)
| LogError (e : exn).

Inductive response_body : Type :=
| BodyDone
| BodyError (e : exn)
| BodyNotRaw (filename : string)
| BodyInvalidPath (key : string)
| BodySuccess (filename thumbnail_key : string).

Record response : Type := {
  statusCode : Z;
  body : response_body
}.

(** The three [str.replace] calls applied to every incoming key. *)
Definition decode_key (k : string) : string :=
  Py.replace (Py.replace (Py.replace k "%3A" ":") "%2B" "+") "%20" " ".

Definition RAW_EXTENSIONS : list string :=
  [".arw"; ".cr2"; ".cr3"; ".dng"; ".nef"; ".nrw"; ".orf"; ".pef"; ".raf";
   ".rw2"; ".x3f"; ".srw"; ".kdc"; ".dcr"; ".raw"; ".tiff"; ".tif"; ".3fr";
   ".mef"; ".mrw"; ".rwl"; ".iiq"; ".erf"; ".mos"; ".rwz"].

Definition JPG_EXTENSIONS : list string := [".jpg"; ".jpeg"].

Definition get_file_extension (filename : string) : string :=
  Py.lower (snd (Py.splitext filename)).

Definition is_raw_file (filename : string) : bool :=
  Py.in_list (get_file_extension filename) RAW_EXTENSIONS.

Definition is_jpg_file (filename : string) : bool :=
  Py.in_list (get_file_extension filename) JPG_EXTENSIONS.

(* ===================================================================== *)
(** ** [src/lambda/lambda_function.py] *)
(* ===================================================================== *)

Module LambdaFunction.

Import PyFloat.
Local Open Scope result_scope.

Record path_info : Type := {
  user_id : string;
  file_type : string;
  year : string;
  month : string;
  day : string
}.

Definition extract_path_info (key : string) : option path_info :=
  let path_parts := Py.split "/" key in
  if Z.of_nat (List.length path_parts) <? 7 then None
  else
    let user_id := nth 1 path_parts "" in
    let file_type := nth 2 path_parts "" in
    let year := nth 3 path_parts "" in
    let month := nth 4 path_parts "" in
    let day := nth 5 path_parts "" in
    if negb (Py.isdigit year && Py.isdigit month && Py.isdigit day) then None
    else Some {| user_id := user_id;
                 file_type := file_type;
                 year := year;
                 month := Py.zfill month 2;
                 day := Py.zfill day 2 |}.

Definition generate_thumbnail_path (source_key filename : string)
  : option string :=
  match extract_path_info source_key with
  | None => None
  | Some path_info =>
      let dir :=
        if String.eqb (file_type path_info) "raw" then Some "rawThumbnail"
        else if String.eqb (file_type path_info) "jpg" then Some "jpgThumbnail"
        else None in
      match dir with
      | None => None
      | Some thumbnail_dir =>
          let thumbnail_filename := fst (Py.splitext filename) ++ "_thumb.jpg" in
          Some ("user/" ++ user_id path_info ++ "/" ++ thumbnail_dir ++ "/"
                ++ year path_info ++ "/" ++ month path_info ++ "/"
                ++ day path_info ++ "/" ++ thumbnail_filename)
      end
  end.

(** Lines 288-290: where a record's input and output are kept. *)
Definition temp_dir : string := "/tmp".

Definition temp_input_path (filename : string) : string :=
  Py.path_join temp_dir filename.

Definition temp_output_path (filename : string) : string :=
  Py.path_join temp_dir (fst (Py.splitext filename) ++ "_thumb.jpg").

Section WithWorld.

Variable W : World.

(** [raw.postprocess(...)] followed by [imageio.imsave(..., quality=85)]. *)
Definition postprocess_and_save (raw : raw_handle W) : result bytes :=
  rgb <- raw_postprocess W raw ;;
  imageio_imsave W rgb 85.

(** Returns [Some content] when the function returns [True], [content]
    being what it wrote at [thumb_path]; [None] when it returns [False]. *)
Definition process_raw_file (raw_file : bytes) : option bytes :=
  let body :=
    raw <- rawpy_imread W raw_file ;;
    match raw_extract_thumb W raw with
    | Ok (format, data) =>
        if String.eqb format "jpeg" then Ok data
        else postprocess_and_save raw
    | Raise LibRawError => postprocess_and_save raw
    | Raise OSError => postprocess_and_save raw
    | Raise e => Raise e
    end in
  match body with
  | Ok content => Some content
  | Raise _ => None
  end.

(** Lines 181-190: the target size when the long edge exceeds 800. *)
Definition jpg_new_size (orig_width orig_height : Z) : result (Z * Z) :=
  let max_size := 800 in
  if orig_width >? orig_height then
    ratio <- truediv max_size orig_width ;;
    new_height <- to_int (int_mul orig_height ratio) ;;
    Ok (max_size, new_height)
  else
    ratio <- truediv max_size orig_height ;;
    new_width <- to_int (int_mul orig_width ratio) ;;
    Ok (new_width, max_size).

(** Line 206: the quality of the second encoding. *)
Definition recompress_quality (thumb_size : Z) : result Z :=
  q <- truediv (thumb_size - 100 * 1024) (20 * 1024) ;;
  k <- to_int q ;;
  Ok (Z.max 50 (80 - k)).

(** Lines 195-208: encode at quality 80, look at the size, encode once
    more when it exceeds 100 KiB.  The first component lists the qualities
    of the [img.save] calls made, in order. *)
Definition save_with_size_cap (img : image W) : list Z * result bytes :=
  match save_result (Image_save W img 80 true) with
  | Raise e => ([80], Raise e)
  | Ok first =>
      let thumb_size := PyBytes.len first in
      if thumb_size >? 100 * 1024 then
        match recompress_quality thumb_size with
        | Raise e => ([80], Raise e)
        | Ok quality =>
            ([80; quality], save_result (Image_save W img quality true))
        end
      else ([80], Ok first)
  end.

(** The body of [process_jpg_file]'s [try] block. *)
Definition process_jpg_file_trace (jpg_file : bytes)
  : list Z * result bytes :=
  match Image_open W jpg_file with
  | Raise e => ([], Raise e)
  | Ok img =>
      let '(orig_width, orig_height) := Image_size W img in
      let max_size := 800 in
      let resized :=
        if (orig_width >? max_size) || (orig_height >? max_size) then
          size <- jpg_new_size orig_width orig_height ;;
          Image_resize W img size
        else Ok img in
      match resized with
      | Raise e => ([], Raise e)
      | Ok img => save_with_size_cap img
      end
  end.

Definition process_jpg_file (jpg_file : bytes) : option bytes :=
  match snd (process_jpg_file_trace jpg_file) with
  | Ok content => Some content
  | Raise _ => None
  end.

(** Lines 230-236: the target size of [optimize_thumbnail]. *)
Definition optimize_new_size (width height max_width max_height : Z)
  : result (Z * Z) :=
  aspect <- truediv width height ;;
  if width >? height then
    let new_width := Z.min width max_width in
    q <- int_div new_width aspect ;;
    new_height <- to_int q ;;
    Ok (new_width, new_height)
  else
    let new_height := Z.min height max_height in
    new_width <- to_int (int_mul new_height aspect) ;;
    Ok (new_width, new_height).

(** Returns the function's boolean and what [thumb_path] holds afterwards. *)
Definition optimize_thumbnail (thumb : bytes) (max_width max_height : Z)
  : bool * bytes :=
  match Image_open W thumb with
  | Raise _ => (false, thumb)
  | Ok img =>
      let '(width, height) := Image_size W img in
      if (width >? max_width) || (height >? max_height) then
        match (size <- optimize_new_size width height max_width max_height ;;
               Image_resize W img size) with
        | Raise _ => (false, thumb)
        | Ok img =>
            match Image_save W img 85 true with
            | Saved content => (true, content)
            | SaveFailed _ partial => (false, partial)
            end
        end
      else (true, thumb)
  end.

(** The body of the [for record in event['Records']] loop: the actions it
    performs, and [Raise e] when an exception leaves the loop. *)
Definition handle_record (record : s3_record) : list action * result unit :=
  if negb (String.eqb (eventSource record) "aws:s3")
     || negb (Py.startswith (eventName record) "ObjectCreated")
  then ([], Ok tt)
  else
    let bucket := bucket_name record in
    let key := decode_key (object_key record) in
    if Py.contains "rawThumbnail" key || Py.contains "jpgThumbnail" key
    then ([LogSkipThumbnailDir key], Ok tt)
    else
      let filename := Py.basename key in
      let is_raw := is_raw_file filename in
      let is_jpg := is_jpg_file filename in
      if negb (is_raw || is_jpg) then ([LogUnsupported filename], Ok tt)
      else
        match generate_thumbnail_path key filename with
        | None => ([LogPathFailure key], Ok tt)
        | Some thumbnail_key =>
            (* try: ... finally: remove the temporary files *)
            match s3_download_file W bucket key with
            | Raise e => ([Download bucket key; Cleanup filename], Raise e)
            | Ok input =>
                let success :=
                  if is_raw then process_raw_file input
                  else process_jpg_file input in
                match success with
                | None =>
                    ([Download bucket key; LogGenerationFailure filename;
                      Cleanup filename], Ok tt)
                | Some thumb =>
                    let '(optimized, output) := optimize_thumbnail thumb 1200 1200 in
                    let warn := if optimized then [] else [LogOptimizeFailure] in
                    (([Download bucket key] ++ warn
                       ++ [Upload output bucket thumbnail_key; Cleanup filename])%list,
                     s3_upload_file W output bucket thumbnail_key)
                end
            end
        end.

Fixpoint for_records (records : list s3_record) : list action * result unit :=
  match records with
  | [] => ([], Ok tt)
  | record :: rest =>
      match handle_record record with
      | (acts, Raise e) => (acts, Raise e)
      | (acts, Ok _) =>
          let '(acts', r) := for_records rest in ((acts ++ acts')%list, r)
      end
  end.

Definition lambda_handler (event : list s3_record) : list action * response :=
  match for_records event with
  | (acts, Ok _) => (acts, {| statusCode := 200; body := BodyDone |})
  | (acts, Raise e) =>
      ((acts ++ [LogError e])%list, {| statusCode := 500; body := BodyError e |})
  end.

End WithWorld.

End LambdaFunction.

(* ===================================================================== *)
(** ** [src/lambda_function_pil.py] *)
(* ===================================================================== *)

Module LambdaFunctionPil.

Local Open Scope result_scope.

Record path_info : Type := {
  user_id : string;
  year : string;
  month : string;
  day : string
}.

Definition extract_path_info (key : string) : option path_info :=
  let path_parts := Py.split "/" key in
  if Z.of_nat (List.length path_parts) <? 7 then None
  else
    let user_id := nth 1 path_parts "" in
    let year := nth 3 path_parts "" in
    let month := nth 4 path_parts "" in
    let day := nth 5 path_parts "" in
    if negb (Py.isdigit year && Py.isdigit month && Py.isdigit day) then None
    else Some {| user_id := user_id;
                 year := year;
                 month := Py.zfill month 2;
                 day := Py.zfill day 2 |}.

Definition generate_thumbnail_path (source_key filename : string)
  : option string :=
  match extract_path_info source_key with
  | None => None
  | Some path_info =>
      let thumbnail_filename := fst (Py.splitext filename) ++ "_thumb.jpg" in
      Some ("user/" ++ user_id path_info ++ "/rawThumbnail/"
            ++ year path_info ++ "/" ++ month path_info ++ "/"
            ++ day path_info ++ "/" ++ thumbnail_filename)
  end.

(** The names bound in the module's global namespace: its imports
    (lines 7-14), its two module-level objects and its functions. *)
Definition module_globals : list string :=
  ["json"; "boto3"; "os"; "logging"; "io"; "datetime";
   "Dict"; "Any"; "Optional"; "List"; "Tuple"; "Image"; "ImageOps";
   "logger"; "s3_client"; "RAW_EXTENSIONS";
   "get_file_extension"; "is_raw_file"; "extract_path_info";
   "generate_thumbnail_path"; "find_jpeg_data_in_raw";
   "create_placeholder_thumbnail"; "process_tiff_file"; "process_raw_file";
   "optimize_thumbnail"; "lambda_handler"].

(** Evaluating a global name that is not bound raises [NameError]. *)
Definition lookup_global (name : string) : result unit :=
  if Py.in_list name module_globals then Ok tt else Raise (NameError name).

Definition jpeg_start : bytes := [xff; xd8; xff].
Definition jpeg_end : bytes := [xff; xd9].

(** [if data:] on an [Optional[bytes]] *)
Definition truthy (data : option bytes) : bool :=
  match data with
  | Some (_ :: _) => true
  | _ => false
  end.

Section WithWorld.

Variable W : World.

Definition find_jpeg_data_in_raw (raw_data : bytes) : result (option bytes) :=
  try_except
    (let start_pos := PyBytes.find raw_data jpeg_start 0 in
     if start_pos =? -1 then Ok None
     else
       let end_pos := PyBytes.find raw_data jpeg_end start_pos in
       if end_pos =? -1 then Ok None
       else
         let jpeg_data := PyBytes.slice raw_data start_pos (end_pos + 2) in
         try_except
           (_ <- Image_open W jpeg_data ;; Ok (Some jpeg_data))
           (fun _ => Ok None))
    (fun _ => Ok None).

Definition create_placeholder_thumbnail (width height : Z) : result bytes :=
  try_except
    (img <- Image_new W (width, height) (220, 220, 220) ;;
     _ <- lookup_global "ImageDraw" ;;
     draw <- ImageDraw_Draw W img ;;
     img <- try_except
              (let font_size := width / 8 in
               let text := "RAW" in
               size <- Draw_textsize W draw text ;;
               let '(text_width, text_height) := size in
               let position :=
                 ((width - text_width) / 2, (height - text_height) / 2) in
               Draw_text W draw img position text (150, 150, 150))
              (fun _ => Ok img) ;;
     save_result (Image_save W img 85 false))
    (fun _ =>
       img <- Image_new W (400, 300) (200, 200, 200) ;;
       save_result (Image_save W img 80 false)).

Definition process_tiff_file (raw_data : bytes) : result (option bytes) :=
  try_except
    (img <- Image_open W raw_data ;;
     img <- (if negb (String.eqb (Image_mode W img) "RGB")
             then Image_convert W img "RGB" else Ok img) ;;
     img <- Image_thumbnail W img (1200, 1200) ;;
     content <- save_result (Image_save W img 85 false) ;;
     Ok (Some content))
    (fun _ => Ok None).

Definition process_raw_file (raw_data : bytes) (extension : string)
  : result bytes :=
  try_except
    (jpeg_data <- find_jpeg_data_in_raw raw_data ;;
     if truthy jpeg_data then Ok (match jpeg_data with Some d => d | None => [] end)
     else
       tiff_thumbnail <-
         (if Py.in_list (Py.lower extension) [".tiff"; ".tif"]
          then process_tiff_file raw_data else Ok None) ;;
       if truthy tiff_thumbnail
       then Ok (match tiff_thumbnail with Some d => d | None => [] end)
       else create_placeholder_thumbnail 1200 800)
    (fun _ => create_placeholder_thumbnail 1200 800).

Definition optimize_thumbnail (thumb_data : bytes) (max_width max_height : Z)
  : bytes :=
  let body :=
    if PyBytes.len thumb_data <? 100 * 1024 then Ok thumb_data
    else
      img <- Image_open W thumb_data ;;
      let '(width, height) := Image_size W img in
      if (width >? max_width) || (height >? max_height) then
        img <- Image_thumbnail W img (max_width, max_height) ;;
        img <- exif_transpose W img ;;
        save_result (Image_save W img 85 true)
      else
        img <- exif_transpose W img ;;
        save_result (Image_save W img 85 true) in
  match body with
  | Ok content => content
  | Raise _ => thumb_data
  end.

(** The handler looks at [event['Records'][0]] only. *)
Definition lambda_handler (event : list s3_record) : list action * response :=
  match event with
  | [] => ([LogError IndexError],
           {| statusCode := 500; body := BodyError IndexError |})
  | record :: _ =>
      let bucket := bucket_name record in
      let key := decode_key (object_key record) in
      let filename := Py.basename key in
      if negb (is_raw_file filename)
      then ([], {| statusCode := 200; body := BodyNotRaw filename |})
      else
        match generate_thumbnail_path key filename with
        | None => ([], {| statusCode := 400; body := BodyInvalidPath key |})
        | Some thumbnail_key =>
            match s3_get_object W bucket key with
            | Raise e =>
                ([Download bucket key; LogError e],
                 {| statusCode := 500; body := BodyError e |})
            | Ok raw_data =>
                let extension := get_file_extension filename in
                match process_raw_file raw_data extension with
                | Raise e =>
                    ([Download bucket key; LogError e],
                     {| statusCode := 500; body := BodyError e |})
                | Ok thumbnail_data =>
                    let optimized_thumbnail :=
                      optimize_thumbnail thumbnail_data 1200 1200 in
                    let put :=
                      PutObject bucket thumbnail_key optimized_thumbnail key in
                    match s3_put_object W bucket thumbnail_key
                                        optimized_thumbnail with
                    | Raise e =>
                        ([Download bucket key; put; LogError e],
                         {| statusCode := 500; body := BodyError e |})
                    | Ok _ =>
                        ([Download bucket key; put],
                         {| statusCode := 200;
                            body := BodySuccess filename thumbnail_key |})
                    end
                end
            end
        end
  end.

End WithWorld.

End LambdaFunctionPil.

(* ===================================================================== *)
(** ** [src/lambda/lambda_function_py39.py] *)
(* ===================================================================== *)

(** The single-record rawpy handler.  Its helper functions are written as
    in the two modules above: the path functions as in
    [lambda_function_pil.py], the two image functions as in
    [lambda_function.py] ([imageio.imwrite] is the function that
    [imageio.imsave] names). *)
Module LambdaFunctionPy39.

Local Open Scope result_scope.

Record path_info : Type := {
  user_id : string;
  year : string;
  month : string;
  day : string
}.

Definition extract_path_info (key : string) : option path_info :=
  let path_parts := Py.split "/" key in
  if Z.of_nat (List.length path_parts) <? 7 then None
  else
    let user_id := nth 1 path_parts "" in
    let year := nth 3 path_parts "" in
    let month := nth 4 path_parts "" in
    let day := nth 5 path_parts "" in
    if negb (Py.isdigit year && Py.isdigit month && Py.isdigit day) then None
    else Some {| user_id := user_id;
                 year := year;
                 month := Py.zfill month 2;
                 day := Py.zfill day 2 |}.

Definition generate_thumbnail_path (source_key filename : string)
  : option string :=
  match extract_path_info source_key with
  | None => None
  | Some path_info =>
      let thumbnail_filename := fst (Py.splitext filename) ++ "_thumb.jpg" in
      Some ("user/" ++ user_id path_info ++ "/rawThumbnail/"
            ++ year path_info ++ "/" ++ month path_info ++ "/"
            ++ day path_info ++ "/" ++ thumbnail_filename)
  end.

Section WithWorld.

Variable W : World.

(** [Some content] when the function returns [True], [content] being what
    it wrote at [thumb_path]; [None] when it returns [False]. *)
Definition process_raw_file (raw_file : bytes) : option bytes :=
  let develop (raw : raw_handle W) : result bytes :=
    rgb <- raw_postprocess W raw ;;
    imageio_imsave W rgb 85 in
  let body :=
    raw <- rawpy_imread W raw_file ;;
    match raw_extract_thumb W raw with
    | Ok (format, data) =>
        if String.eqb format "jpeg" then Ok data
        else develop raw
    | Raise LibRawError => develop raw
    | Raise OSError => develop raw
    | Raise e => Raise e
    end in
  match body with
  | Ok content => Some content
  | Raise _ => None
  end.

(** The function's boolean and what [thumb_path] holds afterwards. *)
Definition optimize_thumbnail (thumb : bytes) (max_width max_height : Z)
  : bool * bytes :=
  match Image_open W thumb with
  | Raise _ => (false, thumb)
  | Ok img =>
      let '(width, height) := Image_size W img in
      if (width >? max_width) || (height >? max_height) then
        let new_size :=
          aspect <- PyFloat.truediv width height ;;
          if width >? height then
            let new_width := Z.min width max_width in
            q <- PyFloat.int_div new_width aspect ;;
            new_height <- PyFloat.to_int q ;;
            Ok (new_width, new_height)
          else
            let new_height := Z.min height max_height in
            new_width <- PyFloat.to_int (PyFloat.int_mul new_height aspect) ;;
            Ok (new_width, new_height) in
        match (size <- new_size ;; Image_resize W img size) with
        | Raise _ => (false, thumb)
        | Ok img =>
            match Image_save W img 85 true with
            | Saved content => (true, content)
            | SaveFailed _ partial => (false, partial)
            end
        end
      else (true, thumb)
  end.

(** Lines 212-252: the inner [try] block, before its [finally] clause.
    The plain [Exception] raised at line 220 is [OtherError]. *)
Definition convert_and_upload (bucket key thumbnail_key : string)
  : list action * result unit :=
  match s3_download_file W bucket key with
  | Raise e => ([Download bucket key], Raise e)
  | Ok input =>
      match process_raw_file input with
      | None => ([Download bucket key], Raise OtherError)
      | Some thumb =>
          let '(_, output) := optimize_thumbnail thumb 1200 1200 in
          ([Download bucket key; Upload output bucket thumbnail_key],
           s3_upload_file W output bucket thumbnail_key)
      end
  end.

(** The handler looks at [event['Records'][0]] only. *)
Definition lambda_handler (event : list s3_record) : list action * response :=
  match event with
  | [] => ([LogError IndexError],
           {| statusCode := 500; body := BodyError IndexError |})
  | record :: _ =>
      let bucket := bucket_name record in
      let key := decode_key (object_key record) in
      let filename := Py.basename key in
      if negb (is_raw_file filename)
      then ([], {| statusCode := 200; body := BodyNotRaw filename |})
      else
        match generate_thumbnail_path key filename with
        | None => ([], {| statusCode := 400; body := BodyInvalidPath key |})
        | Some thumbnail_key =>
            let '(acts, outcome) := convert_and_upload bucket key thumbnail_key in
            (* finally: remove the temporary files *)
            let acts := (acts ++ [Cleanup filename])%list in
            match outcome with
            | Ok _ =>
                (acts, {| statusCode := 200;
                          body := BodySuccess filename thumbnail_key |})
            | Raise e =>
                ((acts ++ [LogError e])%list,
                 {| statusCode := 500; body := BodyError e |})
            end
        end
  end.

End WithWorld.

End LambdaFunctionPy39.

(* ===================================================================== *)
(** ** [src/lambda-package/restore_notification_lambda.py] *)
(* ===================================================================== *)

(** The Lambda that mails download links once archived objects have been
    restored.  DynamoDB, S3, SES, [urllib] and [zipfile] are oracles.  A
    mail is kept as the data its two bodies are built from: the list
    items (file name and link), and the link offered for downloading
    everything at once, if the bodies have that paragraph. *)
Module RestoreNotification.

Local Open Scope result_scope.

Record message : Type := {
  msg_from : string;
  msg_to : string;
  msg_links : list (string * string);
  msg_zip : option string
}.

Record Aws : Type := {
  unquote_plus : string -> string;
  (* [table.get_item(Key={'userId': user_id})]: the [email] attribute of
     the item, when the response has an item with that attribute *)
  table_get_item : string -> string -> result (option string);
  presign : string -> string -> Z -> result string;
  (* [int(boto3.client('dynamodb').describe_endpoints()['TimeSeconds'])] *)
  time_seconds : result Z;
  get_object : string -> string -> result bytes;
  (* the archive [zipfile] builds from (name, content) entries *)
  zip_archive : list (string * bytes) -> bytes;
  (* bucket, key, body, the [ttl] metadata *)
  put_object : string -> string -> bytes -> Z -> result unit;
  send_raw_email : message -> result string
}.

Inductive notify_action : Type :=
| PutZip (key : string) (entries : list (string * bytes))
| SendEmail (m : message).

Inductive notify_body : Type :=
| NoRestoreEvents
| UserIdNotFound
| UserEmailNotFound
| EmailSent (email : string)
| SendFailed
| NothingToSend
| NotifyError (e : exn).

Record notify_response : Type := {
  statusCode : Z;
  body : notify_body
}.

(** [str(z)] *)
Definition str_of_Z (z : Z) : string := NilZero.string_of_int (Z.to_int z).

(** An [Optional[str]] inside an f-string. *)
Definition format_optional (s : option string) : string :=
  match s with
  | Some s => s
  | None => "None"
  end.

(** [if value:] on an [Optional[str]] *)
Definition truthy (value : option string) : bool :=
  match value with
  | Some (String _ _) => true
  | _ => false
  end.

(** [key.split('/')[-1]] *)
Definition file_name (key : string) : string := last (Py.split "/" key) "".

Definition extract_user_id_from_key (key : string) : option string :=
  let parts := Py.split "/" key in
  if (Z.of_nat (List.length parts) >? 2) && String.eqb (nth 0 parts "") "user"
  then Some (nth 1 parts "")
  else None.

(** [urls[-k]] for [k >= 1] *)
Definition from_end (urls : list string) (k : nat) : result string :=
  if (k <=? List.length urls)%nat
  then match nth_error urls (List.length urls - k) with
       | Some url => Ok url
       | None => Raise IndexError
       end
  else Raise IndexError.

(** The loop [for i, key in enumerate(file_keys)] with its [urls[i]],
    from index [i] on. *)
Fixpoint link_items (i : nat) (file_keys urls : list string)
  : result (list (string * string)) :=
  match file_keys with
  | [] => Ok []
  | key :: rest =>
      match nth_error urls i with
      | None => Raise IndexError
      | Some url =>
          items <- link_items (S i) rest urls ;;
          Ok ((file_name key, url) :: items)
      end
  end.

(** [len(file_keys) > 1 and urls[-1] != urls[-2]], and the link then
    shown. *)
Definition zip_paragraph (file_keys urls : list string)
  : result (option string) :=
  if Z.of_nat (List.length file_keys) >? 1 then
    last_url <- from_end urls 1 ;;
    before_last <- from_end urls 2 ;;
    Ok (if negb (String.eqb last_url before_last) then Some last_url else None)
  else Ok None.

Section WithAws.

Variable A : Aws.

(** Module-level configuration, read from the environment. *)
Variable SENDER_EMAIL : string.
Variable S3_BUCKET : string.
Variable PRESIGNED_URL_EXPIRY : Z.
Variable DYNAMODB_TABLE : string.

Definition get_user_email (user_id : string) : result (option string) :=
  match table_get_item A DYNAMODB_TABLE user_id with
  | Ok email => Ok email
  | Raise ClientError => Ok None
  | Raise e => Raise e
  end.

Definition generate_presigned_url (bucket key : string) (expiry : Z)
  : result (option string) :=
  match presign A bucket key expiry with
  | Ok url => Ok (Some url)
  | Raise ClientError => Ok None
  | Raise e => Raise e
  end.

(** The loop that fills the archive: a key whose object cannot be read is
    logged and left out. *)
Fixpoint zip_entries (keys : list string) : list (string * bytes) :=
  match keys with
  | [] => []
  | key :: rest =>
      match get_object A S3_BUCKET key with
      | Ok file_content => (file_name key, file_content) :: zip_entries rest
      | Raise _ => zip_entries rest
      end
  end.

Definition create_download_zip_url
           (keys : list string) (zip_name : string) (expiry : Z)
  : list notify_action * result (option string) :=
  match keys with
  | [] => ([], Ok None)
  | first_key :: _ =>
      let user_id := extract_user_id_from_key first_key in
      match time_seconds A with
      | Raise e => ([], Raise e)
      | Ok timestamp =>
          let temp_zip_key :=
            "temp/" ++ format_optional user_id ++ "/" ++ str_of_Z timestamp
            ++ "_" ++ zip_name ++ ".zip" in
          let entries := zip_entries keys in
          match put_object A S3_BUCKET temp_zip_key (zip_archive A entries)
                           (timestamp + expiry) with
          | Raise e => ([PutZip temp_zip_key entries], Raise e)
          | Ok _ =>
              ([PutZip temp_zip_key entries],
               generate_presigned_url S3_BUCKET temp_zip_key expiry)
          end
      end
  end.

Definition send_notification_email
           (email : string) (file_keys urls : list string)
  : list notify_action * result bool :=
  if String.eqb email "" || match urls with [] => true | _ => false end
  then ([], Ok false)
  else
    match (items <- link_items 0 file_keys urls ;;
           zip <- zip_paragraph file_keys urls ;;
           Ok (items, zip)) with
    | Raise e => ([], Raise e)
    | Ok (items, zip) =>
        let m := {| msg_from := SENDER_EMAIL; msg_to := email;
                    msg_links := items; msg_zip := zip |} in
        match send_raw_email A m with
        | Ok _ => ([SendEmail m], Ok true)
        | Raise ClientError => ([SendEmail m], Ok false)
        | Raise e => ([SendEmail m], Raise e)
        end
    end.

(** The first loop of the handler, for one record: the decoded key when
    the record announces a completed restore. *)
Definition restored_key (record : s3_record) : option string :=
  if negb (String.eqb (eventSource record) "aws:s3") then None
  else
    let key := object_key record in
    if String.eqb key "" then None
    else
      let key := unquote_plus A key in
      if Py.contains "ObjectRestore:Completed" (eventName record)
      then Some key else None.

Fixpoint restored_keys (records : list s3_record) : list string :=
  match records with
  | [] => []
  | record :: rest =>
      match restored_key record with
      | Some key => key :: restored_keys rest
      | None => restored_keys rest
      end
  end.

(** The loop that asks for one link per restored key. *)
Fixpoint presigned_urls (keys : list string) : result (list string) :=
  match keys with
  | [] => Ok []
  | key :: rest =>
      url <- generate_presigned_url S3_BUCKET key PRESIGNED_URL_EXPIRY ;;
      urls <- presigned_urls rest ;;
      Ok (if truthy url then format_optional url :: urls else urls)
  end.

(** The body of the handler's [try] block. *)
Definition notify (event : list s3_record)
  : list notify_action * result notify_response :=
  let keys := restored_keys event in
  match keys with
  | [] => ([], Ok {| statusCode := 200; body := NoRestoreEvents |})
  | first_key :: _ =>
      let user_id := extract_user_id_from_key first_key in
      if negb (truthy user_id)
      then ([], Ok {| statusCode := 400; body := UserIdNotFound |})
      else
        match get_user_email (format_optional user_id) with
        | Raise e => ([], Raise e)
        | Ok email =>
            if negb (truthy email)
            then ([], Ok {| statusCode := 400; body := UserEmailNotFound |})
            else
              let email := format_optional email in
              match presigned_urls keys with
              | Raise e => ([], Raise e)
              | Ok urls =>
                  let '(zip_acts, zipped) :=
                    if Z.of_nat (List.length keys) >? 1 then
                      match create_download_zip_url keys "download"
                                                    PRESIGNED_URL_EXPIRY with
                      | (acts, Ok zip_url) =>
                          (acts,
                           Ok (if truthy zip_url
                               then (urls ++ [format_optional zip_url])%list
                               else urls))
                      | (acts, Raise e) => (acts, Raise e)
                      end
                    else ([], Ok urls) in
                  match zipped with
                  | Raise e => (zip_acts, Raise e)
                  | Ok urls =>
                      match urls with
                      | [] =>
                          (zip_acts,
                           Ok {| statusCode := 400; body := NothingToSend |})
                      | _ =>
                          let '(acts, sent) :=
                            send_notification_email email keys urls in
                          ((zip_acts ++ acts)%list,
                           match sent with
                           | Ok true =>
                               Ok {| statusCode := 200;
                                     body := EmailSent email |}
                           | Ok false =>
                               Ok {| statusCode := 500; body := SendFailed |}
                           | Raise e => Raise e
                           end)
                      end
                  end
              end
        end
  end.

Definition lambda_handler (event : list s3_record)
  : list notify_action * notify_response :=
  match notify event with
  | (acts, Ok response) => (acts, response)
  | (acts, Raise e) => (acts, {| statusCode := 500; body := NotifyError e |})
  end.

End WithAws.

End RestoreNotification.

(* ===================================================================== *)
(** ** A small concrete world, for running the handlers *)
(* ===================================================================== *)

(** The properties quantify over every behaviour of S3, rawpy and Pillow.  To
    evaluate the handlers on concrete events we also fix one world: images
    are their size, and the "JPEG" encoding of a [w]x[h] image at quality
    [q] is the 10-byte string [FF D8 FF wh wl hh hl q FF D9]. *)
Module Sample.

Definition byte_of_Z (z : Z) : byte :=
  match Byte.of_N (Z.to_N (z mod 256)) with
  | Some b => b
  | None => x00
  end.

Definition Z_of_byte (b : byte) : Z := Z.of_N (Byte.to_N b).

Definition encode (size : Z * Z) (quality : Z) : bytes :=
  let '(w, h) := size in
  [xff; xd8; xff; byte_of_Z (w / 256); byte_of_Z w;
   byte_of_Z (h / 256); byte_of_Z h; byte_of_Z quality; xff; xd9].

Definition decode (data : bytes) : result (Z * Z) :=
  match data with
  | a :: b :: c :: wh :: wl :: hh :: hl :: _ =>
      if PyBytes.prefix [xff; xd8; xff] [a; b; c]
      then Ok (Z_of_byte wh * 256 + Z_of_byte wl,
               Z_of_byte hh * 256 + Z_of_byte hl)
      else Raise OSError
  | _ => Raise OSError
  end.

Definition resize (size : Z * Z) : result (Z * Z) :=
  if (0 <? fst size) && (0 <? snd size) then Ok size else Raise ValueError.

(** [download] and [upload] describe S3; [can_draw] says whether Pillow's
    text drawing works. *)
Definition world (download : string -> string -> result bytes)
                 (upload : string -> string -> result unit)
                 (can_draw : bool) : World :=
  {| s3_download_file := download;
     s3_get_object := download;
     s3_upload_file := fun _ bucket key => upload bucket key;
     s3_put_object := fun bucket key _ => upload bucket key;
     raw_handle := bytes;
     ndarray := bytes;
     rawpy_imread := fun data =>
       match data with [] => Raise LibRawError | _ => Ok data end;
     raw_extract_thumb := fun _ => Raise LibRawError;
     raw_postprocess := fun data => Ok data;
     imageio_imsave := fun _ quality => Ok (encode (64, 48) quality);
     image := Z * Z;
     draw_handle := unit;
     Image_open := decode;
     Image_new := fun size _ => Ok size;
     Image_size := fun img => img;
     Image_mode := fun _ => "RGB";
     Image_convert := fun img _ => Ok img;
     Image_resize := fun _ size => resize size;
     Image_thumbnail := fun _ size => resize size;
     Image_save := fun img quality _ => Saved (encode img quality);
     exif_transpose := fun img => Ok img;
     ImageDraw_Draw := fun _ => Ok tt;
     Draw_textsize := fun _ _ =>
       if can_draw then Ok (18, 11) else Raise OtherError;
     Draw_text := fun _ img _ _ _ =>
       if can_draw then Ok img else Raise OtherError |}.

Definition record_for (key : string) : s3_record :=
  {| eventSource := "aws:s3";
     eventName := "ObjectCreated:Put";
     bucket_name := "photos";
     object_key := key |}.

End Sample.

(* ===================================================================== *)
(** ** Vocabulary of the properties and sample events *)
(* ===================================================================== *)

Definition no_slash (s : string) : bool :=
  Py.all_chars (fun c => negb (Ascii.eqb c "/"%char)) s.


(** A record is eligible when it passes the event filter, the thumbnail
    re-entry guard and the extension check. *)
Definition eligible (record : s3_record) : Prop :=
  let key := decode_key (object_key record) in
  eventSource record = "aws:s3"
  /\ Py.startswith (eventName record) "ObjectCreated" = true
  /\ Py.contains "rawThumbnail" key = false
  /\ Py.contains "jpgThumbnail" key = false
  /\ (is_raw_file (Py.basename key) || is_jpg_file (Py.basename key))%bool = true.


Definition calm_world : World :=
  Sample.world (fun _ _ => Ok [x00]) (fun _ _ => Ok tt) true.

(** Two well-formed RAW uploads in one event. *)
Definition two_raw_batch : list s3_record :=
  [Sample.record_for "user/u1/raw/2023/4/5/IMG_01.CR2";
   Sample.record_for "user/u1/raw/2023/4/5/IMG_02.CR2"].

(** S3 refuses to deliver the first object. *)
Definition outage_world : World :=
  Sample.world
    (fun _ key => if String.eqb key "user/u1/raw/2023/4/5/IMG_01.CR2"
                  then Raise ClientError else Ok [x00])
    (fun _ _ => Ok tt) true.

(** The first object is empty: rawpy cannot read it. *)
Definition corrupt_world : World :=
  Sample.world
    (fun _ key => if String.eqb key "user/u1/raw/2023/4/5/IMG_01.CR2"
                  then Ok [] else Ok [x00])
    (fun _ _ => Ok tt) true.

(** S3 refuses to store the first thumbnail. *)
Definition readonly_world : World :=
  Sample.world
    (fun _ _ => Ok [x00])
    (fun _ key =>
       if String.eqb key "user/u1/rawThumbnail/2023/04/05/IMG_01_thumb.jpg"
       then Raise ClientError else Ok tt) true.

(** [sub] occurs in [data] at offset [i]. *)
Definition occurs_at (sub data : bytes) (i : nat) : Prop :=
  PyBytes.prefix sub (skipn i data) = true.

(** [k] is the offset of the first occurrence of [sub] at or after
    [start]. *)
Definition first_occurrence (sub data : bytes) (start k : nat) : Prop :=
  (start <= k)%nat /\ occurs_at sub data k
  /\ forall j, (start <= j < k)%nat -> ~ occurs_at sub data j.

(** [sub] does not occur at or after [start]. *)
Definition absent_from (sub data : bytes) (start : nat) : Prop :=
  forall j, (start <= j)%nat -> ~ occurs_at sub data j.

(** A RAW file with a preview inside: one byte of header, then a
    64x48 "JPEG" of the sample codec, then a trailing byte. *)
Definition raw_with_preview : bytes :=
  ([x00] ++ Sample.encode (64, 48) 90 ++ [x07])%list.



(** The real number denoted by a float. *)
Definition B2R (x : spec_float) : R :=
  match x with
  | S754_finite s m e =>
      ((if s then -1 else 1) * IZR (Z.pos m) * powerRZ 2 e)%R
  | _ => 0%R
  end.

(** A positive float with a full 53-bit mantissa and an exponent in
    [[lo, hi]]. *)
Definition canonical_pos (x : spec_float) (lo hi : Z) : Prop :=
  exists m e, x = S754_finite false m e
              /\ 2 ^ 52 <= Z.pos m < 2 ^ 53 /\ lo <= e <= hi.

(** [v] is within relative error [eps] of the positive real [x]. *)
Definition rel_close (eps v x : R) : Prop :=
  (x * (1 - eps) <= v <= x * (1 + eps))%R.

(** One unit in the last place of a number in [[1, 2)]. *)
Definition u : R := powerRZ 2 (-52).

(** Rounding of the exact quotient [num / den] to the nearest integer,
    ties to even: what [round] does in the resize formula of the
    specification, [newOther = round(other * (bound / limiting))]. *)
Definition round_half_even (num den : Z) : Z :=
  let q := num / den in
  let r := num mod den in
  if 2 * r <? den then q
  else if 2 * r >? den then q + 1
  else if Z.even q then q else q + 1.

Definition spec_new_other (other bound limiting : Z) : Z :=
  round_half_even (other * bound) limiting.

(** [r] is the truncation of [num / den] as binary64 computes it: at most
    one below the exact quotient, never above, and equal to the integer
    quotient unless the division is exact. *)
Definition truncated_ratio (r num den : Z) : Prop :=
  r * den <= num <= (r + 1) * den
  /\ (num mod den <> 0 -> r = num / den).

(** What a resize to [bound] does to a [w]x[h] image that exceeds it: the
    larger side becomes [bound]; the other side is the truncation of the
    proportional value [bound * other / larger]; neither side grows. *)
Definition resized_to (bound w h new_w new_h : Z) : Prop :=
  (if w >? h
   then new_w = bound /\ truncated_ratio new_h (bound * h) w
   else new_h = bound /\ truncated_ratio new_w (bound * w) h)
  /\ new_w <= w /\ new_h <= h.


(** Reading a run: which actions touch S3 or the temporary files. *)
Definition is_download (a : action) : bool :=
  match a with Download _ _ => true | _ => false end.

Definition is_upload (a : action) : bool :=
  match a with Upload _ _ _ => true | _ => false end.

(** Temporary-file discipline of a run: [pending] is the file downloaded
    and not yet removed.  A download needs no file pending, a cleanup
    removes exactly the pending file, an upload happens only while a file
    is pending, and nothing may be pending at the end. *)
Fixpoint temp_files_released (pending : option string) (acts : list action)
  : bool :=
  match acts with
  | [] => match pending with None => true | Some _ => false end
  | Download _ key :: rest =>
      match pending with
      | None => temp_files_released (Some (Py.basename key)) rest
      | Some _ => false
      end
  | Cleanup filename :: rest =>
      match pending with
      | Some f => String.eqb f filename && temp_files_released None rest
      | None => false
      end
  | Upload _ _ _ :: rest =>
      match pending with
      | Some _ => temp_files_released pending rest
      | None => false
      end
  | _ :: rest => temp_files_released pending rest
  end.

(** The event filter of the multi-record handler. *)
Definition passes_event_filter (record : s3_record) : bool :=
  String.eqb (eventSource record) "aws:s3"
  && Py.startswith (eventName record) "ObjectCreated".

(** A Pillow that keeps exactly the pixel size: an image is its size, its
    encoding is [width] bytes [01], one byte [00], then [height] bytes
    [01], and a resize gives the size it was asked for. *)
Definition size_bytes (size : nat * nat) : bytes :=
  (repeat x01 (fst size) ++ x00 :: repeat x01 (snd size))%list.

Fixpoint bytes_size (data : bytes) : nat * nat :=
  match data with
  | [] => (0, 0)%nat
  | b :: rest =>
      if Byte.eqb b x00 then (0%nat, List.length rest)
      else let '(w, h) := bytes_size rest in (S w, h)
  end.

Definition exact_world : World :=
  {| s3_download_file := fun _ _ => Ok (size_bytes (1600, 1200)%nat);
     s3_get_object := fun _ _ => Ok (size_bytes (1600, 1200)%nat);
     s3_upload_file := fun _ _ _ => Ok tt;
     s3_put_object := fun _ _ _ => Ok tt;
     raw_handle := bytes;
     ndarray := bytes;
     rawpy_imread := fun data => Ok data;
     raw_extract_thumb := fun _ => Raise LibRawError;
     raw_postprocess := fun data => Ok data;
     imageio_imsave := fun data _ => Ok data;
     image := nat * nat;
     draw_handle := unit;
     Image_open := fun data => Ok (bytes_size data);
     Image_new := fun size _ => Ok (Z.to_nat (fst size), Z.to_nat (snd size));
     Image_size := fun img => (Z.of_nat (fst img), Z.of_nat (snd img));
     Image_mode := fun _ => "RGB";
     Image_convert := fun img _ => Ok img;
     Image_resize := fun _ size =>
       if (0 <=? fst size) && (0 <=? snd size)
       then Ok (Z.to_nat (fst size), Z.to_nat (snd size))
       else Raise ValueError;
     Image_thumbnail := fun img _ => Ok img;
     Image_save := fun img _ _ => Saved (size_bytes img);
     exif_transpose := fun img => Ok img;
     ImageDraw_Draw := fun _ => Ok tt;
     Draw_textsize := fun _ _ => Ok (18, 11);
     Draw_text := fun _ img _ _ _ => Ok img |}.

(** A record announcing that the object at [key] has been restored. *)
Definition restore_record (key : string) : s3_record :=
  {| eventSource := "aws:s3";
     eventName := "ObjectRestore:Completed";
     bucket_name := "photos";
     object_key := key |}.

(** AWS as seen by the notification Lambda, with everything working:
    user [u1] has an address, every link can be signed.  [sign] and
    [store] describe link signing and the upload of the archive. *)
Definition sample_aws (sign : string -> result string)
                      (store : result unit) : RestoreNotification.Aws :=
  {| RestoreNotification.unquote_plus := fun key => key;
     RestoreNotification.table_get_item := fun _ user_id =>
       if String.eqb user_id "u1" then Ok (Some "u1@example.com")
       else Ok None;
     RestoreNotification.presign := fun _ key _ => sign key;
     RestoreNotification.time_seconds := Ok 1700000000;
     RestoreNotification.get_object := fun _ _ => Ok [x00];
     RestoreNotification.zip_archive := fun _ => [x00];
     RestoreNotification.put_object := fun _ _ _ _ => store;
     RestoreNotification.send_raw_email := fun _ => Ok "0001" |}.

Definition calm_aws : RestoreNotification.Aws :=
  sample_aws (fun key => Ok ("https://photos/" ++ key)) (Ok tt).

(** Links can be signed for the restored objects, not for the archive. *)
Definition no_zip_aws : RestoreNotification.Aws :=
  sample_aws (fun key => if String.prefix "temp/" key then Raise ClientError
                         else Ok ("https://photos/" ++ key)) (Ok tt).

(** The link for [a.CR2] cannot be signed. *)
Definition one_link_missing_aws : RestoreNotification.Aws :=
  sample_aws (fun key => if String.eqb key "user/u1/raw/2023/04/05/a.CR2"
                         then Raise ClientError
                         else Ok ("https://photos/" ++ key)) (Ok tt).

(** Two restored objects, the first of user [u1], the second of [u2]. *)
Definition two_owner_restore : list s3_record :=
  [restore_record "user/u1/raw/2023/04/05/a.CR2";
   restore_record "user/u2/raw/2023/04/05/b.CR2"].

Definition is_send (a : RestoreNotification.notify_action) : bool :=
  match a with RestoreNotification.SendEmail _ => true | _ => false end.

(** Pillow's [Image.load], the decode of the image data.  [Image.open]
    identifies the file and reads its header; the data is decoded later,
    by [load].  The module never calls [load], so it is not among the
    oracles of [World]: a Pillow with its loader is a world together
    with one more function. *)
Record LoadingPillow : Type := {
  pillow : World;
  Image_load : image pillow -> result unit
}.

(** "A full JPEG decode of [data] succeeds": the file opens and its
    image data loads. *)
Definition full_decode_succeeds (P : LoadingPillow) (data : bytes) : Prop :=
  exists img,
    Image_open (pillow P) data = Ok img /\ Image_load P img = Ok tt.

(** A preview cut short: the header of a 64x48 image of the sample codec,
    directly followed by the end marker.  The byte the codec keeps
    between the two is missing. *)
Definition header_only_slice : bytes :=
  [xff; xd8; xff; x00; x40; x00; x30; xff; xd9].

Definition header_only_raw : bytes :=
  ([x00] ++ header_only_slice ++ [x07])%list.

(** The sample codec with a lazy [Image.open]: an image keeps its file,
    [open] reads the seven bytes of the header, and [load] wants the whole
    ten-byte encoding. *)
Definition lazy_world : World :=
  {| s3_download_file := fun _ _ => Ok header_only_raw;
     s3_get_object := fun _ _ => Ok header_only_raw;
     s3_upload_file := fun _ _ _ => Ok tt;
     s3_put_object := fun _ _ _ => Ok tt;
     raw_handle := bytes;
     ndarray := bytes;
     rawpy_imread := fun data => Ok data;
     raw_extract_thumb := fun _ => Raise LibRawError;
     raw_postprocess := fun data => Ok data;
     imageio_imsave := fun _ quality => Ok (Sample.encode (64, 48) quality);
     image := bytes;
     draw_handle := unit;
     Image_open := fun data => bind (Sample.decode data) (fun _ => Ok data);
     Image_new := fun size _ => Ok (Sample.encode size 0);
     Image_size := fun img =>
       match Sample.decode img with
       | Ok size => size
       | Raise _ => (0, 0)
       end;
     Image_mode := fun _ => "RGB";
     Image_convert := fun img _ => Ok img;
     Image_resize := fun _ size => Ok (Sample.encode size 0);
     Image_thumbnail := fun img _ => Ok img;
     Image_save := fun img quality _ =>
       Saved (Sample.encode
                match Sample.decode img with
                | Ok size => size
                | Raise _ => (0, 0)
                end quality);
     exif_transpose := fun img => Ok img;
     ImageDraw_Draw := fun _ => Ok tt;
     Draw_textsize := fun _ _ => Ok (18, 11);
     Draw_text := fun _ img _ _ _ => Ok img |}.

Definition lazy_load (img : bytes) : result unit :=
  match img with
  | [a; b; c; _; _; _; _; _; y; z] =>
      if PyBytes.prefix [xff; xd8; xff] [a; b; c]
         && PyBytes.prefix [xff; xd9] [y; z]
      then Ok tt else Raise OSError
  | _ => Raise OSError
  end.

Definition lazy_pillow : LoadingPillow :=
  {| pillow := lazy_world; Image_load := lazy_load |}.

(* ===================================================================== *)
(** * Properties *)
(* ===================================================================== *)

(** ** The Python primitives on small inputs *)

Example split_example :
  Py.split "/" "user/u1/raw/a.cr2" = ["user"; "u1"; "raw"; "a.cr2"]
  /\ Py.split "/" "" = [""] /\ Py.split "/" "a//b/" = ["a"; ""; "b"; ""].
Proof. repeat split. Qed.

Example splitext_example :
  Py.splitext "IMG_01.CR2" = ("IMG_01", ".CR2")
  /\ Py.splitext ".bashrc" = (".bashrc", "")
  /\ Py.splitext "a.tar.gz" = ("a.tar", ".gz")
  /\ Py.splitext "noext" = ("noext", "")
  /\ Py.splitext "..x" = ("..x", "")
  /\ Py.splitext "a." = ("a", ".").
Proof. repeat split. Qed.

Example isdigit_zfill_example :
  Py.isdigit "2023" = true /\ Py.isdigit "" = false /\ Py.isdigit "4a" = false
  /\ Py.zfill "4" 2 = "04" /\ Py.zfill "12" 2 = "12" /\ Py.zfill "123" 2 = "123".
Proof. repeat split. Qed.

Example decode_key_example :
  decode_key "user/u1/raw/2023/4/5/my%20photo%2B1.CR2"
  = "user/u1/raw/2023/4/5/my photo+1.CR2".
Proof. reflexivity. Qed.

Example extension_example :
  is_raw_file "IMG_01.CR2" = true /\ is_jpg_file "photo.JPG" = true
  /\ is_raw_file "notes.txt" = false /\ is_jpg_file "IMG_01.CR2" = false.
Proof. repeat split. Qed.

Example find_example :
  PyBytes.find [x00; xff; xd8; xff; xe0; xff; xd9] [xff; xd9] 1 = 5
  /\ PyBytes.find [x00; xff; xd8; xff] [xff; xd9] 0 = -1
  /\ PyBytes.slice [x00; xff; xd8; xff; xe0; xff; xd9; x01] 1 7
     = [xff; xd8; xff; xe0; xff; xd9].
Proof. repeat split. Qed.

(** Binary64 at work: [int(2000 * (800 / 3000))], [int(1000 * (800 / 1200))]
    and [int(537 * (800 / 895))], whose exact value is 480. *)
Example float_example :
  LambdaFunction.jpg_new_size 3000 2000 = Ok (800, 533)
  /\ LambdaFunction.jpg_new_size 1200 1000 = Ok (800, 666)
  /\ LambdaFunction.jpg_new_size 895 537 = Ok (800, 479)
  /\ LambdaFunction.optimize_new_size 1225 833 1200 1200 = Ok (1200, 815)
  /\ LambdaFunction.recompress_quality 150000 = Ok 78.
Proof. repeat split; vm_compute; reflexivity. Qed.

(** ** Strings *)

Lemma split_no_slash (s : string) :
  no_slash s = true -> Py.split "/" s = [s].
Proof.
  induction s as [|c s IH]; simpl; [reflexivity|].
  intros H. apply andb_prop in H. destruct H as [Hc Hs].
  apply negb_true_iff in Hc. rewrite Hc, (IH Hs). reflexivity.
Qed.

Lemma split_app_slash (s rest : string) :
  no_slash s = true ->
  Py.split "/" (s ++ String "/" rest) = s :: Py.split "/" rest.
Proof.
  induction s as [|c s IH]; simpl; [reflexivity|].
  intros H. apply andb_prop in H. destruct H as [Hc Hs].
  apply negb_true_iff in Hc. rewrite Hc, (IH Hs). reflexivity.
Qed.

Lemma split_join (segs : list string) :
  segs <> [] ->
  Forall (fun s => no_slash s = true) segs ->
  Py.split "/" (Py.join "/" segs) = segs.
Proof.
  induction segs as [|s segs IH]; [congruence|].
  intros _ Hall. inversion Hall as [|? ? Hs Hrest]; subst.
  destruct segs as [|s' segs].
  - simpl. now apply split_no_slash.
  - change (Py.join "/" (s :: s' :: segs))
      with (s ++ String "/" (Py.join "/" (s' :: segs))).
    rewrite split_app_slash by assumption.
    f_equal. apply IH; [discriminate | assumption].
Qed.

Lemma split_nonempty (sep : ascii) (s : string) : Py.split sep s <> [].
Proof.
  destruct s as [|c s]; simpl; [discriminate|].
  destruct (Ascii.eqb c sep); [discriminate|].
  destruct (Py.split sep s); discriminate.
Qed.

Lemma rfind_from_absent (c : ascii) (s : string) (i last : Z) :
  Py.all_chars (fun d => negb (Ascii.eqb d c)) s = true ->
  Py.rfind_from c s i last = last.
Proof.
  revert i last. induction s as [|d s IH]; simpl; intros i last H; [reflexivity|].
  apply andb_prop in H. destruct H as [Hd Hs].
  apply negb_true_iff in Hd. rewrite Hd. now apply IH.
Qed.

Lemma rfind_from_last (c : ascii) (a b : string) (i last : Z) :
  Py.all_chars (fun d => negb (Ascii.eqb d c)) b = true ->
  Py.rfind_from c (a ++ String c b) i last = i + Py.len a.
Proof.
  revert i last. induction a as [|d a IH]; intros i last H.
  - simpl. rewrite Ascii.eqb_refl. rewrite rfind_from_absent by assumption.
    unfold Py.len. simpl. lia.
  - simpl. rewrite IH by assumption. unfold Py.len. simpl String.length. lia.
Qed.

Lemma drop_app (a b : string) : Py.drop (String.length a) (a ++ b) = b.
Proof. induction a; simpl; auto. Qed.

Lemma string_length_app (a b : string) :
  String.length (a ++ b) = (String.length a + String.length b)%nat.
Proof. induction a; simpl; auto. Qed.

Lemma basename_app (dir name : string) :
  no_slash name = true ->
  Py.basename (dir ++ String "/" name) = name.
Proof.
  intros H. unfold Py.basename, Py.rfind, Py.slice_from.
  rewrite rfind_from_last by exact H.
  unfold Py.len.
  replace (Z.to_nat (0 + Z.of_nat (String.length dir) + 1))
    with (String.length (dir ++ "/")).
  - replace (dir ++ String "/" name) with ((dir ++ "/") ++ name).
    + apply drop_app.
    + induction dir; simpl; [reflexivity | now f_equal].
  - rewrite string_length_app. simpl. lia.
Qed.

Lemma isdigit_no_slash (s : string) : Py.isdigit s = true -> no_slash s = true.
Proof.
  destruct s as [|c s]; [discriminate|]. unfold Py.isdigit, no_slash.
  generalize (String c s). clear. intros s.
  induction s as [|c s IH]; simpl; [reflexivity|].
  intros H. apply andb_prop in H. destruct H as [Hc Hs].
  rewrite (IH Hs), andb_true_r.
  apply negb_true_iff. destruct (Ascii.eqb_spec c "/"%char) as [->|]; [|reflexivity].
  discriminate Hc.
Qed.

Lemma substring_drop (s : string) (n : nat) :
  String.substring 0 n s ++ Py.drop n s = s.
Proof.
  revert s. induction n as [|n IH]; intros [|c s]; simpl; try reflexivity.
  now rewrite IH.
Qed.

(** [os.path.splitext] cuts the name in two: nothing is lost. *)
Lemma splitext_concat (p : string) :
  fst (Py.splitext p) ++ snd (Py.splitext p) = p.
Proof.
  unfold Py.splitext.
  destruct (Py.rfind p "." >? Py.rfind p "/").
  - destruct (Py.has_non_dot _ _ _); simpl.
    + apply substring_drop.
    + clear. induction p; simpl; [reflexivity | now f_equal].
  - simpl. clear. induction p; simpl; [reflexivity | now f_equal].
Qed.

Lemma append_assoc (a b c : string) : (a ++ b) ++ c = a ++ b ++ c.
Proof. induction a; simpl; [reflexivity | now f_equal]. Qed.

Lemma join_snoc (segs : list string) (last : string) :
  segs <> [] ->
  Py.join "/" (segs ++ [last]) = Py.join "/" segs ++ String "/" last.
Proof.
  induction segs as [|s segs IH]; [congruence|]. intros _.
  destruct segs as [|s' segs]; [reflexivity|].
  change (Py.join "/" ((s :: s' :: segs) ++ [last]))
    with (s ++ String "/" (Py.join "/" ((s' :: segs) ++ [last]))).
  rewrite IH by discriminate.
  change (Py.join "/" (s :: s' :: segs))
    with (s ++ String "/" (Py.join "/" (s' :: segs))).
  rewrite append_assoc. reflexivity.
Qed.

Lemma basename_join (segs : list string) (name : string) :
  segs <> [] ->
  no_slash name = true ->
  Py.basename (Py.join "/" (segs ++ [name])) = name.
Proof.
  intros Hne Hname. rewrite join_snoc by assumption. now apply basename_app.
Qed.

(** ** PathCodec: [extract_path_info] and [generate_thumbnail_path] *)


Lemma zfill_one_digit (c : ascii) :
  Py.zfill (String c "") 2 = String "0" (String c "") \/ Py.is_ascii_digit c = false.
Proof.
  destruct (Py.is_ascii_digit c) eqn:H; [left | now right].
  unfold Py.zfill. simpl.
  destruct (Ascii.eqb_spec c "+"%char) as [->|]; [discriminate H|].
  destruct (Ascii.eqb_spec c "-"%char) as [->|]; [discriminate H|].
  reflexivity.
Qed.

Lemma zfill_wide (s : string) :
  (2 <= String.length s)%nat -> Py.zfill s 2 = s.
Proof.
  intros H. unfold Py.zfill, Py.len.
  destruct (Z.geb_spec (Z.of_nat (String.length s)) 2); [reflexivity | lia].
Qed.

(** ** The multi-record loop of [src/lambda/lambda_function.py] *)

(** A record whose body ends normally (including by [continue]) leaves the
    loop running: the handler goes on with the remaining records. *)
Lemma handler_continue (W : World) (record : s3_record)
      (rest : list s3_record) (acts : list action) :
  LambdaFunction.handle_record W record = (acts, Ok tt) ->
  LambdaFunction.lambda_handler W (record :: rest)
  = ((acts ++ fst (LambdaFunction.lambda_handler W rest))%list,
     snd (LambdaFunction.lambda_handler W rest)).
Proof.
  intros H. unfold LambdaFunction.lambda_handler. simpl. rewrite H.
  destruct (LambdaFunction.for_records W rest) as [acts' [[]|e]]; simpl.
  - reflexivity.
  - now rewrite app_assoc.
Qed.

(** A record whose body raises ends the loop: the remaining records are
    never looked at and the handler answers 500. *)
Lemma handler_abort (W : World) (record : s3_record)
      (rest : list s3_record) (acts : list action) (e : exn) :
  LambdaFunction.handle_record W record = (acts, Raise e) ->
  LambdaFunction.lambda_handler W (record :: rest)
  = ((acts ++ [LogError e])%list, {| statusCode := 500; body := BodyError e |}).
Proof.
  intros H. unfold LambdaFunction.lambda_handler. simpl. now rewrite H.
Qed.

Lemma handle_record_eligible (W : World) (record : s3_record) :
  eligible record ->
  LambdaFunction.handle_record W record =
  let bucket := bucket_name record in
  let key := decode_key (object_key record) in
  let filename := Py.basename key in
  match LambdaFunction.generate_thumbnail_path key filename with
  | None => ([LogPathFailure key], Ok tt)
  | Some thumbnail_key =>
      match s3_download_file W bucket key with
      | Raise e => ([Download bucket key; Cleanup filename], Raise e)
      | Ok input =>
          match (if is_raw_file filename
                 then LambdaFunction.process_raw_file W input
                 else LambdaFunction.process_jpg_file W input) with
          | None => ([Download bucket key; LogGenerationFailure filename;
                      Cleanup filename], Ok tt)
          | Some thumb =>
              let '(optimized, output) :=
                LambdaFunction.optimize_thumbnail W thumb 1200 1200 in
              (([Download bucket key]
                  ++ (if optimized then [] else [LogOptimizeFailure])
                  ++ [Upload output bucket thumbnail_key; Cleanup filename])%list,
               s3_upload_file W output bucket thumbnail_key)
          end
      end
  end.
Proof.
  intros (Hsrc & Hname & Hraw & Hjpg & Hext).
  unfold LambdaFunction.handle_record.
  rewrite Hsrc, Hname, Hraw, Hjpg, Hext. reflexivity.
Qed.

(** ** C3: path-format failures *)




(** ** C4: destination derivation *)

(** C4.  For a key [user/<uid>/<category>/<y>/<m>/<d>/<fname>] with a
    known category and numeric date, the destination key keeps user and
    year, maps the category to [<category>Thumbnail], pads month and day to
    two digits, and replaces the extension of the file name (whatever it
    is) by [_thumb.jpg]. *)
Theorem C4_destination_key (uid category y m d fname : string) :
  no_slash uid = true ->
  no_slash fname = true ->
  category = "raw" \/ category = "jpg" ->
  Py.isdigit y = true -> Py.isdigit m = true -> Py.isdigit d = true ->
  let key := Py.join "/" ["user"; uid; category; y; m; d; fname] in
  let stem := fst (Py.splitext fname) in
  LambdaFunction.generate_thumbnail_path key (Py.basename key)
  = Some ("user/" ++ uid ++ "/" ++ category ++ "Thumbnail" ++ "/" ++ y ++ "/"
          ++ Py.zfill m 2 ++ "/" ++ Py.zfill d 2 ++ "/" ++ stem ++ "_thumb.jpg")
  /\ stem ++ snd (Py.splitext fname) = fname
  /\ (forall c, m = String c "" -> Py.zfill m 2 = String "0" m)
  /\ (forall c, d = String c "" -> Py.zfill d 2 = String "0" d)
  /\ ((2 <= String.length m)%nat -> Py.zfill m 2 = m)
  /\ ((2 <= String.length d)%nat -> Py.zfill d 2 = d).
Proof.
  intros Huid Hfname Hcat Hy Hm Hd key stem.
  assert (Hsplit : Py.split "/" key = ["user"; uid; category; y; m; d; fname]).
  { apply split_join; [discriminate|].
    repeat constructor; auto using isdigit_no_slash.
    destruct Hcat as [-> | ->]; reflexivity. }
  assert (Hbase : Py.basename key = fname).
  { apply (basename_join ["user"; uid; category; y; m; d] fname);
      [discriminate | assumption]. }
  repeat split.
  - rewrite Hbase. unfold LambdaFunction.generate_thumbnail_path,
      LambdaFunction.extract_path_info.
    rewrite Hsplit. simpl List.length. simpl nth.
    rewrite Hy, Hm, Hd. simpl.
    destruct Hcat as [-> | ->]; reflexivity.
  - apply splitext_concat.
  - intros c ->. destruct (zfill_one_digit c) as [H|H]; [exact H|].
    simpl in Hm. rewrite H in Hm. discriminate.
  - intros c ->. destruct (zfill_one_digit c) as [H|H]; [exact H|].
    simpl in Hd. rewrite H in Hd. discriminate.
  - apply zfill_wide.
  - apply zfill_wide.
Qed.

Lemma C4_witness :
  LambdaFunction.generate_thumbnail_path
    "user/u1/raw/2023/4/5/IMG_01.CR2"
    (Py.basename "user/u1/raw/2023/4/5/IMG_01.CR2")
  = Some "user/u1/rawThumbnail/2023/04/05/IMG_01_thumb.jpg".
Proof.
  exact (proj1 (C4_destination_key "u1" "raw" "2023" "4" "5" "IMG_01.CR2"
                  eq_refl eq_refl (or_introl eq_refl)
                  eq_refl eq_refl eq_refl)).
Defined.

(** ** C10: the thumbnail re-entry guard *)

Lemma prefix_app (a b : string) : String.prefix a (a ++ b) = true.
Proof.
  induction a as [|c a IH]; simpl; [now destruct b|].
  destruct (ascii_dec c c); [assumption | congruence].
Qed.

(** [sub in s] holds as soon as [sub] occurs somewhere in [s]. *)
Lemma contains_occurrence (sub before after : string) :
  Py.contains sub (before ++ sub ++ after) = true.
Proof.
  induction before as [|c before IH].
  - simpl append. generalize (prefix_app sub after).
    destruct (sub ++ after); simpl; intros ->; reflexivity.
  - simpl append. simpl Py.contains. fold Py.contains. rewrite IH.
    apply orb_true_r.
Qed.

(** C10.  The guard looks for the two directory names anywhere in the
    decoded key.  A record whose key contains [rawThumbnail] or
    [jpgThumbnail] at any position - in the user id, in the file name,
    whatever the category segment - is skipped: nothing is downloaded,
    generated or uploaded for it and the loop goes on.  When the record
    passes the event filter the only action is the guard's log line;
    otherwise there is none at all. *)
Theorem C10_reentry_guard_is_substring_test
        (W : World) (record : s3_record) (rest : list s3_record)
        (before after : string) :
  let key := decode_key (object_key record) in
  let logged :=
    if negb (String.eqb (eventSource record) "aws:s3")
       || negb (Py.startswith (eventName record) "ObjectCreated")
    then [] else [LogSkipThumbnailDir key] in
  key = before ++ "rawThumbnail" ++ after
  \/ key = before ++ "jpgThumbnail" ++ after ->
  LambdaFunction.handle_record W record = (logged, Ok tt)
  /\ LambdaFunction.lambda_handler W (record :: rest)
     = ((logged ++ fst (LambdaFunction.lambda_handler W rest))%list,
        snd (LambdaFunction.lambda_handler W rest)).
Proof.
  intros key logged Hsub.
  assert (Hrec : LambdaFunction.handle_record W record = (logged, Ok tt)).
  { unfold LambdaFunction.handle_record, logged.
    destruct (negb (String.eqb (eventSource record) "aws:s3")
              || negb (Py.startswith (eventName record) "ObjectCreated"))%bool;
      [reflexivity|].
    fold key.
    destruct Hsub as [-> | ->]; rewrite contains_occurrence;
      [reflexivity | now rewrite orb_true_r]. }
  split; [exact Hrec|].
  now rewrite (handler_continue W record rest _ Hrec).
Qed.

Lemma C10_witness :
  LambdaFunction.generate_thumbnail_path
    "user/rawThumbnailFan/jpg/2023/04/05/a.jpg" "a.jpg"
  = Some "user/rawThumbnailFan/jpgThumbnail/2023/04/05/a_thumb.jpg"
  /\ LambdaFunction.lambda_handler calm_world
       [Sample.record_for "user/rawThumbnailFan/jpg/2023/04/05/a.jpg"]
     = ([LogSkipThumbnailDir "user/rawThumbnailFan/jpg/2023/04/05/a.jpg"],
        {| statusCode := 200; body := BodyDone |}).
Proof.
  split; [reflexivity|].
  exact (proj2 (C10_reentry_guard_is_substring_test calm_world
                  (Sample.record_for "user/rawThumbnailFan/jpg/2023/04/05/a.jpg")
                  [] "user/" "Fan/jpg/2023/04/05/a.jpg"
                  (or_introl eq_refl))).
Defined.

(** ** C2: one record's failure and the rest of the batch *)

(** Records are taken in list order: as long as the bodies end normally,
    the actions of the handler are the actions of each record, one after
    the other. *)
Lemma for_records_app (W : World) (done rest : list s3_record) :
  Forall (fun r => snd (LambdaFunction.handle_record W r) = Ok tt) done ->
  LambdaFunction.for_records W (done ++ rest)
  = ((List.concat (map (fun r => fst (LambdaFunction.handle_record W r)) done)
        ++ fst (LambdaFunction.for_records W rest))%list,
     snd (LambdaFunction.for_records W rest)).
Proof.
  induction done as [|r done IH]; intros Hall.
  - simpl. now destruct (LambdaFunction.for_records W rest).
  - inversion Hall as [|? ? Hr Hdone]; subst.
    simpl. destruct (LambdaFunction.handle_record W r) as [acts res].
    simpl in Hr. subst res. rewrite (IH Hdone). simpl.
    now rewrite app_assoc.
Qed.

(** C2, as the code has it.  Records are processed one after the other.
    A thumbnail generation failure ([process_raw_file] or
    [process_jpg_file] returning [False]) is logged, the temporary files
    are removed and the loop goes on with the next record.  An exception
    raised by the download or by the upload is not caught inside the loop:
    after the cleanup it reaches the handler's outer [except], which logs
    it and answers 500; the remaining records are not attempted.  After a
    successful upload the loop goes on. *)
Theorem C2_batch_failure_propagation
        (W : World) (record : s3_record) (rest : list s3_record)
        (thumbnail_key : string) :
  let bucket := bucket_name record in
  let key := decode_key (object_key record) in
  let filename := Py.basename key in
  let generate input :=
    if is_raw_file filename then LambdaFunction.process_raw_file W input
    else LambdaFunction.process_jpg_file W input in
  eligible record ->
  LambdaFunction.generate_thumbnail_path key filename = Some thumbnail_key ->
  (forall done : list s3_record,
      Forall (fun r => snd (LambdaFunction.handle_record W r) = Ok tt) done ->
      fst (LambdaFunction.for_records W (done ++ rest))
      = (List.concat (map (fun r => fst (LambdaFunction.handle_record W r)) done)
           ++ fst (LambdaFunction.for_records W rest))%list)
  /\ (forall input,
         s3_download_file W bucket key = Ok input ->
         generate input = None ->
         LambdaFunction.lambda_handler W (record :: rest)
         = ([Download bucket key; LogGenerationFailure filename;
             Cleanup filename] ++ fst (LambdaFunction.lambda_handler W rest),
            snd (LambdaFunction.lambda_handler W rest))%list)
  /\ (forall e,
         s3_download_file W bucket key = Raise e ->
         LambdaFunction.lambda_handler W (record :: rest)
         = ([Download bucket key; Cleanup filename; LogError e],
            {| statusCode := 500; body := BodyError e |}))
  /\ (forall input thumb e,
         s3_download_file W bucket key = Ok input ->
         generate input = Some thumb ->
         let '(optimized, output) :=
           LambdaFunction.optimize_thumbnail W thumb 1200 1200 in
         s3_upload_file W output bucket thumbnail_key = Raise e ->
         LambdaFunction.lambda_handler W (record :: rest)
         = (([Download bucket key]
               ++ (if optimized then [] else [LogOptimizeFailure])
               ++ [Upload output bucket thumbnail_key; Cleanup filename;
                   LogError e])%list,
            {| statusCode := 500; body := BodyError e |}))
  /\ (forall input thumb,
         s3_download_file W bucket key = Ok input ->
         generate input = Some thumb ->
         let '(optimized, output) :=
           LambdaFunction.optimize_thumbnail W thumb 1200 1200 in
         s3_upload_file W output bucket thumbnail_key = Ok tt ->
         LambdaFunction.lambda_handler W (record :: rest)
         = (([Download bucket key]
               ++ (if optimized then [] else [LogOptimizeFailure])
               ++ [Upload output bucket thumbnail_key; Cleanup filename]
               ++ fst (LambdaFunction.lambda_handler W rest))%list,
            snd (LambdaFunction.lambda_handler W rest))).
Proof.
  intros bucket key filename generate Hel Hpath.
  pose proof (handle_record_eligible W record Hel) as Hrec.
  cbv zeta in Hrec. fold bucket key filename in Hrec. rewrite Hpath in Hrec.
  repeat split.
  - intros done Hdone. now rewrite for_records_app.
  - intros input Hdl Hgen. unfold generate in Hgen.
    rewrite Hdl, Hgen in Hrec.
    now rewrite (handler_continue W record rest _ Hrec).
  - intros e Hdl. rewrite Hdl in Hrec.
    now rewrite (handler_abort W record rest _ e Hrec).
  - intros input thumb e Hdl Hgen. unfold generate in Hgen.
    rewrite Hdl, Hgen in Hrec.
    destruct (LambdaFunction.optimize_thumbnail W thumb 1200 1200)
      as [optimized output].
    intros Hup. rewrite Hup in Hrec.
    rewrite (handler_abort W record rest _ e Hrec).
    f_equal. destruct optimized; reflexivity.
  - intros input thumb Hdl Hgen. unfold generate in Hgen.
    rewrite Hdl, Hgen in Hrec.
    destruct (LambdaFunction.optimize_thumbnail W thumb 1200 1200)
      as [optimized output].
    intros Hup. rewrite Hup in Hrec.
    rewrite (handler_continue W record rest _ Hrec).
    f_equal. destruct optimized; reflexivity.
Qed.

Lemma C2_witness :
  eligible (Sample.record_for "user/u1/raw/2023/4/5/IMG_01.CR2")
  /\ LambdaFunction.lambda_handler corrupt_world two_raw_batch
     = ([Download "photos" "user/u1/raw/2023/4/5/IMG_01.CR2";
         LogGenerationFailure "IMG_01.CR2"; Cleanup "IMG_01.CR2";
         Download "photos" "user/u1/raw/2023/4/5/IMG_02.CR2";
         Upload (Sample.encode (64, 48) 85) "photos"
                "user/u1/rawThumbnail/2023/04/05/IMG_02_thumb.jpg";
         Cleanup "IMG_02.CR2"],
        {| statusCode := 200; body := BodyDone |})
  /\ LambdaFunction.lambda_handler readonly_world two_raw_batch
     = ([Download "photos" "user/u1/raw/2023/4/5/IMG_01.CR2";
         Upload (Sample.encode (64, 48) 85) "photos"
                "user/u1/rawThumbnail/2023/04/05/IMG_01_thumb.jpg";
         Cleanup "IMG_01.CR2"; LogError ClientError],
        {| statusCode := 500; body := BodyError ClientError |}).
Proof.
  assert (He : eligible (Sample.record_for "user/u1/raw/2023/4/5/IMG_01.CR2"))
    by (repeat split; reflexivity).
  split; [exact He|]. split.
  - exact (proj1 (proj2 (C2_batch_failure_propagation corrupt_world
             (Sample.record_for "user/u1/raw/2023/4/5/IMG_01.CR2")
             (tl two_raw_batch)
             "user/u1/rawThumbnail/2023/04/05/IMG_01_thumb.jpg"
             He eq_refl)) [] eq_refl eq_refl).
  - exact (proj1 (proj2 (proj2 (proj2 (C2_batch_failure_propagation
             readonly_world
             (Sample.record_for "user/u1/raw/2023/4/5/IMG_01.CR2")
             (tl two_raw_batch)
             "user/u1/rawThumbnail/2023/04/05/IMG_01_thumb.jpg"
             He eq_refl)))) [x00] (Sample.encode (64, 48) 85) ClientError
             eq_refl eq_refl eq_refl).
Defined.

(** The specification promises that a download failure on one record leaves the
    later records attempted.  With S3 refusing the first object, the second
    one - which the same handler converts when it comes alone - is never
    downloaded. *)
Lemma C2_counterexample :
  LambdaFunction.lambda_handler outage_world two_raw_batch
  = ([Download "photos" "user/u1/raw/2023/4/5/IMG_01.CR2";
      Cleanup "IMG_01.CR2"; LogError ClientError],
     {| statusCode := 500; body := BodyError ClientError |})
  /\ ~ In (Download "photos" "user/u1/raw/2023/4/5/IMG_02.CR2")
          (fst (LambdaFunction.lambda_handler outage_world two_raw_batch))
  /\ In (Download "photos" "user/u1/raw/2023/4/5/IMG_02.CR2")
        (fst (LambdaFunction.lambda_handler outage_world (tl two_raw_batch))).
Proof.
  split; [vm_compute; reflexivity|]. split.
  - vm_compute. intros [H|[H|[H|[]]]]; discriminate H.
  - vm_compute. left. reflexivity.
Qed.

(** ** C5: the embedded-JPEG scan *)

Lemma prefix_nil_false (sub : bytes) : sub <> [] -> PyBytes.prefix sub [] = false.
Proof. destruct sub; [congruence | reflexivity]. Qed.

Lemma find_from_absent (sub s : bytes) (i : Z) :
  sub <> [] ->
  (forall j, PyBytes.prefix sub (skipn j s) = false) ->
  PyBytes.find_from sub s i = -1.
Proof.
  intros Hsub. revert i. induction s as [|b s IH]; intros i Habs.
  - simpl. now rewrite prefix_nil_false.
  - simpl PyBytes.find_from. rewrite (Habs 0%nat : PyBytes.prefix sub (b :: s) = false).
    apply IH. intros j. exact (Habs (S j)).
Qed.

Lemma find_from_found (sub s : bytes) (i : Z) (k : nat) :
  PyBytes.prefix sub (skipn k s) = true ->
  (forall j, (j < k)%nat -> PyBytes.prefix sub (skipn j s) = false) ->
  PyBytes.find_from sub s i = i + Z.of_nat k.
Proof.
  revert s i. induction k as [|k IH]; intros s i Hk Hbefore.
  - simpl in Hk. destruct s; simpl; rewrite Hk; lia.
  - destruct s as [|b s].
    + simpl in Hk. pose proof (Hbefore 0%nat ltac:(lia)) as H0. simpl in H0.
      congruence.
    + simpl PyBytes.find_from.
      rewrite (Hbefore 0%nat ltac:(lia) : PyBytes.prefix sub (b :: s) = false).
      rewrite (IH s (i + 1)).
      * lia.
      * exact Hk.
      * intros j Hj. exact (Hbefore (S j) ltac:(lia)).
Qed.

Lemma skipn_past_end (data : bytes) (j : nat) :
  (List.length data <= j)%nat -> skipn j data = [].
Proof. apply skipn_all2. Qed.

Lemma occurs_in_range (sub data : bytes) (j : nat) :
  sub <> [] -> occurs_at sub data j -> (j < List.length data)%nat.
Proof.
  intros Hsub Hocc. unfold occurs_at in Hocc.
  destruct (Nat.lt_ge_cases j (List.length data)) as [H|H]; [exact H|].
  rewrite skipn_past_end, prefix_nil_false in Hocc by assumption.
  discriminate.
Qed.

Lemma find_absent (sub data : bytes) (start : nat) :
  sub <> [] ->
  absent_from sub data start ->
  PyBytes.find data sub (Z.of_nat start) = -1.
Proof.
  intros Hsub Habs. unfold PyBytes.find.
  destruct (Z.of_nat start >? Z.of_nat (List.length data)); [reflexivity|].
  rewrite Nat2Z.id. apply find_from_absent; [assumption|].
  intros j. rewrite skipn_skipn.
  specialize (Habs (j + start)%nat ltac:(lia)). unfold occurs_at in Habs.
  now destruct (PyBytes.prefix sub (skipn (j + start) data)).
Qed.

Lemma find_first (sub data : bytes) (start k : nat) :
  sub <> [] ->
  first_occurrence sub data start k ->
  PyBytes.find data sub (Z.of_nat start) = Z.of_nat k.
Proof.
  intros Hsub (Hle & Hocc & Hbefore). unfold PyBytes.find.
  pose proof (occurs_in_range sub data k Hsub Hocc) as Hk.
  destruct (Z.gtb_spec (Z.of_nat start) (Z.of_nat (List.length data))); [lia|].
  rewrite Nat2Z.id.
  rewrite (find_from_found sub (skipn start data) (Z.of_nat start) (k - start)).
  - lia.
  - rewrite skipn_skipn. replace (k - start + start)%nat with k by lia.
    exact Hocc.
  - intros j Hj. rewrite skipn_skipn.
    specialize (Hbefore (j + start)%nat ltac:(lia)). unfold occurs_at in Hbefore.
    now destruct (PyBytes.prefix sub (skipn (j + start) data)).
Qed.

(** Every byte string either has a first occurrence of [sub] at or after
    [start], or none at all. *)
Lemma first_occurrence_or_absent (sub data : bytes) (start : nat) :
  (exists k, first_occurrence sub data start k) \/ absent_from sub data start.
Proof.
  assert (H : forall n,
    (exists k, first_occurrence sub data start k)
    \/ forall j, (start <= j < start + n)%nat -> ~ occurs_at sub data j).
  { induction n as [|n [IH|IH]].
    - right. intros j Hj. lia.
    - now left.
    - destruct (PyBytes.prefix sub (skipn (start + n) data)) eqn:E.
      + left. exists (start + n)%nat. split; [lia|]. split; [exact E|].
        intros j Hj. apply IH. lia.
      + right. intros j Hj.
        destruct (Nat.eq_dec j (start + n)) as [->|Hne].
        * unfold occurs_at. now rewrite E.
        * apply IH. lia. }
  destruct sub as [|b sub].
  - left. exists start. split; [lia|]. split; [reflexivity|]. intros j Hj. lia.
  - destruct (H (S (List.length data))) as [Hk|Hnone]; [now left|].
    right. intros j Hj Hocc.
    pose proof (occurs_in_range (b :: sub) data j ltac:(discriminate) Hocc).
    apply (Hnone j); [lia | exact Hocc].
Qed.

(** C5, as the code has it.  The scan takes the first start-of-image
    marker [FF D8 FF], then the first end-of-image marker [FF D9] at or
    after it.  Without one of them the answer is [None].  With both, the
    slice from the first to the two bytes of the second is returned
    exactly when [Image.open] accepts it, and a rejected slice gives
    [None].  [Image.open] is the only test: the image data of the slice
    is not decoded.  No exception leaves the function, whatever Pillow
    does. *)
Theorem C5_embedded_jpeg_scan (W : World) (raw_data : bytes) :
  (absent_from LambdaFunctionPil.jpeg_start raw_data 0 ->
   LambdaFunctionPil.find_jpeg_data_in_raw W raw_data = Ok None)
  /\ (forall s,
         first_occurrence LambdaFunctionPil.jpeg_start raw_data 0 s ->
         absent_from LambdaFunctionPil.jpeg_end raw_data s ->
         LambdaFunctionPil.find_jpeg_data_in_raw W raw_data = Ok None)
  /\ (forall s e,
         first_occurrence LambdaFunctionPil.jpeg_start raw_data 0 s ->
         first_occurrence LambdaFunctionPil.jpeg_end raw_data s e ->
         let candidate := firstn (e + 2 - s) (skipn s raw_data) in
         LambdaFunctionPil.find_jpeg_data_in_raw W raw_data
         = match Image_open W candidate with
           | Ok _ => Ok (Some candidate)
           | Raise _ => Ok None
           end)
  /\ (exists found, LambdaFunctionPil.find_jpeg_data_in_raw W raw_data = Ok found).
Proof.
  assert (Hs : LambdaFunctionPil.jpeg_start <> []) by discriminate.
  assert (He : LambdaFunctionPil.jpeg_end <> []) by discriminate.
  assert (Hno_start :
    absent_from LambdaFunctionPil.jpeg_start raw_data 0 ->
    LambdaFunctionPil.find_jpeg_data_in_raw W raw_data = Ok None).
  { intros Habs. unfold LambdaFunctionPil.find_jpeg_data_in_raw.
    pose proof (find_absent _ raw_data 0 Hs Habs) as H0.
    change (Z.of_nat 0) with 0 in H0. rewrite H0. reflexivity. }
  assert (Hno_end : forall s,
    first_occurrence LambdaFunctionPil.jpeg_start raw_data 0 s ->
    absent_from LambdaFunctionPil.jpeg_end raw_data s ->
    LambdaFunctionPil.find_jpeg_data_in_raw W raw_data = Ok None).
  { intros s Hfirst Habs. unfold LambdaFunctionPil.find_jpeg_data_in_raw.
    pose proof (find_first _ raw_data 0 s Hs Hfirst) as H0.
    change (Z.of_nat 0) with 0 in H0. rewrite H0.
    destruct (Z.eqb_spec (Z.of_nat s) (-1)); [lia|].
    rewrite (find_absent _ raw_data s He Habs). reflexivity. }
  assert (Hboth : forall s e,
    first_occurrence LambdaFunctionPil.jpeg_start raw_data 0 s ->
    first_occurrence LambdaFunctionPil.jpeg_end raw_data s e ->
    LambdaFunctionPil.find_jpeg_data_in_raw W raw_data
    = match Image_open W (firstn (e + 2 - s) (skipn s raw_data)) with
      | Ok _ => Ok (Some (firstn (e + 2 - s) (skipn s raw_data)))
      | Raise _ => Ok None
      end).
  { intros s e Hfirst Hend. unfold LambdaFunctionPil.find_jpeg_data_in_raw.
    pose proof (find_first _ raw_data 0 s Hs Hfirst) as H0.
    change (Z.of_nat 0) with 0 in H0. rewrite H0.
    destruct (Z.eqb_spec (Z.of_nat s) (-1)); [lia|].
    rewrite (find_first _ raw_data s e He Hend).
    destruct (Z.eqb_spec (Z.of_nat e) (-1)); [lia|].
    unfold PyBytes.slice.
    replace (Z.to_nat (Z.of_nat e + 2 - Z.of_nat s)) with (e + 2 - s)%nat
      by (destruct Hend; lia).
    rewrite Nat2Z.id.
    destruct (Image_open W (firstn (e + 2 - s) (skipn s raw_data)));
      reflexivity. }
  repeat split; try assumption.
  destruct (first_occurrence_or_absent LambdaFunctionPil.jpeg_start raw_data 0)
    as [[s Hfirst]|Habs].
  - destruct (first_occurrence_or_absent LambdaFunctionPil.jpeg_end raw_data s)
      as [[e Hend]|Habs].
    + rewrite (Hboth s e Hfirst Hend).
      destruct (Image_open W _); eexists; reflexivity.
    + exists None. now apply (Hno_end s).
  - exists None. now apply Hno_start.
Qed.

Ltac scan_offsets :=
  let j := fresh "j" in
  let Hj := fresh "Hj" in
  intros j Hj;
  do 12 (destruct j as [|j];
         [first [ lia | unfold occurs_at; simpl; discriminate ] |]);
  lia.

Lemma C5_witness :
  first_occurrence LambdaFunctionPil.jpeg_start raw_with_preview 0 1
  /\ first_occurrence LambdaFunctionPil.jpeg_end raw_with_preview 1 9
  /\ LambdaFunctionPil.find_jpeg_data_in_raw calm_world raw_with_preview
     = Ok (Some (Sample.encode (64, 48) 90)).
Proof.
  assert (Hs : first_occurrence LambdaFunctionPil.jpeg_start raw_with_preview 0 1).
  { split; [lia|]. split; [reflexivity | scan_offsets]. }
  assert (He : first_occurrence LambdaFunctionPil.jpeg_end raw_with_preview 1 9).
  { split; [lia|]. split; [reflexivity | scan_offsets]. }
  split; [exact Hs|]. split; [exact He|].
  exact (proj1 (proj2 (proj2 (C5_embedded_jpeg_scan calm_world raw_with_preview)))
           1%nat 9%nat Hs He).
Defined.

(** The specification asks for a full decode before a slice is accepted.
    The code calls [Image.open] only.  Here the first end marker comes
    right after the header: [Image.open] reads the header and accepts,
    the scan returns the slice, and [process_raw_file] takes it as the
    thumbnail, although its image data cannot be loaded. *)
Lemma C5_counterexample :
  first_occurrence LambdaFunctionPil.jpeg_start header_only_raw 0 1
  /\ first_occurrence LambdaFunctionPil.jpeg_end header_only_raw 1 8
  /\ LambdaFunctionPil.find_jpeg_data_in_raw (pillow lazy_pillow) header_only_raw
     = Ok (Some header_only_slice)
  /\ LambdaFunctionPil.process_raw_file (pillow lazy_pillow) header_only_raw ".cr2"
     = Ok header_only_slice
  /\ Image_load lazy_pillow header_only_slice = Raise OSError
  /\ ~ full_decode_succeeds lazy_pillow header_only_slice.
Proof.
  split; [split; [lia|]; split; [reflexivity | scan_offsets]|].
  split; [split; [lia|]; split; [reflexivity | scan_offsets]|].
  split; [reflexivity|]. split; [reflexivity|]. split; [reflexivity|].
  intros (img & Hopen & Hload).
  assert (Himg : img = header_only_slice).
  { cbn in Hopen. injection Hopen as <-. reflexivity. }
  subst img. discriminate Hload.
Qed.

(** ** C8: the fast path of the size optimisation *)

Lemma optimize_thumbnail_small
      (W : World) (thumb_data : bytes) (max_width max_height : Z) :
  PyBytes.len thumb_data < 102400 ->
  LambdaFunctionPil.optimize_thumbnail W thumb_data max_width max_height
  = thumb_data.
Proof.
  intros Hlen. unfold LambdaFunctionPil.optimize_thumbnail.
  destruct (Z.ltb_spec (PyBytes.len thumb_data) (100 * 1024)); [reflexivity | lia].
Qed.




(** ** C9: the placeholder generator *)

(** [ImageDraw] is not among the module's imports: evaluating the name
    raises, whatever Pillow could draw. *)
Lemma ImageDraw_unbound :
  LambdaFunctionPil.lookup_global "ImageDraw" = Raise (NameError "ImageDraw").
Proof. reflexivity. Qed.





(** ** C1: strategy exhaustion ends in a placeholder, not in an error *)



(** ** Binary64 arithmetic: accuracy of [/], [*] and [int()] *)

Lemma digits2_pos_bounds (p : positive) :
  2 ^ (Z.pos (digits2_pos p) - 1) <= Z.pos p < 2 ^ Z.pos (digits2_pos p).
Proof.
  induction p as [p IH|p IH|]; simpl digits2_pos.
  - rewrite Pos2Z.inj_succ.
    replace (Z.succ (Z.pos (digits2_pos p)) - 1) with (Z.succ (Z.pos (digits2_pos p) - 1)) by lia.
    rewrite !Z.pow_succ_r by lia. lia.
  - rewrite Pos2Z.inj_succ.
    replace (Z.succ (Z.pos (digits2_pos p)) - 1) with (Z.succ (Z.pos (digits2_pos p) - 1)) by lia.
    rewrite !Z.pow_succ_r by lia. lia.
  - simpl. lia.
Qed.

(** The number of digits is determined by the binade. *)
Lemma digits2_pos_unique (p : positive) (d : Z) :
  2 ^ (d - 1) <= Z.pos p < 2 ^ d -> Z.pos (digits2_pos p) = d.
Proof.
  intros [Hlo Hhi]. pose proof (digits2_pos_bounds p) as [Hlo' Hhi'].
  assert (0 < d). { destruct (Z.lt_ge_cases 0 d); [assumption|]. 
    assert (2 ^ d <= 2 ^ 0) by (apply Z.pow_le_mono_r; lia). simpl in *. lia. }
  destruct (Z.lt_trichotomy (Z.pos (digits2_pos p)) d) as [H1|[H1|H1]]; [|assumption|].
  - assert (2 ^ Z.pos (digits2_pos p) <= 2 ^ (d - 1)) by (apply Z.pow_le_mono_r; lia). lia.
  - assert (2 ^ d <= 2 ^ (Z.pos (digits2_pos p) - 1)) by (apply Z.pow_le_mono_r; lia). lia.
Qed.

Lemma iter_pos_nat {A} (f : A -> A) (p : positive) (x : A) :
  iter_pos f p x = Nat.iter (Pos.to_nat p) f x.
Proof.
  revert x. induction p as [p IH|p IH|]; intros x; simpl iter_pos.
  - rewrite !IH. rewrite Pos2Nat.inj_xI.
    replace (S (2 * Pos.to_nat p)) with (Pos.to_nat p + (Pos.to_nat p + 1))%nat by lia.
    rewrite !Nat.iter_add. reflexivity.
  - rewrite !IH. rewrite Pos2Nat.inj_xO.
    replace (2 * Pos.to_nat p)%nat with (Pos.to_nat p + Pos.to_nat p)%nat by lia.
    rewrite Nat.iter_add. reflexivity.
  - reflexivity.
Qed.

Lemma shr_1_m (r : shr_record) :
  0 <= shr_m r -> shr_m (shr_1 r) = shr_m r / 2.
Proof.
  destruct r as [m r s]. simpl. intros Hm.
  destruct m as [|p|p]; [reflexivity| |lia].
  destruct p as [p|p|]; simpl shr_m.
  - rewrite Pos2Z.inj_xI. apply Z.div_unique with 1; lia.
  - rewrite Pos2Z.inj_xO. apply Z.div_unique with 0; lia.
  - reflexivity.
Qed.

Lemma shr_iter_m (k : nat) (r : shr_record) :
  0 <= shr_m r -> shr_m (Nat.iter k shr_1 r) = shr_m r / 2 ^ Z.of_nat k.
Proof.
  intros Hm. induction k as [|k IH].
  - simpl. now rewrite Z.div_1_r.
  - rewrite Nat2Z.inj_succ, Z.pow_succ_r by lia. simpl Nat.iter.
    rewrite shr_1_m.
    + rewrite IH. rewrite Z.div_div by lia. f_equal. lia.
    + rewrite IH. apply Z.div_pos; lia.
Qed.

(** Shifting right by [n >= 0] divides the mantissa by [2^n]. *)
Lemma shr_m_spec (r : shr_record) (e n : Z) :
  0 <= shr_m r -> 0 <= n ->
  shr_m (fst (shr r e n)) = shr_m r / 2 ^ n /\ snd (shr r e n) = e + n.
Proof.
  intros Hm Hn. unfold shr. destruct n as [|p|p]; [| |lia].
  - simpl. rewrite Z.div_1_r. split; [reflexivity | lia].
  - simpl fst. simpl snd. rewrite iter_pos_nat, shr_iter_m by assumption.
    rewrite positive_nat_Z. split; reflexivity.
Qed.

Lemma shr_record_of_loc_m m l : shr_m (shr_record_of_loc m l) = m.
Proof. destruct l as [|[]]; reflexivity. Qed.

Lemma round_nearest_even_bracket m l :
  round_nearest_even m l = m \/ round_nearest_even m l = m + 1.
Proof.
  destruct l as [|[]]; simpl; auto. destruct (Z.even m); auto.
Qed.

Lemma fexp_normal (e : Z) : -1021 <= e -> fexp PyFloat.prec PyFloat.emax e = e - 53.
Proof. unfold fexp, emin, PyFloat.prec, PyFloat.emax. lia. Qed.

Lemma pow2_52_53 : 2 ^ 53 = 2 * 2 ^ 52. Proof. reflexivity. Qed.

Lemma binary_round_aux_bracket (sx : bool) (p : positive) (ex : Z) (lx : location) :
  let d := Z.pos (digits2_pos p) in
  let n := d - 53 in
  let M := Z.pos p / 2 ^ n in
  53 <= d -> -1021 <= d + ex <= 1023 ->
  exists m' e',
    binary_round_aux PyFloat.prec PyFloat.emax sx (Z.pos p) ex lx = S754_finite sx m' e'
    /\ 2 ^ 52 <= Z.pos m' < 2 ^ 53
    /\ 2 ^ 52 <= M < 2 ^ 53
    /\ ((e' = ex + n /\ (Z.pos m' = M \/ Z.pos m' = M + 1))
        \/ (e' = ex + n + 1 /\ M + 1 = 2 ^ 53 /\ Z.pos m' = 2 ^ 52)).
Proof.
  intros d n M Hd He.
  pose proof (digits2_pos_bounds p) as Hp. fold d in Hp.
  assert (Hn : 0 <= n) by (unfold n; lia).
  assert (HM : 2 ^ 52 <= M < 2 ^ 53).
  { unfold M. replace d with (n + 53) in Hp by (unfold n; lia).
    replace (n + 53 - 1) with (52 + n) in Hp by lia.
    rewrite !Z.pow_add_r in Hp by lia.
    split.
    - apply Z.div_le_lower_bound; [apply Z.pow_pos_nonneg; lia | lia].
    - apply Z.div_lt_upper_bound; [apply Z.pow_pos_nonneg; lia | lia]. }
  unfold binary_round_aux.
  (* first shift *)
  unfold shr_fexp at 1. simpl Zdigits2. fold d.
  rewrite fexp_normal by lia.
  replace (d + ex - 53 - ex) with n by (unfold n; lia).
  pose proof (shr_m_spec (shr_record_of_loc (Z.pos p) lx) ex n) as Hshr.
  rewrite shr_record_of_loc_m in Hshr. specialize (Hshr ltac:(lia) Hn).
  destruct (shr (shr_record_of_loc (Z.pos p) lx) ex n) as [mrs' e1] eqn:E1.
  simpl fst in Hshr. simpl snd in Hshr. destruct Hshr as [Hm1 He1]. fold M in Hm1.
  (* rounding *)
  set (m1 := round_nearest_even (shr_m mrs') (loc_of_shr_record mrs')).
  assert (Hm1' : m1 = M \/ m1 = M + 1).
  { unfold m1. rewrite <- Hm1. apply round_nearest_even_bracket. }
  (* second shift *)
  unfold shr_fexp.
  assert (Hcase : (m1 < 2 ^ 53) \/ m1 = 2 ^ 53) by lia.
  destruct Hcase as [Hlt|Heq].
  - assert (Hpos : 0 < m1) by lia.
    destruct m1 as [|q|q] eqn:Eq; try lia.
    simpl Zdigits2.
    rewrite (digits2_pos_unique q 53) by (simpl; lia).
    rewrite fexp_normal by lia.
    replace (53 + e1 - 53 - e1) with 0 by lia.
    cbn [shr shr_m shr_record_of_loc].
    destruct (Z.leb_spec e1 (PyFloat.emax - PyFloat.prec)) as [Hle|Hgt];
      [|unfold PyFloat.emax, PyFloat.prec in Hgt; unfold n in He1; lia].
    exists q, e1. split; [reflexivity|].
    split; [lia|]. split; [assumption|].
    left. split; [lia | assumption].
  - rewrite Heq. change (Zdigits2 (2 ^ 53)) with 54.
    rewrite fexp_normal by lia.
    replace (54 + e1 - 53 - e1) with 1 by lia.
    cbn [shr shr_m shr_record_of_loc iter_pos shr_1 Z.pow Z.pow_pos Pos.iter Z.mul Pos.mul].
    destruct (Z.leb_spec (e1 + 1) (PyFloat.emax - PyFloat.prec)) as [Hle|Hgt];
      [|unfold PyFloat.emax, PyFloat.prec in Hgt; unfold n in He1; lia].
    eexists _, (e1 + 1). split; [reflexivity|].
    split; [simpl; lia|]. split; [assumption|].
    right. split; [lia|]. split; [lia | reflexivity].
Qed.

Lemma IZR_pow2 (n : Z) : 0 <= n -> IZR (2 ^ n) = powerRZ 2 n.
Proof.
  intros Hn. destruct n as [|p|p]; [reflexivity| |lia].
  simpl powerRZ. rewrite pow_IZR, positive_nat_Z. reflexivity.
Qed.

Lemma pow2_pos (e : Z) : (0 < powerRZ 2 e)%R.
Proof. apply powerRZ_lt. lra. Qed.

Lemma pow2_add (a b : Z) : powerRZ 2 (a + b) = (powerRZ 2 a * powerRZ 2 b)%R.
Proof. apply powerRZ_add. lra. Qed.

Lemma B2R_pos x lo hi : canonical_pos x lo hi -> (0 < B2R x)%R.
Proof.
  intros (m & e & -> & Hm & He). simpl.
  pose proof (pow2_pos e). assert (0 < IZR (Z.pos m))%R by (apply IZR_lt; lia).
  rewrite Rmult_1_l. apply Rmult_lt_0_compat; assumption.
Qed.

(** A value and its rounding in the same binade bracket are within [u]. *)
Lemma bracket_rel_close (M : Z) (S X V : R) :
  2 ^ 52 <= M ->
  (0 < S)%R ->
  (IZR M * S <= X <= (IZR M + 1) * S)%R ->
  (IZR M * S <= V <= (IZR M + 1) * S)%R ->
  rel_close u V X.
Proof.
  intros HM HS HX HV. unfold rel_close, u.
  assert (H52 : (powerRZ 2 52 <= IZR M)%R).
  { rewrite <- IZR_pow2 by lia. now apply IZR_le. }
  assert (Hu : (powerRZ 2 (-52) * powerRZ 2 52 = 1)%R).
  { rewrite <- pow2_add. reflexivity. }
  pose proof (pow2_pos (-52)) as Hup. pose proof (pow2_pos 52) as Hp52.
  set (uu := powerRZ 2 (-52)) in *. set (P := powerRZ 2 52) in *.
  assert (HuM : (1 <= uu * IZR M)%R) by nra.
  assert (HSX : (S <= uu * X)%R) by nra.
  split; nra.
Qed.

Lemma rounded_in_bracket (m' : positive) (e' E M : Z) :
  (e' = E /\ (Z.pos m' = M \/ Z.pos m' = M + 1))
  \/ (e' = E + 1 /\ M + 1 = 2 ^ 53 /\ Z.pos m' = 2 ^ 52) ->
  (IZR M * powerRZ 2 E <= IZR (Z.pos m') * powerRZ 2 e'
   <= (IZR M + 1) * powerRZ 2 E)%R.
Proof.
  pose proof (pow2_pos E) as HS.
  intros [[-> [-> | ->]] | (-> & HM & ->)].
  - nra.
  - rewrite plus_IZR. nra.
  - rewrite pow2_add.
    assert (HM' : (IZR M + 1 = IZR (2 ^ 53))%R) by (rewrite <- HM, plus_IZR; reflexivity).
    rewrite HM'. change (powerRZ 2 1) with (2 * 1)%R.
    replace (IZR (2 ^ 53)) with (IZR (2 ^ 52) * 2)%R
      by (rewrite <- mult_IZR; reflexivity).
    assert (0 < IZR (2 ^ 52))%R by (apply IZR_lt; reflexivity).
    assert (IZR M = IZR (2 ^ 52) * 2 - 1)%R.
    { replace M with (2 ^ 53 - 1) by lia. rewrite minus_IZR.
      replace (IZR (2 ^ 53)) with (IZR (2 ^ 52) * 2)%R
        by (rewrite <- mult_IZR; reflexivity). reflexivity. }
    nra.
Qed.

Lemma SFmul_accuracy (x y : spec_float) (l1 h1 l2 h2 : Z) :
  canonical_pos x l1 h1 -> canonical_pos y l2 h2 ->
  -1100 <= l1 + l2 -> h1 + h2 <= 900 ->
  canonical_pos (SFmul PyFloat.prec PyFloat.emax x y) (l1 + l2 + 52) (h1 + h2 + 54)
  /\ rel_close u (B2R (SFmul PyFloat.prec PyFloat.emax x y)) (B2R x * B2R y).
Proof.
  intros (m1 & e1 & -> & Hm1 & He1) (m2 & e2 & -> & Hm2 & He2) Hlo Hhi.
  unfold SFmul. simpl xorb.
  set (p := (m1 * m2)%positive).
  assert (Hp : 2 ^ 104 <= Z.pos p < 2 ^ 106).
  { unfold p. rewrite Pos2Z.inj_mul.
    change (2 ^ 104) with (2 ^ 52 * 2 ^ 52). change (2 ^ 106) with (2 ^ 53 * 2 ^ 53).
    nia. }
  pose proof (digits2_pos_bounds p) as Hd.
  assert (Hd' : 105 <= Z.pos (digits2_pos p) <= 106).
  { split.
    - destruct (Z.lt_ge_cases (Z.pos (digits2_pos p)) 105) as [H|H]; [|lia].
      assert (2 ^ Z.pos (digits2_pos p) <= 2 ^ 104) by (apply Z.pow_le_mono_r; lia).
      lia.
    - destruct (Z.lt_ge_cases 106 (Z.pos (digits2_pos p))) as [H|H]; [|lia].
      assert (2 ^ 106 <= 2 ^ (Z.pos (digits2_pos p) - 1)) by (apply Z.pow_le_mono_r; lia).
      lia. }
  destruct (binary_round_aux_bracket false p (e1 + e2) loc_Exact)
    as (m' & e' & Heq & Hm' & HM & Hcase); [lia | lia |].
  rewrite Heq.
  set (n := Z.pos (digits2_pos p) - 53) in *.
  set (M := Z.pos p / 2 ^ n) in *.
  split.
  - exists m', e'. split; [reflexivity|]. split; [assumption|].
    destruct Hcase as [[-> _] | (-> & _)]; unfold n; lia.
  - simpl B2R. rewrite !Rmult_1_l.
    apply (bracket_rel_close M (powerRZ 2 (e1 + e2 + n))); [lia | apply pow2_pos | |].
    + assert (Hn : 0 <= n) by (unfold n; lia).
      assert (H2n : 0 < 2 ^ n) by (apply Z.pow_pos_nonneg; lia).
      pose proof (Z.div_mod (Z.pos p) (2 ^ n) ltac:(lia)) as Hdm.
      pose proof (Z.mod_pos_bound (Z.pos p) (2 ^ n) H2n) as Hmod.
      fold M in Hdm.
      assert (HR : (IZR (Z.pos m1) * powerRZ 2 e1 * (IZR (Z.pos m2) * powerRZ 2 e2)
                    = IZR (Z.pos p) * powerRZ 2 (e1 + e2))%R).
      { unfold p. rewrite Pos2Z.inj_mul, mult_IZR, pow2_add. ring. }
      rewrite HR. rewrite (pow2_add (e1 + e2) n). rewrite <- (IZR_pow2 n Hn).
      pose proof (pow2_pos (e1 + e2)) as HE.
      assert (H1 : (IZR M * IZR (2 ^ n) <= IZR (Z.pos p))%R).
      { rewrite <- mult_IZR. apply IZR_le. lia. }
      assert (H2 : (IZR (Z.pos p) <= (IZR M + 1) * IZR (2 ^ n))%R).
      { rewrite <- plus_IZR, <- mult_IZR. apply IZR_le. lia. }
      split; nra.
    + apply rounded_in_bracket.
      destruct Hcase as [[-> H] | (-> & H)]; [left | right]; auto.
Qed.

Lemma canonical_digits (m : positive) :
  2 ^ 52 <= Z.pos m < 2 ^ 53 -> Z.pos (digits2_pos m) = 53.
Proof. intros H. apply digits2_pos_unique. exact H. Qed.

Lemma SFdiv_accuracy (x y : spec_float) (l1 h1 l2 h2 : Z) :
  canonical_pos x l1 h1 -> canonical_pos y l2 h2 ->
  -900 <= l1 - h2 -> h1 - l2 <= 900 ->
  canonical_pos (SFdiv PyFloat.prec PyFloat.emax x y) (l1 - h2 - 53) (h1 - l2 - 51)
  /\ rel_close u (B2R (SFdiv PyFloat.prec PyFloat.emax x y)) (B2R x / B2R y).
Proof.
  intros (m1 & e1 & -> & Hm1 & He1) (m2 & e2 & -> & Hm2 & He2) Hlo Hhi.
  unfold SFdiv, SFdiv_core_binary. simpl xorb. simpl Zdigits2.
  rewrite (canonical_digits m1 Hm1), (canonical_digits m2 Hm2).
  rewrite fexp_normal by lia.
  replace (Z.min (53 + e1 - (53 + e2) - 53) (e1 - e2)) with (e1 - e2 - 53) by lia.
  replace (e1 - e2 - (e1 - e2 - 53)) with 53 by lia.
  rewrite Z.shiftl_mul_pow2 by lia.
  set (a := Z.pos m1 * 2 ^ 53).
  assert (Hdiv : Z.div_eucl a (Z.pos m2) = (a / Z.pos m2, a mod Z.pos m2))
    by (unfold Z.div, Z.modulo; now destruct (Z.div_eucl a (Z.pos m2))).
  rewrite Hdiv.
  set (q := a / Z.pos m2). set (r := a mod Z.pos m2).
  pose proof (Z.div_mod a (Z.pos m2) ltac:(lia)) as Hdm.
  pose proof (Z.mod_pos_bound a (Z.pos m2) ltac:(lia)) as Hmod.
  fold q r in Hdm, Hmod.
  assert (Hq : 2 ^ 52 <= q < 2 ^ 54).
  { unfold a in Hdm.
    change (2 ^ 54) with (2 * 2 ^ 53). change (2 ^ 53) with (2 * 2 ^ 52) in *.
    split; nia. }
  destruct q as [|pq|pq] eqn:Eq; try lia.
  pose proof (digits2_pos_bounds pq) as Hd.
  assert (Hd' : 53 <= Z.pos (digits2_pos pq) <= 54).
  { split.
    - destruct (Z.lt_ge_cases (Z.pos (digits2_pos pq)) 53) as [H|H]; [|lia].
      assert (2 ^ Z.pos (digits2_pos pq) <= 2 ^ 52) by (apply Z.pow_le_mono_r; lia).
      lia.
    - destruct (Z.lt_ge_cases 54 (Z.pos (digits2_pos pq))) as [H|H]; [|lia].
      assert (2 ^ 54 <= 2 ^ (Z.pos (digits2_pos pq) - 1)) by (apply Z.pow_le_mono_r; lia).
      lia. }
  destruct (binary_round_aux_bracket false pq (e1 - e2 - 53)
              (new_location (Z.pos m2) r))
    as (m' & e' & Heq & Hm' & HM & Hcase); [lia | lia |].
  rewrite Heq.
  set (n := Z.pos (digits2_pos pq) - 53) in *.
  set (M := Z.pos pq / 2 ^ n) in *.
  split.
  - exists m', e'. split; [reflexivity|]. split; [assumption|].
    destruct Hcase as [[-> _] | (-> & _)]; unfold n; lia.
  - simpl B2R. rewrite !Rmult_1_l.
    apply (bracket_rel_close M (powerRZ 2 (e1 - e2 - 53 + n)));
      [lia | apply pow2_pos | |].
    + assert (Hn : 0 <= n) by (unfold n; lia).
      assert (H2n : 0 < 2 ^ n) by (apply Z.pow_pos_nonneg; lia).
      pose proof (Z.div_mod (Z.pos pq) (2 ^ n) ltac:(lia)) as Hdm2.
      pose proof (Z.mod_pos_bound (Z.pos pq) (2 ^ n) H2n) as Hmod2.
      fold M in Hdm2.
      (* M * 2^n * m2 <= m1 * 2^53 <= (M+1) * 2^n * m2 *)
      assert (H1 : M * 2 ^ n * Z.pos m2 <= Z.pos m1 * 2 ^ 53) by (unfold a in Hdm; nia).
      assert (H2 : Z.pos m1 * 2 ^ 53 <= (M + 1) * 2 ^ n * Z.pos m2)
        by (unfold a in Hdm; nia).
      apply IZR_le in H1, H2.
      rewrite !mult_IZR in H1, H2. rewrite plus_IZR in H2.
      rewrite (IZR_pow2 n Hn) in H1, H2. rewrite (IZR_pow2 53) in H1, H2 by lia.
      replace (e1 - e2 - 53 + n) with (e1 + (- e2) + (-53) + n) by lia.
      rewrite !pow2_add.
      pose proof (pow2_pos e1) as P1. pose proof (pow2_pos e2) as P2.
      pose proof (pow2_pos n) as Pn. pose proof (pow2_pos 53) as P53.
      assert (Hinv2 : (powerRZ 2 (- e2) * powerRZ 2 e2 = 1)%R).
      { rewrite <- pow2_add. replace (- e2 + e2) with 0 by lia. reflexivity. }
      assert (Hinv53 : (powerRZ 2 (-53) * powerRZ 2 53 = 1)%R).
      { rewrite <- pow2_add. reflexivity. }
      assert (Pm2 : (0 < IZR (Z.pos m2))%R) by (apply IZR_lt; lia).
      set (A := IZR (Z.pos m1)) in *. set (B := IZR (Z.pos m2)) in *.
      set (E1 := powerRZ 2 e1) in *. set (E2 := powerRZ 2 e2) in *.
      set (E2' := powerRZ 2 (- e2)) in *. set (T := powerRZ 2 53) in *.
      set (T' := powerRZ 2 (-53)) in *. set (N := powerRZ 2 n) in *.
      set (MM := IZR M) in *.
      assert (HX : (A * E1 / (B * E2) = (A * T / B) * (E1 * E2' * T'))%R).
      { assert (HE2 : (E2' = / E2)%R)
          by (apply Rmult_eq_reg_r with E2; [rewrite Hinv2; field; lra | lra]).
        assert (HT : (T' = / T)%R)
          by (apply Rmult_eq_reg_r with T; [rewrite Hinv53; field; lra | lra]).
        rewrite HE2, HT. field. repeat split; lra. }
      rewrite HX.
      assert (Hpos : (0 < E1 * E2' * T')%R).
      { assert (0 < E2')%R by apply pow2_pos. assert (0 < T')%R by apply pow2_pos.
        repeat apply Rmult_lt_0_compat; assumption. }
      assert (HA1 : (MM * N <= A * T / B)%R).
      { apply Rmult_le_reg_r with B; [lra|].
        replace (A * T / B * B)%R with (A * T)%R by (field; lra). lra. }
      assert (HA2 : (A * T / B <= (MM + 1) * N)%R).
      { apply Rmult_le_reg_r with B; [lra|].
        replace (A * T / B * B)%R with (A * T)%R by (field; lra). lra. }
      set (S := (E1 * E2' * T')%R) in *. set (X := (A * T / B)%R) in *.
      split.
      * replace (MM * (S * N))%R with ((MM * N) * S)%R by ring.
        apply Rmult_le_compat_r; lra.
      * replace ((MM + 1) * (S * N))%R with (((MM + 1) * N) * S)%R by ring.
        apply Rmult_le_compat_r; lra.
    + apply rounded_in_bracket.
      destruct Hcase as [[-> H] | (-> & H)]; [left | right]; auto.
Qed.

Lemma Pos_iter_xO (p k : positive) :
  Z.pos (Pos.iter xO p k) = Z.pos p * 2 ^ Z.pos k.
Proof.
  induction k as [|k IH] using Pos.peano_ind.
  - simpl. lia.
  - rewrite Pos.iter_succ, Pos2Z.inj_xO, IH, Pos2Z.inj_succ, Z.pow_succ_r by lia.
    lia.
Qed.

Lemma binary_round_aux_exact (m : positive) (e : Z) :
  2 ^ 52 <= Z.pos m < 2 ^ 53 -> -1074 <= e <= 971 ->
  binary_round_aux PyFloat.prec PyFloat.emax false (Z.pos m) e loc_Exact = S754_finite false m e.
Proof.
  intros Hm He. unfold binary_round_aux, shr_fexp. simpl Zdigits2.
  rewrite (canonical_digits m Hm), fexp_normal by lia.
  replace (53 + e - 53 - e) with 0 by lia.
  cbn [shr shr_record_of_loc shr_m loc_of_shr_record round_nearest_even Zdigits2].
  rewrite (canonical_digits m Hm), fexp_normal by lia.
  replace (53 + e - 53 - e) with 0 by lia.
  cbn [shr shr_record_of_loc shr_m].
  destruct (Z.leb_spec e (PyFloat.emax - PyFloat.prec)) as [H|H]; [reflexivity|].
  unfold PyFloat.emax, PyFloat.prec in H. lia.
Qed.

Lemma of_int_spec (n : Z) :
  0 < n < 2 ^ 53 ->
  canonical_pos (PyFloat.of_int n) (-52) 0 /\ B2R (PyFloat.of_int n) = IZR n.
Proof.
  intros Hn. destruct n as [|p|p]; try lia.
  unfold PyFloat.of_int, binary_normalize, binary_round.
  pose proof (digits2_pos_bounds p) as Hd.
  set (d := Z.pos (digits2_pos p)) in *.
  assert (Hd1 : 1 <= d <= 53).
  { split; [unfold d; lia|].
    destruct (Z.lt_ge_cases 53 d) as [H|H]; [|lia].
    assert (2 ^ 53 <= 2 ^ (d - 1)) by (apply Z.pow_le_mono_r; lia). lia. }
  rewrite fexp_normal by lia. unfold shl_align.
  replace (d + 0 - 53 - 0) with (d - 53) by lia.
  destruct (d - 53) as [|k|k] eqn:Ek; try lia.
  - assert (Hd53 : d = 53) by lia.
    assert (Hp : 2 ^ 52 <= Z.pos p < 2 ^ 53).
    { rewrite Hd53 in Hd. exact Hd. }
    rewrite binary_round_aux_exact by (assumption || lia).
    split.
    + exists p, 0. repeat split; lia.
    + simpl. lra.
  - assert (Hk : Z.pos k = 53 - d) by lia.
    assert (Hm : 2 ^ 52 <= Z.pos (Pos.iter xO p k) < 2 ^ 53).
    { rewrite Pos_iter_xO, Hk.
      assert (E52 : 2 ^ 52 = 2 ^ (d - 1) * 2 ^ (53 - d))
        by (rewrite <- Z.pow_add_r by lia; f_equal; lia).
      assert (E53 : 2 ^ 53 = 2 ^ d * 2 ^ (53 - d))
        by (rewrite <- Z.pow_add_r by lia; f_equal; lia).
      rewrite E52, E53.
      assert (0 < 2 ^ (53 - d)) by (apply Z.pow_pos_nonneg; lia). nia. }
    rewrite binary_round_aux_exact by (assumption || lia).
    split.
    + eexists _, _. split; [reflexivity|]. split; [exact Hm | lia].
    + unfold B2R. rewrite Pos_iter_xO, mult_IZR, IZR_pow2 by lia.
      rewrite Rmult_1_l, Rmult_assoc, <- pow2_add.
      replace (Z.pos k + (d + 0 - 53)) with 0 by lia.
      change (powerRZ 2 0) with 1%R. lra.
Qed.

Lemma to_int_spec (x : spec_float) (lo hi : Z) :
  canonical_pos x lo hi ->
  exists r, PyFloat.to_int x = Ok r /\ (IZR r <= B2R x < IZR r + 1)%R.
Proof.
  intros (m & e & -> & Hm & He). simpl PyFloat.to_int. simpl B2R. rewrite Rmult_1_l.
  destruct (Z.leb_spec 0 e) as [Hpos|Hneg].
  - exists (Z.pos m * 2 ^ e). split; [reflexivity|].
    rewrite mult_IZR, IZR_pow2 by lia. lra.
  - exists (Z.pos m / 2 ^ (- e)). split; [reflexivity|].
    assert (H2 : 0 < 2 ^ (- e)) by (apply Z.pow_pos_nonneg; lia).
    pose proof (Z.div_mod (Z.pos m) (2 ^ (- e)) ltac:(lia)) as Hdm.
    pose proof (Z.mod_pos_bound (Z.pos m) (2 ^ (- e)) H2) as Hmod.
    set (r := Z.pos m / 2 ^ (- e)) in *.
    assert (H1 : r * 2 ^ (- e) <= Z.pos m) by lia.
    assert (H3 : Z.pos m < (r + 1) * 2 ^ (- e)) by lia.
    apply IZR_le in H1. apply IZR_lt in H3.
    rewrite mult_IZR, ?plus_IZR, IZR_pow2 in H1, H3 by lia.
    rewrite plus_IZR in H3.
    pose proof (pow2_pos e) as Pe. pose proof (pow2_pos (- e)) as Pne.
    assert (Hinv : (powerRZ 2 (- e) * powerRZ 2 e = 1)%R).
    { rewrite <- pow2_add. replace (- e + e) with 0 by lia. reflexivity. }
    set (A := IZR (Z.pos m)) in *. set (N := powerRZ 2 (- e)) in *.
    set (E := powerRZ 2 e) in *. set (R0 := IZR r) in *.
    assert (G1 : (R0 * N * E <= A * E)%R) by (apply Rmult_le_compat_r; lra).
    assert (G2 : (A * E < (R0 + 1) * N * E)%R) by (apply Rmult_lt_compat_r; lra).
    rewrite Rmult_assoc, Hinv in G1, G2. lra.
Qed.

Lemma u_small : (0 < u < 1 / 1000)%R.
Proof.
  unfold u. split; [apply pow2_pos|].
  change (-52) with (- (52)). rewrite powerRZ_neg'.
  rewrite <- (IZR_pow2 52) by lia.
  apply Rmult_lt_reg_r with (IZR (2 ^ 52)); [apply IZR_lt; reflexivity|].
  rewrite Rinv_l by (apply not_0_IZR; discriminate).
  unfold Rdiv. rewrite Rmult_1_l.
  apply Rmult_lt_reg_l with 1000%R; [lra|].
  rewrite <- Rmult_assoc, Rinv_r, Rmult_1_l, Rmult_1_r by lra.
  apply IZR_lt. reflexivity.
Qed.

Lemma compose_mul (c x a b : R) :
  (0 < c)%R -> (0 < x)%R ->
  rel_close u a x -> rel_close u b (c * a) -> rel_close (4 * u) b (c * x).
Proof.
  pose proof u_small as Hu. unfold rel_close. intros Hc Hx [Ha1 Ha2] [Hb1 Hb2].
  assert (0 < c * x)%R by (apply Rmult_lt_0_compat; assumption).
  assert (Hca1 : (c * (x * (1 - u)) <= c * a)%R) by (apply Rmult_le_compat_l; lra).
  assert (Hca2 : (c * a <= c * (x * (1 + u)))%R) by (apply Rmult_le_compat_l; lra).
  assert (H1 : (c * (x * (1 - u)) * (1 - u) <= c * a * (1 - u))%R)
    by (apply Rmult_le_compat_r; lra).
  assert (H2 : (c * a * (1 + u) <= c * (x * (1 + u)) * (1 + u))%R)
    by (apply Rmult_le_compat_r; lra).
  set (cx := (c * x)%R) in *.
  replace (c * (x * (1 - u)) * (1 - u))%R with (cx * (1 - 2 * u + u * u))%R in H1
    by (unfold cx; ring).
  replace (c * (x * (1 + u)) * (1 + u))%R with (cx * (1 + 2 * u + u * u))%R in H2
    by (unfold cx; ring).
  split; nra.
Qed.

Lemma compose_div (c x a b : R) :
  (0 < c)%R -> (0 < x)%R ->
  rel_close u a x -> rel_close u b (c / a) -> rel_close (4 * u) b (c / x).
Proof.
  pose proof u_small as Hu. unfold rel_close. intros Hc Hx [Ha1 Ha2] [Hb1 Hb2].
  assert (Ha : (0 < a)%R) by nra.
  set (y := (c / x)%R). set (z := (c / a)%R) in *.
  assert (Hy : (y * x = c)%R) by (unfold y; field; lra).
  assert (Hz : (z * a = c)%R) by (unfold z; field; lra).
  assert (Hypos : (0 < y)%R) by (unfold y; apply Rdiv_lt_0_compat; assumption).
  assert (Hzpos : (0 < z)%R) by (unfold z; apply Rdiv_lt_0_compat; assumption).
  (* y (1 - 2u) <= z <= y (1 + 2u) *)
  assert (Hz1 : (z <= y * (1 + 2 * u))%R).
  { apply Rmult_le_reg_r with a; [assumption|]. rewrite Hz.
    assert (y * (1 + 2 * u) * (x * (1 - u)) <= y * (1 + 2 * u) * a)%R
      by (apply Rmult_le_compat_l; nra).
    replace (y * (1 + 2 * u) * (x * (1 - u)))%R
      with ((y * x) * ((1 + 2 * u) * (1 - u)))%R in H by ring.
    rewrite Hy in H.
    assert (0 <= c * (u - 2 * u * u))%R by (apply Rmult_le_pos; nra).
    nra. }
  assert (Hz2 : (y * (1 - 2 * u) <= z)%R).
  { apply Rmult_le_reg_r with a; [assumption|]. rewrite Hz.
    assert (y * (1 - 2 * u) * a <= y * (1 - 2 * u) * (x * (1 + u)))%R
      by (apply Rmult_le_compat_l; nra).
    replace (y * (1 - 2 * u) * (x * (1 + u)))%R
      with ((y * x) * ((1 - 2 * u) * (1 + u)))%R in H by ring.
    rewrite Hy in H.
    assert (0 <= c * (u + 2 * u * u))%R by (apply Rmult_le_pos; nra).
    nra. }
  split; nra.
Qed.

(** From a real within [eps] of [num / den] to the integer bracket of its
    truncation. *)
Lemma trunc_of_close (num den r : Z) (P eps : R) :
  0 <= num -> 0 < den ->
  (0 <= eps)%R -> (eps * IZR num < 1)%R ->
  rel_close eps P (IZR num / IZR den) ->
  (IZR r <= P < IZR r + 1)%R ->
  r * den <= num <= (r + 1) * den.
Proof.
  intros Hnum Hden Heps Hsmall [HP1 HP2] [Hr1 Hr2].
  assert (Hd : (0 < IZR den)%R) by (apply IZR_lt; lia).
  assert (Hn : (0 <= IZR num)%R) by (apply IZR_le; lia).
  set (X := (IZR num / IZR den)%R) in *.
  assert (HX : (X * IZR den = IZR num)%R) by (unfold X; field; lra).
  split.
  - destruct (Z.le_gt_cases (r * den) num) as [H|H]; [exact H|exfalso].
    assert (H' : num + 1 <= r * den) by lia.
    apply IZR_le in H'. rewrite plus_IZR, mult_IZR in H'.
    assert (IZR r * IZR den <= X * (1 + eps) * IZR den)%R
      by (apply Rmult_le_compat_r; lra).
    replace (X * (1 + eps) * IZR den)%R with ((X * IZR den) * (1 + eps))%R in H0 by ring.
    rewrite HX in H0. nra.
  - destruct (Z.le_gt_cases num ((r + 1) * den)) as [H|H]; [exact H|exfalso].
    assert (H' : (r + 1) * den + 1 <= num) by lia.
    apply IZR_le in H'. rewrite plus_IZR, mult_IZR, plus_IZR in H'.
    assert (X * (1 - eps) * IZR den <= (IZR r + 1) * IZR den)%R
      by (apply Rmult_le_compat_r; lra).
    replace (X * (1 - eps) * IZR den)%R with ((X * IZR den) * (1 - eps))%R in H0 by ring.
    rewrite HX in H0. nra.
Qed.

Lemma u_pow52 : (u * IZR (2 ^ 52) = 1)%R.
Proof.
  unfold u. rewrite (IZR_pow2 52) by lia. rewrite <- pow2_add. reflexivity.
Qed.

Lemma four_u_small (num : Z) : 0 <= num < 2 ^ 50 -> (4 * u * IZR num < 1)%R.
Proof.
  intros [H0 H1]. pose proof u_pow52 as Hu. pose proof u_small as [Hu0 _].
  apply IZR_lt in H1. apply IZR_le in H0.
  replace (IZR (2 ^ 52)) with (4 * IZR (2 ^ 50))%R in Hu
    by (rewrite <- mult_IZR; reflexivity).
  nra.
Qed.

Lemma truediv_int_accuracy (a b : Z) :
  0 < a < 2 ^ 53 -> 0 < b < 2 ^ 53 ->
  exists q, PyFloat.truediv a b = Ok q
            /\ canonical_pos q (-105) 1
            /\ rel_close u (B2R q) (IZR a / IZR b).
Proof.
  intros Ha Hb. unfold PyFloat.truediv.
  destruct (Z.eqb_spec b 0); [lia|].
  destruct (of_int_spec a Ha) as [Hca Hva].
  destruct (of_int_spec b Hb) as [Hcb Hvb].
  destruct (SFdiv_accuracy _ _ _ _ _ _ Hca Hcb) as [Hc Hr]; [lia | lia |].
  eexists. split; [reflexivity|]. split; [exact Hc|].
  now rewrite Hva, Hvb in Hr.
Qed.

(** [int(o * (c / l))], the expression of [process_jpg_file]. *)
Lemma int_times_ratio (c o l : Z) :
  0 < c < 2 ^ 11 -> 0 < o < 2 ^ 31 -> 0 < l < 2 ^ 31 ->
  exists r,
    bind (PyFloat.truediv c l)
         (fun ratio => PyFloat.to_int (PyFloat.int_mul o ratio)) = Ok r
    /\ r * l <= c * o <= (r + 1) * l.
Proof.
  intros Hc Ho Hl.
  destruct (truediv_int_accuracy c l) as (q & Hq & Hcq & Hrq); [lia | lia |].
  rewrite Hq. simpl bind. unfold PyFloat.int_mul.
  destruct (of_int_spec o) as [Hco Hvo]; [lia|].
  destruct (SFmul_accuracy _ _ _ _ _ _ Hco Hcq) as [Hcp Hrp]; [lia | lia |].
  rewrite Hvo in Hrp.
  destruct (to_int_spec _ _ _ Hcp) as (r & Hr & Hbr).
  exists r. split; [exact Hr|].
  assert (HO : (0 < IZR o)%R) by (apply IZR_lt; lia).
  assert (HC : (0 < IZR c)%R) by (apply IZR_lt; lia).
  assert (HL : (0 < IZR l)%R) by (apply IZR_lt; lia).
  pose proof (compose_mul (IZR o) (IZR c / IZR l) _ _ HO
                ltac:(apply Rdiv_lt_0_compat; assumption) Hrq Hrp) as Hclose.
  refine (trunc_of_close (c * o) l r _ (4 * u)%R _ _ _ _ _ Hbr); try lia.
  - pose proof u_small. lra.
  - apply four_u_small. split; [lia|].
    change (2 ^ 50) with (2 ^ 11 * 2 ^ 39). nia.
  - replace (IZR (c * o) / IZR l)%R with (IZR o * (IZR c / IZR l))%R
      by (rewrite mult_IZR; field; lra).
    exact Hclose.
Qed.

(** [int(c * (o / l))], the expression of [optimize_thumbnail] for a
    portrait or square image. *)
Lemma int_bound_times_aspect (c o l : Z) :
  0 < c < 2 ^ 11 -> 0 < o < 2 ^ 31 -> 0 < l < 2 ^ 31 ->
  exists r,
    bind (PyFloat.truediv o l)
         (fun aspect => PyFloat.to_int (PyFloat.int_mul c aspect)) = Ok r
    /\ r * l <= c * o <= (r + 1) * l.
Proof.
  intros Hc Ho Hl.
  destruct (truediv_int_accuracy o l) as (q & Hq & Hcq & Hrq); [lia | lia |].
  rewrite Hq. simpl bind. unfold PyFloat.int_mul.
  destruct (of_int_spec c) as [Hcc Hvc]; [lia|].
  destruct (SFmul_accuracy _ _ _ _ _ _ Hcc Hcq) as [Hcp Hrp]; [lia | lia |].
  rewrite Hvc in Hrp.
  destruct (to_int_spec _ _ _ Hcp) as (r & Hr & Hbr).
  exists r. split; [exact Hr|].
  assert (HO : (0 < IZR o)%R) by (apply IZR_lt; lia).
  assert (HC : (0 < IZR c)%R) by (apply IZR_lt; lia).
  assert (HL : (0 < IZR l)%R) by (apply IZR_lt; lia).
  pose proof (compose_mul (IZR c) (IZR o / IZR l) _ _ HC
                ltac:(apply Rdiv_lt_0_compat; assumption) Hrq Hrp) as Hclose.
  refine (trunc_of_close (c * o) l r _ (4 * u)%R _ _ _ _ _ Hbr); try lia.
  - pose proof u_small. lra.
  - apply four_u_small. split; [lia|].
    change (2 ^ 50) with (2 ^ 11 * 2 ^ 39). nia.
  - replace (IZR (c * o) / IZR l)%R with (IZR c * (IZR o / IZR l))%R
      by (rewrite mult_IZR; field; lra).
    exact Hclose.
Qed.

(** [int(c / (l / o))], the expression of [optimize_thumbnail] for a
    landscape image. *)
Lemma int_bound_over_aspect (c o l : Z) :
  0 < c < 2 ^ 11 -> 0 < o < 2 ^ 31 -> 0 < l < 2 ^ 31 ->
  exists r,
    bind (PyFloat.truediv l o)
         (fun aspect => bind (PyFloat.int_div c aspect) PyFloat.to_int) = Ok r
    /\ r * l <= c * o <= (r + 1) * l.
Proof.
  intros Hc Ho Hl.
  destruct (truediv_int_accuracy l o) as (q & Hq & Hcq & Hrq); [lia | lia |].
  rewrite Hq. simpl bind.
  destruct (of_int_spec c) as [Hcc Hvc]; [lia|].
  destruct (SFdiv_accuracy _ _ _ _ _ _ Hcc Hcq) as [Hcp Hrp]; [lia | lia |].
  rewrite Hvc in Hrp.
  assert (Hdiv : PyFloat.int_div c q
                 = Ok (SFdiv PyFloat.prec PyFloat.emax (PyFloat.of_int c) q)).
  { destruct Hcq as (m & e & -> & _). reflexivity. }
  rewrite Hdiv. simpl bind.
  destruct (to_int_spec _ _ _ Hcp) as (r & Hr & Hbr).
  exists r. split; [exact Hr|].
  assert (HO : (0 < IZR o)%R) by (apply IZR_lt; lia).
  assert (HC : (0 < IZR c)%R) by (apply IZR_lt; lia).
  assert (HL : (0 < IZR l)%R) by (apply IZR_lt; lia).
  pose proof (compose_div (IZR c) (IZR l / IZR o) _ _ HC
                ltac:(apply Rdiv_lt_0_compat; assumption) Hrq Hrp) as Hclose.
  refine (trunc_of_close (c * o) l r _ (4 * u)%R _ _ _ _ _ Hbr); try lia.
  - pose proof u_small. lra.
  - apply four_u_small. split; [lia|].
    change (2 ^ 50) with (2 ^ 11 * 2 ^ 39). nia.
  - replace (IZR (c * o) / IZR l)%R with (IZR c / (IZR l / IZR o))%R
      by (rewrite mult_IZR; field; lra).
    exact Hclose.
Qed.

(** ** C6: resize to bound *)

Lemma truncated_ratio_intro (r num den : Z) :
  0 < den -> r * den <= num <= (r + 1) * den -> truncated_ratio r num den.
Proof.
  intros Hden Hb. split; [exact Hb|]. intros Hmod.
  pose proof (Z.div_mod num den ltac:(lia)) as Hdm.
  pose proof (Z.mod_pos_bound num den Hden) as Hm.
  nia.
Qed.

Lemma jpg_new_size_spec (w h : Z) :
  0 < w < 2 ^ 31 -> 0 < h < 2 ^ 31 -> 800 < w \/ 800 < h ->
  exists new_w new_h,
    LambdaFunction.jpg_new_size w h = Ok (new_w, new_h)
    /\ resized_to 800 w h new_w new_h.
Proof.
  intros Hw Hh Hbig. unfold LambdaFunction.jpg_new_size, resized_to.
  destruct (Z.gtb_spec w h) as [Hgt|Hle].
  - destruct (int_times_ratio 800 h w) as (r & Hr & Hb); [lia | lia | lia |].
    exists 800, r. split.
    + unfold bind in *.
      destruct (PyFloat.truediv 800 w); [|discriminate].
      now rewrite Hr.
    + split; [split; [reflexivity | apply truncated_ratio_intro; lia]|].
      split; [lia | nia].
  - destruct (int_times_ratio 800 w h) as (r & Hr & Hb); [lia | lia | lia |].
    exists r, 800. split.
    + unfold bind in *.
      destruct (PyFloat.truediv 800 h); [|discriminate].
      now rewrite Hr.
    + split; [split; [reflexivity | apply truncated_ratio_intro; lia]|].
      split; [nia | lia].
Qed.

Lemma optimize_new_size_spec (w h : Z) :
  0 < w < 2 ^ 31 -> 0 < h < 2 ^ 31 -> 1200 < w \/ 1200 < h ->
  exists new_w new_h,
    LambdaFunction.optimize_new_size w h 1200 1200 = Ok (new_w, new_h)
    /\ resized_to 1200 w h new_w new_h.
Proof.
  intros Hw Hh Hbig. unfold LambdaFunction.optimize_new_size, resized_to.
  destruct (Z.gtb_spec w h) as [Hgt|Hle].
  - destruct (int_bound_over_aspect 1200 h w) as (r & Hr & Hb); [lia | lia | lia |].
    exists 1200, r. split.
    + unfold bind in *.
      destruct (PyFloat.truediv w h); [|discriminate].
      replace (Z.min w 1200) with 1200 by lia.
      destruct (PyFloat.int_div 1200 a); [|discriminate].
      now rewrite Hr.
    + split; [split; [reflexivity | apply truncated_ratio_intro; lia]|].
      split; [lia | nia].
  - destruct (int_bound_times_aspect 1200 w h) as (r & Hr & Hb); [lia | lia | lia |].
    exists r, 1200. split.
    + unfold bind in *.
      destruct (PyFloat.truediv w h); [|discriminate].
      replace (Z.min h 1200) with 1200 by lia.
      now rewrite Hr.
    + split; [split; [reflexivity | apply truncated_ratio_intro; lia]|].
      split; [nia | lia].
Qed.

(** C6, as the code has it.  An image with a side above the bound (800 in
    [process_jpg_file], 1200 in [optimize_thumbnail]) is resized so that
    its larger side equals the bound; the other side is [int(...)] of the
    binary64 expression, a truncation: the integer part of the exact
    proportional value, or one less when that value is itself an integer;
    never above it, at most one pixel below, and no side grows.  An image
    within the bound is not resized. *)
Theorem C6_resize_to_bound_truncates
        (W : World) (file : bytes) (img : image W) (w h : Z) :
  0 < w < 2 ^ 31 -> 0 < h < 2 ^ 31 ->
  Image_open W file = Ok img ->
  Image_size W img = (w, h) ->
  (w <= 800 /\ h <= 800 ->
   LambdaFunction.process_jpg_file_trace W file
   = LambdaFunction.save_with_size_cap W img)
  /\ (800 < w \/ 800 < h ->
      exists new_w new_h,
        LambdaFunction.jpg_new_size w h = Ok (new_w, new_h)
        /\ resized_to 800 w h new_w new_h
        /\ LambdaFunction.process_jpg_file_trace W file
           = match Image_resize W img (new_w, new_h) with
             | Ok resized => LambdaFunction.save_with_size_cap W resized
             | Raise e => ([], Raise e)
             end)
  /\ (w <= 1200 /\ h <= 1200 ->
      LambdaFunction.optimize_thumbnail W file 1200 1200 = (true, file))
  /\ (1200 < w \/ 1200 < h ->
      exists new_w new_h,
        LambdaFunction.optimize_new_size w h 1200 1200 = Ok (new_w, new_h)
        /\ resized_to 1200 w h new_w new_h
        /\ LambdaFunction.optimize_thumbnail W file 1200 1200
           = match Image_resize W img (new_w, new_h) with
             | Ok resized =>
                 match Image_save W resized 85 true with
                 | Saved content => (true, content)
                 | SaveFailed _ partial => (false, partial)
                 end
             | Raise _ => (false, file)
             end).
Proof.
  intros Hw Hh Hopen Hsize. repeat split.
  - intros [Hw8 Hh8]. unfold LambdaFunction.process_jpg_file_trace.
    rewrite Hopen, Hsize.
    destruct (Z.gtb_spec w 800); [lia|]. destruct (Z.gtb_spec h 800); [lia|].
    reflexivity.
  - intros Hbig. destruct (jpg_new_size_spec w h Hw Hh Hbig)
      as (new_w & new_h & Hnew & Hres).
    exists new_w, new_h. split; [exact Hnew|]. split; [exact Hres|].
    unfold LambdaFunction.process_jpg_file_trace. rewrite Hopen, Hsize.
    assert (Hor : ((w >? 800) || (h >? 800))%bool = true).
    { destruct Hbig as [H|H]; [destruct (Z.gtb_spec w 800); [reflexivity|lia]|].
      destruct (Z.gtb_spec h 800); [apply orb_true_r | lia]. }
    rewrite Hor, Hnew. simpl bind.
    destruct (Image_resize W img (new_w, new_h)); reflexivity.
  - intros [Hw12 Hh12]. unfold LambdaFunction.optimize_thumbnail.
    rewrite Hopen, Hsize.
    destruct (Z.gtb_spec w 1200); [lia|]. destruct (Z.gtb_spec h 1200); [lia|].
    reflexivity.
  - intros Hbig. destruct (optimize_new_size_spec w h Hw Hh Hbig)
      as (new_w & new_h & Hnew & Hres).
    exists new_w, new_h. split; [exact Hnew|]. split; [exact Hres|].
    unfold LambdaFunction.optimize_thumbnail. rewrite Hopen, Hsize.
    assert (Hor : ((w >? 1200) || (h >? 1200))%bool = true).
    { destruct Hbig as [H|H]; [destruct (Z.gtb_spec w 1200); [reflexivity|lia]|].
      destruct (Z.gtb_spec h 1200); [apply orb_true_r | lia]. }
    rewrite Hor, Hnew. simpl bind.
    destruct (Image_resize W img (new_w, new_h)); reflexivity.
Qed.

Lemma C6_witness :
  exists new_w new_h,
    LambdaFunction.jpg_new_size 3000 2000 = Ok (new_w, new_h)
    /\ resized_to 800 3000 2000 new_w new_h
    /\ LambdaFunction.process_jpg_file_trace calm_world
         (Sample.encode (3000, 2000) 90)
       = match Image_resize calm_world (3000, 2000) (new_w, new_h) with
         | Ok resized => LambdaFunction.save_with_size_cap calm_world resized
         | Raise e => ([], Raise e)
         end.
Proof.
  exact (proj1 (proj2 (C6_resize_to_bound_truncates calm_world
                         (Sample.encode (3000, 2000) 90) (3000, 2000)
                         3000 2000
                         (conj eq_refl eq_refl) (conj eq_refl eq_refl)
                         eq_refl eq_refl))
               (or_introl eq_refl)).
Defined.

(** The specification has the other side rounded to the nearest integer.  For a
    1200x1000 JPEG the exact value is 666.67: [round] gives 667, the code
    truncates to 666.  For 895x537 the exact value is 480 and the binary64
    product falls just short of it: the code gives 479. *)
Lemma C6_counterexample :
  LambdaFunction.jpg_new_size 1200 1000 = Ok (800, 666)
  /\ spec_new_other 1000 800 1200 = 667
  /\ LambdaFunction.process_jpg_file calm_world (Sample.encode (1200, 1000) 90)
     = Some (Sample.encode (800, 666) 80)
  /\ LambdaFunction.jpg_new_size 895 537 = Ok (800, 479)
  /\ spec_new_other 537 800 895 = 480.
Proof. repeat split; vm_compute; reflexivity. Qed.

(** ** C7: the size-capped encoding *)

Lemma rel_close_weaken (eps eps' v x : R) :
  (0 <= x)%R -> (eps <= eps')%R -> rel_close eps v x -> rel_close eps' v x.
Proof. unfold rel_close. intros Hx He [H1 H2]. split; nra. Qed.

(** [int(a / 20480)] is the integer quotient, except that for an exact
    multiple the theory only brackets it within one below. *)
Lemma int_truediv_20480 (a : Z) :
  0 < a < 2 ^ 50 ->
  exists r,
    bind (PyFloat.truediv a (20 * 1024)) PyFloat.to_int = Ok r
    /\ r * 20480 <= a <= (r + 1) * 20480.
Proof.
  intros Ha.
  destruct (truediv_int_accuracy a (20 * 1024)) as (q & Hq & Hcq & Hrq);
    [lia | simpl; lia |].
  rewrite Hq. simpl bind.
  destruct (to_int_spec _ _ _ Hcq) as (r & Hr & Hbr).
  exists r. split; [exact Hr|].
  assert (HA : (0 < IZR a)%R) by (apply IZR_lt; lia).
  refine (trunc_of_close a 20480 r _ (4 * u)%R _ _ _ _ _ Hbr); try lia.
  - pose proof u_small. lra.
  - apply four_u_small. lia.
  - apply (rel_close_weaken u).
    + apply Rlt_le, Rdiv_lt_0_compat; [assumption | lra].
    + pose proof u_small. lra.
    + exact Hrq.
Qed.

(** The thirty sizes at which the quotient is an integer below 31,
    evaluated. *)
Lemma quality_at_small_multiples :
  forallb (fun k => match LambdaFunction.recompress_quality (102400 + 20480 * k) with
                    | Ok quality => quality =? Z.max 50 (80 - k)
                    | Raise _ => false
                    end)
          (map Z.of_nat (seq 1 30)) = true.
Proof. vm_compute. reflexivity. Qed.

Lemma recompress_quality_spec (thumb_size : Z) :
  102400 < thumb_size < 2 ^ 50 ->
  LambdaFunction.recompress_quality thumb_size
  = Ok (Z.max 50 (80 - (thumb_size - 102400) / 20480)).
Proof.
  intros Hsize. set (a := thumb_size - 102400).
  pose proof (Z.div_mod a 20480 ltac:(lia)) as Hdm.
  pose proof (Z.mod_pos_bound a 20480 ltac:(lia)) as Hmod.
  set (k := a / 20480) in *.
  destruct (Z.eq_dec (a mod 20480) 0) as [Hz|Hnz].
  - (* an exact multiple *)
    destruct (Z.le_gt_cases k 30) as [Hk|Hk].
    + pose proof quality_at_small_multiples as Hall.
      rewrite forallb_forall in Hall.
      specialize (Hall k).
      assert (Hin : In k (map Z.of_nat (seq 1 30))).
      { apply in_map_iff. exists (Z.to_nat k). split; [lia|].
        apply in_seq. unfold a in *. lia. }
      specialize (Hall Hin).
      replace thumb_size with (102400 + 20480 * k) by (unfold a in *; lia).
      destruct (LambdaFunction.recompress_quality (102400 + 20480 * k));
        [|discriminate].
      apply Z.eqb_eq in Hall. now subst.
    + destruct (int_truediv_20480 a) as (r & Hr & Hb); [unfold a; lia|].
      unfold LambdaFunction.recompress_quality. fold a.
      change (100 * 1024) with 102400. fold a.
      unfold bind in *. destruct (PyFloat.truediv a (20 * 1024)); [|discriminate].
      rewrite Hr. f_equal. lia.
  - destruct (int_truediv_20480 a) as (r & Hr & Hb); [unfold a; lia|].
    unfold LambdaFunction.recompress_quality.
    change (100 * 1024) with 102400. fold a.
    unfold bind in *. destruct (PyFloat.truediv a (20 * 1024)); [|discriminate].
    rewrite Hr. f_equal. f_equal. f_equal.
    assert (r = k) by nia. lia.
Qed.



(* ===================================================================== *)
(** * Further properties of the handlers *)
(* ===================================================================== *)

(** ** The multi-record handler: what one iteration can look like *)

(** The seven shapes of one loop iteration. *)
Lemma handle_record_shape (W : World) (record : s3_record) :
  let bucket := bucket_name record in
  let key := decode_key (object_key record) in
  let filename := Py.basename key in
  (passes_event_filter record = false
   /\ LambdaFunction.handle_record W record = ([], Ok tt))
  \/ (passes_event_filter record = true
      /\ LambdaFunction.handle_record W record = ([LogSkipThumbnailDir key], Ok tt))
  \/ (passes_event_filter record = true
      /\ LambdaFunction.handle_record W record = ([LogUnsupported filename], Ok tt))
  \/ (eligible record
      /\ LambdaFunction.generate_thumbnail_path key filename = None
      /\ LambdaFunction.handle_record W record = ([LogPathFailure key], Ok tt))
  \/ (exists thumbnail_key e,
         eligible record
         /\ LambdaFunction.generate_thumbnail_path key filename = Some thumbnail_key
         /\ s3_download_file W bucket key = Raise e
         /\ LambdaFunction.handle_record W record
            = ([Download bucket key; Cleanup filename], Raise e))
  \/ (exists thumbnail_key,
         eligible record
         /\ LambdaFunction.generate_thumbnail_path key filename = Some thumbnail_key
         /\ LambdaFunction.handle_record W record
            = ([Download bucket key; LogGenerationFailure filename;
                Cleanup filename], Ok tt))
  \/ (exists thumbnail_key warn output,
         eligible record
         /\ LambdaFunction.generate_thumbnail_path key filename = Some thumbnail_key
         /\ (warn = [] \/ warn = [LogOptimizeFailure])
         /\ LambdaFunction.handle_record W record
            = (([Download bucket key] ++ warn
                  ++ [Upload output bucket thumbnail_key; Cleanup filename])%list,
               s3_upload_file W output bucket thumbnail_key)).
Proof.
  intros bucket key filename.
  unfold passes_event_filter.
  destruct (String.eqb_spec (eventSource record) "aws:s3") as [Hsrc|Hsrc];
    [|left; split; [reflexivity|];
      unfold LambdaFunction.handle_record;
      destruct (String.eqb_spec (eventSource record) "aws:s3");
      [contradiction | reflexivity]].
  destruct (Py.startswith (eventName record) "ObjectCreated") eqn:Hname;
    [|left; split; [reflexivity|];
      unfold LambdaFunction.handle_record; rewrite Hname;
      now rewrite orb_true_r].
  right.
  destruct (Py.contains "rawThumbnail" key || Py.contains "jpgThumbnail" key)%bool
    eqn:Hguard.
  { left. split; [reflexivity|]. unfold LambdaFunction.handle_record.
    rewrite Hsrc, Hname. simpl. fold key. now rewrite Hguard. }
  apply orb_false_elim in Hguard. destruct Hguard as [Hraw Hjpg].
  right.
  destruct (is_raw_file filename || is_jpg_file filename)%bool eqn:Hext.
  2:{ left. split; [reflexivity|]. unfold LambdaFunction.handle_record.
      rewrite Hsrc, Hname. simpl. fold key. rewrite Hraw, Hjpg. simpl.
      fold filename. now rewrite Hext. }
  right.
  assert (Hel : eligible record) by (repeat split; assumption).
  pose proof (handle_record_eligible W record Hel) as Hrec.
  cbv zeta in Hrec. fold bucket key filename in Hrec.
  destruct (LambdaFunction.generate_thumbnail_path key filename)
    as [thumbnail_key|] eqn:Hpath.
  2:{ left. repeat split; assumption. }
  right.
  destruct (s3_download_file W bucket key) as [input|e] eqn:Hdl.
  2:{ left. exists thumbnail_key, e. repeat split; assumption. }
  right.
  destruct (if is_raw_file filename
            then LambdaFunction.process_raw_file W input
            else LambdaFunction.process_jpg_file W input) as [thumb|].
  2:{ left. exists thumbnail_key. repeat split; assumption. }
  right.
  destruct (LambdaFunction.optimize_thumbnail W thumb 1200 1200)
    as [optimized output].
  exists thumbnail_key, (if optimized then [] else [LogOptimizeFailure]), output.
  split; [exact Hel|]. split; [reflexivity|].
  split; [destruct optimized; auto | exact Hrec].
Qed.

(** Whatever one iteration does, it leaves no temporary file behind. *)
Lemma record_releases_temp_files (W : World) (record : s3_record)
      (later : list action) :
  temp_files_released None (fst (LambdaFunction.handle_record W record) ++ later)
  = temp_files_released None later.
Proof.
  destruct (handle_record_shape W record)
    as [[_ H]|[[_ H]|[[_ H]|[(_ & _ & H)|[(tk & e & _ & _ & _ & H)
       |[(tk & _ & _ & H)|(tk & warn & output & _ & _ & Hwarn & H)]]]]]];
    rewrite H; simpl; try reflexivity;
    try (rewrite String.eqb_refl; reflexivity).
  destruct Hwarn as [-> | ->]; simpl; rewrite String.eqb_refl; reflexivity.
Qed.

(** An action of a run is an action of one of the records, or the final
    error log. *)
Lemma handler_action_origin (W : World) (event : list s3_record) (a : action) :
  In a (fst (LambdaFunction.lambda_handler W event)) ->
  (exists record, In record event
                  /\ In a (fst (LambdaFunction.handle_record W record)))
  \/ (exists e, a = LogError e).
Proof.
  induction event as [|record rest IH]; [intros []|].
  destruct (LambdaFunction.handle_record W record) as [acts [[]|e]] eqn:Hrec.
  - rewrite (handler_continue W record rest acts Hrec). simpl fst.
    intros Hin. apply in_app_or in Hin. destruct Hin as [Hin|Hin].
    + left. exists record. split; [now left|]. now rewrite Hrec.
    + destruct (IH Hin) as [(r & Hr & Ha)|Herr]; [left|now right].
      exists r. split; [now right | exact Ha].
  - rewrite (handler_abort W record rest acts e Hrec). simpl fst.
    intros Hin. apply in_app_or in Hin. destruct Hin as [Hin|[<-|[]]].
    + left. exists record. split; [now left|]. now rewrite Hrec.
    + right. now exists e.
Qed.

(** X1.  Temporary files never outlive a run of the multi-record handler:
    in every world and for every event, each download is followed by the
    removal of that very file before the next download and before the
    handler returns, also when the download, the conversion or the upload
    fails; and nothing is uploaded unless a downloaded file is at hand. *)
Theorem X1_temp_files_always_released (W : World) (event : list s3_record) :
  temp_files_released None (fst (LambdaFunction.lambda_handler W event)) = true.
Proof.
  induction event as [|record rest IH]; [reflexivity|].
  destruct (LambdaFunction.handle_record W record) as [acts [[]|e]] eqn:Hrec.
  - rewrite (handler_continue W record rest acts Hrec). simpl fst.
    replace acts with (fst (LambdaFunction.handle_record W record))
      by now rewrite Hrec.
    now rewrite record_releases_temp_files.
  - rewrite (handler_abort W record rest acts e Hrec). simpl fst.
    replace acts with (fst (LambdaFunction.handle_record W record))
      by now rewrite Hrec.
    now rewrite record_releases_temp_files.
Qed.

(** X2.  The multi-record handler touches S3 only for eligible records.
    Every download of a run is the download of the decoded key of a record
    of the event that passes the event filter, the thumbnail guard and the
    extension check and whose path parses; every upload goes to the bucket
    of such a record, under the thumbnail key derived from its key. *)
Theorem X2_s3_access_only_for_eligible_records
        (W : World) (event : list s3_record) :
  (forall bucket key,
      In (Download bucket key) (fst (LambdaFunction.lambda_handler W event)) ->
      exists record,
        In record event /\ eligible record
        /\ bucket_name record = bucket
        /\ decode_key (object_key record) = key
        /\ LambdaFunction.generate_thumbnail_path key (Py.basename key) <> None)
  /\ (forall content bucket thumbnail_key,
         In (Upload content bucket thumbnail_key)
            (fst (LambdaFunction.lambda_handler W event)) ->
         exists record,
           In record event /\ eligible record
           /\ bucket_name record = bucket
           /\ LambdaFunction.generate_thumbnail_path
                (decode_key (object_key record))
                (Py.basename (decode_key (object_key record)))
              = Some thumbnail_key).
Proof.
  split.
  - intros bucket key Hin.
    destruct (handler_action_origin W event _ Hin) as [(r & Hr & Ha)|[e He]];
      [|discriminate].
    exists r. split; [exact Hr|].
    pose proof (handle_record_shape W r) as Hshape. cbv zeta in Hshape.
    destruct Hshape
      as [[_ H]|[[_ H]|[[_ H]|[(_ & _ & H)|[(tk & e & Hel & Hp & _ & H)
         |[(tk & Hel & Hp & H)|(tk & warn & output & Hel & Hp & Hwarn & H)]]]]]];
      rewrite H in Ha; simpl in Ha.
    + destruct Ha.
    + destruct Ha as [Ha|[]]; discriminate.
    + destruct Ha as [Ha|[]]; discriminate.
    + destruct Ha as [Ha|[]]; discriminate.
    + destruct Ha as [Ha|[Ha|[]]]; [|discriminate]. injection Ha as <- <-.
      split; [exact Hel|]. split; [reflexivity|]. split; [reflexivity|].
      rewrite Hp. discriminate.
    + destruct Ha as [Ha|[Ha|[Ha|[]]]]; try discriminate. injection Ha as <- <-.
      split; [exact Hel|]. split; [reflexivity|]. split; [reflexivity|].
      rewrite Hp. discriminate.
    + destruct Ha as [Ha|Ha].
      * injection Ha as <- <-.
        split; [exact Hel|]. split; [reflexivity|]. split; [reflexivity|].
        rewrite Hp. discriminate.
      * apply in_app_or in Ha. destruct Ha as [Ha|[Ha|[Ha|[]]]]; try discriminate.
        destruct Hwarn as [-> | ->]; [destruct Ha|].
        destruct Ha as [Ha|[]]; discriminate.
  - intros content bucket thumbnail_key Hin.
    destruct (handler_action_origin W event _ Hin) as [(r & Hr & Ha)|[e He]];
      [|discriminate].
    exists r. split; [exact Hr|].
    pose proof (handle_record_shape W r) as Hshape. cbv zeta in Hshape.
    destruct Hshape
      as [[_ H]|[[_ H]|[[_ H]|[(_ & _ & H)|[(tk & e & Hel & Hp & _ & H)
         |[(tk & Hel & Hp & H)|(tk & warn & output & Hel & Hp & Hwarn & H)]]]]]];
      rewrite H in Ha; simpl in Ha.
    + destruct Ha.
    + destruct Ha as [Ha|[]]; discriminate.
    + destruct Ha as [Ha|[]]; discriminate.
    + destruct Ha as [Ha|[]]; discriminate.
    + destruct Ha as [Ha|[Ha|[]]]; discriminate.
    + destruct Ha as [Ha|[Ha|[Ha|[]]]]; discriminate.
    + destruct Ha as [Ha|Ha]; [discriminate|].
      apply in_app_or in Ha. destruct Ha as [Ha|[Ha|[Ha|[]]]]; try discriminate.
      * destruct Hwarn as [-> | ->]; [destruct Ha|].
        destruct Ha as [Ha|[]]; discriminate.
      * injection Ha as <- <- <-.
        split; [exact Hel|]. split; [reflexivity | exact Hp].
Qed.

(** X3.  The multi-record handler answers 200 or 500, never 400, and 500
    only because S3 raised: the exception in the body is the one raised by
    the download or by the upload of an eligible record of the event.
    Hence, when S3 never raises, the answer is 200 whatever rawpy and
    Pillow do: conversion failures are not reported in the response. *)
Theorem X3_status_is_200_unless_s3_raises (W : World) (event : list s3_record) :
  (snd (LambdaFunction.lambda_handler W event)
   = {| statusCode := 200; body := BodyDone |}
   \/ exists e record,
        In record event /\ eligible record
        /\ snd (LambdaFunction.lambda_handler W event)
           = {| statusCode := 500; body := BodyError e |}
        /\ (s3_download_file W (bucket_name record)
                             (decode_key (object_key record)) = Raise e
            \/ exists output thumbnail_key,
                 s3_upload_file W output (bucket_name record) thumbnail_key
                 = Raise e))
  /\ ((forall bucket key e, s3_download_file W bucket key <> Raise e) ->
      (forall content bucket key e,
          s3_upload_file W content bucket key <> Raise e) ->
      snd (LambdaFunction.lambda_handler W event)
      = {| statusCode := 200; body := BodyDone |}).
Proof.
  assert (Hstatus :
    snd (LambdaFunction.lambda_handler W event)
    = {| statusCode := 200; body := BodyDone |}
    \/ exists e record,
         In record event /\ eligible record
         /\ snd (LambdaFunction.lambda_handler W event)
            = {| statusCode := 500; body := BodyError e |}
         /\ (s3_download_file W (bucket_name record)
                              (decode_key (object_key record)) = Raise e
             \/ exists output thumbnail_key,
                  s3_upload_file W output (bucket_name record) thumbnail_key
                  = Raise e)).
  { induction event as [|record rest IH]; [now left|].
    destruct (LambdaFunction.handle_record W record) as [acts [[]|e]] eqn:Hrec.
    - rewrite (handler_continue W record rest acts Hrec). simpl snd.
      destruct IH as [IH|(e & r & Hr & Hel & Hs & Hwhy)]; [now left|].
      right. exists e, r. split; [now right|]. auto.
    - rewrite (handler_abort W record rest acts e Hrec). simpl snd.
      right. exists e, record. split; [now left|].
      pose proof (handle_record_shape W record) as Hshape. cbv zeta in Hshape.
      destruct Hshape
        as [[_ H]|[[_ H]|[[_ H]|[(_ & _ & H)|[(tk & e' & Hel & Hp & Hdl & H)
           |[(tk & Hel & Hp & H)|(tk & warn & output & Hel & Hp & Hwarn & H)]]]]]];
        rewrite H in Hrec; try discriminate.
      + injection Hrec as _ <-. auto.
      + injection Hrec as _ Hup. split; [exact Hel|]. split; [reflexivity|].
        right. now exists output, tk. }
  split; [exact Hstatus|].
  intros Hdl Hup.
  destruct Hstatus as [H|(e & r & _ & _ & _ & [H|(output & tk & H)])];
    [exact H | |].
  - now apply Hdl in H.
  - now apply Hup in H.
Qed.

Lemma X3_witness :
  LambdaFunction.process_raw_file corrupt_world [] = None
  /\ snd (LambdaFunction.lambda_handler corrupt_world two_raw_batch)
     = {| statusCode := 200; body := BodyDone |}.
Proof.
  split; [reflexivity|].
  apply (proj2 (X3_status_is_200_unless_s3_raises corrupt_world two_raw_batch)).
  - intros bucket key e. simpl.
    destruct (String.eqb key "user/u1/raw/2023/4/5/IMG_01.CR2"); discriminate.
  - intros content bucket key e. discriminate.
Defined.

(** ** The handlers never work on their own output *)

Lemma thumbnail_key_names_its_directory (key filename thumbnail_key : string) :
  LambdaFunction.generate_thumbnail_path key filename = Some thumbnail_key ->
  exists before after,
    thumbnail_key = before ++ "rawThumbnail" ++ after
    \/ thumbnail_key = before ++ "jpgThumbnail" ++ after.
Proof.
  unfold LambdaFunction.generate_thumbnail_path.
  destruct (LambdaFunction.extract_path_info key) as [info|]; [|discriminate].
  set (rest := "/" ++ LambdaFunction.year info ++ "/"
               ++ LambdaFunction.month info ++ "/" ++ LambdaFunction.day info
               ++ "/" ++ fst (Py.splitext filename) ++ "_thumb.jpg").
  destruct (String.eqb (LambdaFunction.file_type info) "raw").
  - intros H. injection H as <-.
    exists ("user/" ++ LambdaFunction.user_id info ++ "/"), rest. left.
    unfold rest. now rewrite !append_assoc.
  - destruct (String.eqb (LambdaFunction.file_type info) "jpg"); [|discriminate].
    intros H. injection H as <-.
    exists ("user/" ++ LambdaFunction.user_id info ++ "/"), rest. right.
    unfold rest. now rewrite !append_assoc.
Qed.

(** X4.  The multi-record handler never converts its own output.  Every
    key produced by [generate_thumbnail_path] names [rawThumbnail] or
    [jpgThumbnail], so a record that carries such a key is stopped by the
    guard: whatever the world, nothing is downloaded or uploaded for it,
    and the only trace is the guard's log line (none when the record fails
    the event filter). *)
Theorem X4_own_output_is_never_reprocessed
        (key filename thumbnail_key : string)
        (W : World) (record : s3_record) :
  LambdaFunction.generate_thumbnail_path key filename = Some thumbnail_key ->
  decode_key (object_key record) = thumbnail_key ->
  (Py.contains "rawThumbnail" thumbnail_key
   || Py.contains "jpgThumbnail" thumbnail_key)%bool = true
  /\ LambdaFunction.handle_record W record
     = (if passes_event_filter record
        then [LogSkipThumbnailDir thumbnail_key] else [], Ok tt).
Proof.
  intros Hpath Hkey.
  assert (Hguard : (Py.contains "rawThumbnail" thumbnail_key
                    || Py.contains "jpgThumbnail" thumbnail_key)%bool = true).
  { destruct (thumbnail_key_names_its_directory _ _ _ Hpath)
      as (before & after & [-> | ->]); rewrite contains_occurrence;
      [reflexivity | apply orb_true_r]. }
  split; [exact Hguard|].
  unfold LambdaFunction.handle_record, passes_event_filter.
  destruct (String.eqb (eventSource record) "aws:s3"); [|reflexivity].
  destruct (Py.startswith (eventName record) "ObjectCreated"); [|reflexivity].
  simpl. rewrite Hkey, Hguard. reflexivity.
Qed.

Lemma X4_witness :
  LambdaFunction.generate_thumbnail_path
    "user/u1/jpg/2023/04/05/photo.JPG" "photo.JPG"
  = Some "user/u1/jpgThumbnail/2023/04/05/photo_thumb.jpg"
  /\ LambdaFunction.handle_record calm_world
       (Sample.record_for "user/u1/jpgThumbnail/2023/04/05/photo_thumb.jpg")
     = ([LogSkipThumbnailDir "user/u1/jpgThumbnail/2023/04/05/photo_thumb.jpg"],
        Ok tt).
Proof.
  split; [reflexivity|].
  exact (proj2 (X4_own_output_is_never_reprocessed
                  "user/u1/jpg/2023/04/05/photo.JPG" "photo.JPG"
                  "user/u1/jpgThumbnail/2023/04/05/photo_thumb.jpg"
                  calm_world
                  (Sample.record_for
                     "user/u1/jpgThumbnail/2023/04/05/photo_thumb.jpg")
                  eq_refl eq_refl)).
Defined.

(** ** File names: extensions of thumbnails and of hidden files *)

Lemma all_chars_app (p : ascii -> bool) (a b : string) :
  Py.all_chars p (a ++ b) = (Py.all_chars p a && Py.all_chars p b)%bool.
Proof.
  induction a as [|c a IH]; simpl; [reflexivity|].
  now rewrite IH, andb_assoc.
Qed.

Lemma all_chars_substring (p : ascii -> bool) (s : string) (n : nat) :
  Py.all_chars p s = true -> Py.all_chars p (String.substring 0 n s) = true.
Proof.
  revert s. induction n as [|n IH]; intros [|c s]; simpl; try reflexivity.
  intros H. apply andb_prop in H. destruct H as [Hc Hs].
  now rewrite Hc, IH.
Qed.

Lemma all_chars_drop (p : ascii -> bool) (s : string) (n : nat) :
  Py.all_chars p s = true -> Py.all_chars p (Py.drop n s) = true.
Proof.
  revert s. induction n as [|n IH]; intros [|c s]; simpl; try reflexivity;
    try (intros H; exact H).
  intros H. apply andb_prop in H. destruct H as [_ Hs]. now apply IH.
Qed.

Lemma substring_prefix_app (a b : string) :
  String.substring 0 (String.length a) (a ++ b) = a.
Proof. induction a as [|c a IH]; simpl; [now destruct b | now rewrite IH]. Qed.

Lemma substring_skip_app (a b : string) (n : nat) :
  String.substring (String.length a) n (a ++ b) = String.substring 0 n b.
Proof. induction a as [|c a IH]; simpl; [reflexivity | exact IH]. Qed.

Lemma has_non_dot_found (p : string) (n j : nat) (i : Z) :
  (j < n)%nat ->
  String.eqb (Py.char_at p (i + Z.of_nat j)) "." = false ->
  Py.has_non_dot p i n = true.
Proof.
  revert i j. induction n as [|n IH]; intros i j Hj Hc; [lia|].
  simpl. destruct (String.eqb (Py.char_at p i) ".") eqn:E; [|reflexivity].
  simpl. destruct j as [|j].
  - replace (i + Z.of_nat 0) with i in Hc by lia. congruence.
  - apply (IH (i + 1) j); [lia|].
    replace (i + 1 + Z.of_nat j) with (i + Z.of_nat (S j)) by lia. exact Hc.
Qed.

(** [os.path.splitext] of a name that ends in a one-dot suffix after a
    character that is not a dot. *)
Lemma splitext_suffix (stem : string) (c : ascii) (tail ext : string) :
  no_slash stem = true -> no_slash (String c tail) = true ->
  no_slash ext = true ->
  Ascii.eqb c "." = false ->
  Py.all_chars (fun d => negb (Ascii.eqb d ".")) ext = true ->
  Py.splitext (stem ++ String c tail ++ String "." ext)
  = (stem ++ String c tail, String "." ext).
Proof.
  intros Hstem Htail Hext Hc Hnodot.
  set (a := stem ++ String c tail).
  assert (Hp : stem ++ String c tail ++ String "." ext = a ++ String "." ext)
    by (unfold a; now rewrite append_assoc).
  rewrite Hp. unfold Py.splitext, Py.rfind.
  rewrite (rfind_from_last "." a ext 0 (-1) Hnodot).
  rewrite rfind_from_absent.
  2:{ change (no_slash (a ++ String "." ext) = true). unfold no_slash, a.
      rewrite !all_chars_app. fold (no_slash stem). rewrite Hstem.
      fold (no_slash (String c tail)). rewrite Htail.
      change (Py.all_chars (fun c0 => negb (Ascii.eqb c0 "/")) (String "." ext))
        with (no_slash ext). now rewrite Hext. }
  unfold Py.len.
  destruct (Z.gtb_spec (0 + Z.of_nat (String.length a)) (-1)) as [_|H]; [|lia].
  replace (0 + Z.of_nat (String.length a) - (-1 + 1))
    with (Z.of_nat (String.length a)) by lia.
  rewrite Nat2Z.id.
  rewrite (has_non_dot_found _ (String.length a) (String.length stem) (-1 + 1)).
  - unfold Py.slice_to, Py.slice_from.
    replace (Z.to_nat (0 + Z.of_nat (String.length a))) with (String.length a)
      by lia.
    now rewrite substring_prefix_app, drop_app.
  - unfold a. rewrite string_length_app. simpl. lia.
  - unfold Py.char_at.
    replace (Z.to_nat (-1 + 1 + Z.of_nat (String.length stem)))
      with (String.length stem) by lia.
    rewrite <- Hp, substring_skip_app. simpl.
    destruct (tail ++ String "." ext); simpl;
      destruct (Ascii.eqb_spec c "."); try discriminate; reflexivity.
Qed.

Lemma thumbnail_name_extension (stem : string) :
  no_slash stem = true ->
  Py.splitext (stem ++ "_thumb.jpg") = (stem ++ "_thumb", ".jpg").
Proof.
  intros H.
  exact (splitext_suffix stem "_" "thumb" "jpg" H eq_refl eq_refl eq_refl eq_refl).
Qed.

Lemma splitext_stem_no_slash (filename : string) :
  no_slash filename = true -> no_slash (fst (Py.splitext filename)) = true.
Proof.
  intros H. unfold Py.splitext.
  destruct (Py.rfind filename "." >? Py.rfind filename "/"); [|exact H].
  destruct (Py.has_non_dot _ _ _); [|exact H].
  simpl. unfold Py.slice_to. now apply all_chars_substring.
Qed.

Lemma pil_thumbnail_basename (key filename thumbnail_key : string) :
  no_slash filename = true ->
  LambdaFunctionPil.generate_thumbnail_path key filename = Some thumbnail_key ->
  Py.basename thumbnail_key = fst (Py.splitext filename) ++ "_thumb.jpg".
Proof.
  intros Hname. unfold LambdaFunctionPil.generate_thumbnail_path.
  destruct (LambdaFunctionPil.extract_path_info key) as [info|]; [|discriminate].
  intros H. injection H as <-.
  set (name := fst (Py.splitext filename) ++ "_thumb.jpg").
  set (dir := "user/" ++ LambdaFunctionPil.user_id info ++ "/rawThumbnail/"
              ++ LambdaFunctionPil.year info ++ "/"
              ++ LambdaFunctionPil.month info ++ "/"
              ++ LambdaFunctionPil.day info).
  match goal with
  | |- Py.basename ?t = _ =>
      replace t with (dir ++ String "/" name)
        by (unfold dir, name; rewrite !append_assoc; reflexivity)
  end.
  apply basename_app. unfold name, no_slash. rewrite all_chars_app.
  fold (no_slash (fst (Py.splitext filename))).
  now rewrite splitext_stem_no_slash.
Qed.

(** X5.  The Pillow handler has no thumbnail guard, yet it never converts
    its own output either: the file name of every key it derives ends in
    [_thumb.jpg], whose extension [.jpg] is not a RAW extension.  A record
    that carries such a key is answered 200 "Not a RAW file" without any
    access to S3. *)
Theorem X5_pil_output_is_not_a_raw_file
        (key filename thumbnail_key : string)
        (W : World) (record : s3_record) (rest : list s3_record) :
  no_slash filename = true ->
  LambdaFunctionPil.generate_thumbnail_path key filename = Some thumbnail_key ->
  decode_key (object_key record) = thumbnail_key ->
  get_file_extension (Py.basename thumbnail_key) = ".jpg"
  /\ is_raw_file (Py.basename thumbnail_key) = false
  /\ LambdaFunctionPil.lambda_handler W (record :: rest)
     = ([], {| statusCode := 200;
               body := BodyNotRaw (Py.basename thumbnail_key) |}).
Proof.
  intros Hname Hpath Hkey.
  pose proof (pil_thumbnail_basename _ _ _ Hname Hpath) as Hbase.
  assert (Hext : get_file_extension (Py.basename thumbnail_key) = ".jpg").
  { rewrite Hbase. unfold get_file_extension.
    rewrite thumbnail_name_extension by now apply splitext_stem_no_slash.
    reflexivity. }
  assert (Hraw : is_raw_file (Py.basename thumbnail_key) = false)
    by (unfold is_raw_file; now rewrite Hext).
  split; [exact Hext|]. split; [exact Hraw|].
  unfold LambdaFunctionPil.lambda_handler. rewrite Hkey, Hraw. reflexivity.
Qed.

Lemma X5_witness :
  LambdaFunctionPil.generate_thumbnail_path
    "user/u1/raw/2023/4/5/IMG_01.CR2" "IMG_01.CR2"
  = Some "user/u1/rawThumbnail/2023/04/05/IMG_01_thumb.jpg"
  /\ LambdaFunctionPil.lambda_handler calm_world
       [Sample.record_for "user/u1/rawThumbnail/2023/04/05/IMG_01_thumb.jpg"]
     = ([], {| statusCode := 200; body := BodyNotRaw "IMG_01_thumb.jpg" |}).
Proof.
  split; [reflexivity|].
  exact (proj2 (proj2 (X5_pil_output_is_not_a_raw_file
                  "user/u1/raw/2023/4/5/IMG_01.CR2" "IMG_01.CR2"
                  "user/u1/rawThumbnail/2023/04/05/IMG_01_thumb.jpg"
                  calm_world
                  (Sample.record_for
                     "user/u1/rawThumbnail/2023/04/05/IMG_01_thumb.jpg")
                  [] eq_refl eq_refl eq_refl))).
Defined.

(** ** PathCodec: what a parsed path looks like, and parsing twice *)

Lemma split_segments_no_slash (s : string) :
  Forall (fun part => no_slash part = true) (Py.split "/" s).
Proof.
  induction s as [|c s IH]; simpl; [repeat constructor|].
  destruct (Ascii.eqb_spec c "/") as [->|Hc].
  - constructor; [reflexivity | exact IH].
  - destruct (Py.split "/" s) as [|h t]; [repeat constructor|].
    + unfold no_slash. simpl. destruct (Ascii.eqb_spec c "/"); [contradiction|].
      reflexivity.
    + inversion IH as [|? ? Hh Ht]; subst. constructor; [|exact Ht].
      unfold no_slash in *. simpl. rewrite Hh.
      destruct (Ascii.eqb_spec c "/"); [contradiction | reflexivity].
Qed.

Lemma nth_no_slash (parts : list string) (n : nat) :
  Forall (fun part => no_slash part = true) parts ->
  no_slash (nth n parts "") = true.
Proof.
  intros H. revert n. induction H as [|p parts Hp _ IH]; intros [|n]; simpl; auto.
Qed.

Lemma repeat_char_length (c : ascii) (n : nat) :
  String.length (Py.repeat_char c n) = n.
Proof. induction n; simpl; auto. Qed.

Lemma repeat_zero_digits (n : nat) :
  Py.all_chars Py.is_ascii_digit (Py.repeat_char "0" n) = true.
Proof. induction n; simpl; auto. Qed.

(** [str.zfill] never shortens and fills exactly up to the width. *)
Lemma zfill_length (s : string) (width : Z) :
  Py.len (Py.zfill s width) = Z.max (Py.len s) width.
Proof.
  unfold Py.zfill. destruct (Z.geb_spec (Py.len s) width) as [H|H]; [lia|].
  unfold Py.len in *. destruct s as [|c rest].
  - rewrite repeat_char_length. simpl in *. lia.
  - destruct (Ascii.eqb c "+" || Ascii.eqb c "-")%bool.
    + simpl String.length. rewrite string_length_app, repeat_char_length.
      simpl String.length in *. lia.
    + rewrite string_length_app, repeat_char_length.
      simpl String.length in *. lia.
Qed.

Lemma zfill_idempotent (s : string) (width : Z) :
  Py.zfill (Py.zfill s width) width = Py.zfill s width.
Proof.
  unfold Py.zfill at 1. rewrite zfill_length.
  destruct (Z.geb_spec (Z.max (Py.len s) width) width); [reflexivity | lia].
Qed.

Lemma zfill_digits (s : string) (width : Z) :
  Py.isdigit s = true -> Py.isdigit (Py.zfill s width) = true.
Proof.
  intros Hs. unfold Py.zfill.
  destruct (Py.len s >=? width); [exact Hs|].
  destruct s as [|c rest]; [discriminate|].
  assert (Hall : Py.all_chars Py.is_ascii_digit (String c rest) = true) by exact Hs.
  assert (Hc : Py.is_ascii_digit c = true)
    by (simpl in Hall; now apply andb_prop in Hall).
  destruct (Ascii.eqb_spec c "+") as [->|_]; [discriminate Hc|].
  destruct (Ascii.eqb_spec c "-") as [->|_]; [discriminate Hc|].
  simpl orb. cbv iota.
  assert (Hfill : Py.all_chars Py.is_ascii_digit
                    (Py.repeat_char "0" (Z.to_nat (width - Py.len (String c rest)))
                     ++ String c rest) = true)
    by (rewrite all_chars_app, repeat_zero_digits; exact Hall).
  destruct (Py.repeat_char "0" (Z.to_nat (width - Py.len (String c rest)))
            ++ String c rest) eqn:E; [|exact Hfill].
  destruct (Py.repeat_char "0" (Z.to_nat (width - Py.len (String c rest))));
    discriminate.
Qed.

(** What [extract_path_info] guarantees about its result. *)
Lemma path_info_invariants (key : string) (info : LambdaFunction.path_info) :
  LambdaFunction.extract_path_info key = Some info ->
  (7 <= List.length (Py.split "/" key))%nat
  /\ LambdaFunction.user_id info = nth 1 (Py.split "/" key) ""
  /\ LambdaFunction.file_type info = nth 2 (Py.split "/" key) ""
  /\ no_slash (LambdaFunction.user_id info) = true
  /\ no_slash (LambdaFunction.file_type info) = true
  /\ Py.isdigit (LambdaFunction.year info) = true
  /\ Py.isdigit (LambdaFunction.month info) = true
  /\ Py.isdigit (LambdaFunction.day info) = true
  /\ 2 <= Py.len (LambdaFunction.month info)
  /\ 2 <= Py.len (LambdaFunction.day info).
Proof.
  unfold LambdaFunction.extract_path_info.
  set (parts := Py.split "/" key).
  pose proof (split_segments_no_slash key) as Hparts. fold parts in Hparts.
  destruct (Z.ltb_spec (Z.of_nat (List.length parts)) 7) as [|Hlen]; [discriminate|].
  destruct (Py.isdigit (nth 3 parts "")) eqn:Hy; [|discriminate].
  destruct (Py.isdigit (nth 4 parts "")) eqn:Hm; [|discriminate].
  destruct (Py.isdigit (nth 5 parts "")) eqn:Hd; [|discriminate].
  simpl. intros H. injection H as <-. simpl.
  repeat split; auto using nth_no_slash, zfill_digits; try lia.
  - rewrite zfill_length. lia.
  - rewrite zfill_length. lia.
Qed.

(** X6.  Parsing normalises the date and is stable under derivation.  A
    parsed path has a numeric year, month and day, with month and day at
    least two characters long, so padding them again changes nothing.  The
    thumbnail key derived from it parses again to the same user, year,
    month and day, with the thumbnail directory as its category - and for
    that reason no thumbnail key can be derived from a thumbnail key. *)
Theorem X6_thumbnail_key_parses_back
        (key filename thumbnail_key : string) :
  no_slash filename = true ->
  LambdaFunction.generate_thumbnail_path key filename = Some thumbnail_key ->
  exists info directory,
    LambdaFunction.extract_path_info key = Some info
    /\ (directory = "rawThumbnail" \/ directory = "jpgThumbnail")
    /\ Py.zfill (LambdaFunction.month info) 2 = LambdaFunction.month info
    /\ Py.zfill (LambdaFunction.day info) 2 = LambdaFunction.day info
    /\ LambdaFunction.extract_path_info thumbnail_key
       = Some {| LambdaFunction.user_id := LambdaFunction.user_id info;
                 LambdaFunction.file_type := directory;
                 LambdaFunction.year := LambdaFunction.year info;
                 LambdaFunction.month := LambdaFunction.month info;
                 LambdaFunction.day := LambdaFunction.day info |}
    /\ LambdaFunction.generate_thumbnail_path
         thumbnail_key (Py.basename thumbnail_key) = None.
Proof.
  intros Hname Hpath. unfold LambdaFunction.generate_thumbnail_path in Hpath.
  destruct (LambdaFunction.extract_path_info key) as [info|] eqn:Hinfo;
    [|discriminate].
  destruct (path_info_invariants key info Hinfo)
    as (_ & _ & _ & Huid & _ & Hy & Hm & Hd & Hlm & Hld).
  set (name := fst (Py.splitext filename) ++ "_thumb.jpg") in *.
  assert (Hnm : no_slash name = true).
  { unfold name, no_slash. rewrite all_chars_app.
    fold (no_slash (fst (Py.splitext filename))).
    now rewrite splitext_stem_no_slash. }
  assert (Hzm : Py.zfill (LambdaFunction.month info) 2 = LambdaFunction.month info).
  { unfold Py.zfill.
    destruct (Z.geb_spec (Py.len (LambdaFunction.month info)) 2); [reflexivity|lia]. }
  assert (Hzd : Py.zfill (LambdaFunction.day info) 2 = LambdaFunction.day info).
  { unfold Py.zfill.
    destruct (Z.geb_spec (Py.len (LambdaFunction.day info)) 2); [reflexivity|lia]. }
  assert (Hgen : forall directory,
    no_slash directory = true ->
    directory <> "raw" -> directory <> "jpg" ->
    thumbnail_key = Py.join "/" ["user"; LambdaFunction.user_id info; directory;
                                 LambdaFunction.year info;
                                 LambdaFunction.month info;
                                 LambdaFunction.day info; name] ->
    LambdaFunction.extract_path_info thumbnail_key
    = Some {| LambdaFunction.user_id := LambdaFunction.user_id info;
              LambdaFunction.file_type := directory;
              LambdaFunction.year := LambdaFunction.year info;
              LambdaFunction.month := LambdaFunction.month info;
              LambdaFunction.day := LambdaFunction.day info |}
    /\ LambdaFunction.generate_thumbnail_path
         thumbnail_key (Py.basename thumbnail_key) = None).
  { intros directory Hdir Hnraw Hnjpg ->.
    assert (Hparse :
      LambdaFunction.extract_path_info
        (Py.join "/" ["user"; LambdaFunction.user_id info; directory;
                      LambdaFunction.year info; LambdaFunction.month info;
                      LambdaFunction.day info; name])
      = Some {| LambdaFunction.user_id := LambdaFunction.user_id info;
                LambdaFunction.file_type := directory;
                LambdaFunction.year := LambdaFunction.year info;
                LambdaFunction.month := LambdaFunction.month info;
                LambdaFunction.day := LambdaFunction.day info |}).
    { unfold LambdaFunction.extract_path_info.
      rewrite split_join;
        [|discriminate
         |repeat constructor; auto using isdigit_no_slash].
      simpl List.length. simpl nth. rewrite Hy, Hm, Hd. simpl.
      now rewrite Hzm, Hzd. }
    split; [exact Hparse|].
    unfold LambdaFunction.generate_thumbnail_path. rewrite Hparse. simpl.
    destruct (String.eqb_spec directory "raw"); [contradiction|].
    destruct (String.eqb_spec directory "jpg"); [contradiction|].
    reflexivity. }
  exists info.
  destruct (String.eqb (LambdaFunction.file_type info) "raw").
  - exists "rawThumbnail". injection Hpath as <-.
    split; [reflexivity|]. split; [now left|]. split; [exact Hzm|].
    split; [exact Hzd|].
    apply Hgen; [reflexivity | discriminate | discriminate | reflexivity].
  - destruct (String.eqb (LambdaFunction.file_type info) "jpg"); [|discriminate].
    exists "jpgThumbnail". injection Hpath as <-.
    split; [reflexivity|]. split; [now right|]. split; [exact Hzm|].
    split; [exact Hzd|].
    apply Hgen; [reflexivity | discriminate | discriminate | reflexivity].
Qed.

Lemma X6_witness :
  exists info directory,
    LambdaFunction.extract_path_info "user/u1/raw/2023/4/5/IMG_01.CR2" = Some info
    /\ (directory = "rawThumbnail" \/ directory = "jpgThumbnail")
    /\ Py.zfill (LambdaFunction.month info) 2 = LambdaFunction.month info
    /\ Py.zfill (LambdaFunction.day info) 2 = LambdaFunction.day info
    /\ LambdaFunction.extract_path_info
         "user/u1/rawThumbnail/2023/04/05/IMG_01_thumb.jpg"
       = Some {| LambdaFunction.user_id := LambdaFunction.user_id info;
                 LambdaFunction.file_type := directory;
                 LambdaFunction.year := LambdaFunction.year info;
                 LambdaFunction.month := LambdaFunction.month info;
                 LambdaFunction.day := LambdaFunction.day info |}
    /\ LambdaFunction.generate_thumbnail_path
         "user/u1/rawThumbnail/2023/04/05/IMG_01_thumb.jpg"
         (Py.basename "user/u1/rawThumbnail/2023/04/05/IMG_01_thumb.jpg") = None.
Proof.
  exact (X6_thumbnail_key_parses_back
           "user/u1/raw/2023/4/5/IMG_01.CR2" "IMG_01.CR2"
           "user/u1/rawThumbnail/2023/04/05/IMG_01_thumb.jpg" eq_refl eq_refl).
Defined.

(** X7.  Only the user, the category, the date and the stem of the file
    name reach the thumbnail key.  The first segment of the source key is
    not compared with [user], folders between the day and the file name
    are dropped, and so is the extension: source keys that differ only in
    these share one thumbnail key, and the later upload replaces the
    earlier one. *)
Theorem X7_destination_forgets_prefix_folders_and_extension
        (first uid category y m d fname : string) (folders : list string) :
  no_slash first = true -> no_slash uid = true -> no_slash fname = true ->
  Forall (fun folder => no_slash folder = true) folders ->
  category = "raw" \/ category = "jpg" ->
  Py.isdigit y = true -> Py.isdigit m = true -> Py.isdigit d = true ->
  let key :=
    Py.join "/" ([first; uid; category; y; m; d] ++ folders ++ [fname])%list in
  Py.basename key = fname
  /\ LambdaFunction.generate_thumbnail_path key (Py.basename key)
     = Some ("user/" ++ uid ++ "/" ++ category ++ "Thumbnail" ++ "/" ++ y ++ "/"
             ++ Py.zfill m 2 ++ "/" ++ Py.zfill d 2 ++ "/"
             ++ fst (Py.splitext fname) ++ "_thumb.jpg").
Proof.
  intros Hfirst Huid Hfname Hfolders Hcat Hy Hm Hd key.
  assert (Hsplit : Py.split "/" key
                   = ([first; uid; category; y; m; d] ++ folders ++ [fname])%list).
  { apply split_join; [discriminate|].
    repeat (constructor; [auto using isdigit_no_slash
                          || (destruct Hcat as [-> | ->]; reflexivity)|]).
    apply Forall_app. split; [exact Hfolders | repeat constructor; exact Hfname]. }
  assert (Hbase : Py.basename key = fname).
  { unfold key. rewrite app_assoc.
    apply basename_join; [|exact Hfname]. discriminate. }
  split; [exact Hbase|].
  rewrite Hbase. unfold LambdaFunction.generate_thumbnail_path,
    LambdaFunction.extract_path_info.
  rewrite Hsplit. simpl nth.
  destruct (Z.ltb_spec (Z.of_nat (List.length
              ([first; uid; category; y; m; d] ++ folders ++ [fname])%list)) 7)
    as [Hlt|_].
  { rewrite !List.length_app in Hlt. simpl in Hlt. lia. }
  rewrite Hy, Hm, Hd. simpl.
  destruct Hcat as [-> | ->]; reflexivity.
Qed.

Lemma X7_witness :
  LambdaFunction.generate_thumbnail_path
    "archive/u1/raw/2023/4/5/day1/card2/x.nef" "x.nef"
  = Some "user/u1/rawThumbnail/2023/04/05/x_thumb.jpg"
  /\ LambdaFunction.generate_thumbnail_path
       "user/u1/raw/2023/4/5/x.cr2" "x.cr2"
     = Some "user/u1/rawThumbnail/2023/04/05/x_thumb.jpg".
Proof.
  split.
  - exact (proj2 (X7_destination_forgets_prefix_folders_and_extension
                    "archive" "u1" "raw" "2023" "4" "5" "x.nef"
                    ["day1"; "card2"]
                    eq_refl eq_refl eq_refl
                    (Forall_cons "day1" (eq_refl : no_slash "day1" = true)
                       (Forall_cons "card2" (eq_refl : no_slash "card2" = true)
                          (Forall_nil _)))
                    (or_introl eq_refl) eq_refl eq_refl eq_refl)).
  - exact (proj2 (X7_destination_forgets_prefix_folders_and_extension
                    "user" "u1" "raw" "2023" "4" "5" "x.cr2" []
                    eq_refl eq_refl eq_refl (Forall_nil _)
                    (or_introl eq_refl) eq_refl eq_refl eq_refl)).
Defined.

(** ** Which files are converted *)

Lemma lower_app (a b : string) : Py.lower (a ++ b) = Py.lower a ++ Py.lower b.
Proof. induction a as [|c a IH]; simpl; [reflexivity | now rewrite IH]. Qed.

Lemma hidden_file_has_no_extension (name : string) :
  Py.all_chars (fun d => negb (Ascii.eqb d ".")) name = true ->
  no_slash name = true ->
  Py.splitext (String "." name) = (String "." name, "").
Proof.
  intros Hdot Hslash. unfold Py.splitext, Py.rfind.
  change (Py.rfind_from "." (String "." name) 0 (-1))
    with (Py.rfind_from "." name (0 + 1) 0).
  change (Py.rfind_from "/" (String "." name) 0 (-1))
    with (Py.rfind_from "/" name (0 + 1) (-1)).
  rewrite (rfind_from_absent "." name (0 + 1) 0 Hdot).
  rewrite (rfind_from_absent "/" name (0 + 1) (-1) Hslash).
  reflexivity.
Qed.

(** X8.  How file names are classified.  No name is both a RAW and a JPEG
    file, so the handler's [if is_raw ... elif is_jpg] never has to choose.
    The test looks at the lower-cased text after the last dot: two names
    whose extensions differ only in case are classified alike.  A name
    that is a single leading dot followed by dot-free text, such as
    [.cr2], has no extension at all and is neither. *)
Theorem X8_file_classification :
  (forall filename,
      (is_raw_file filename && is_jpg_file filename)%bool = false)
  /\ (forall stem c tail ext stem' c' tail' ext',
         no_slash stem = true -> no_slash (String c tail) = true ->
         no_slash stem' = true -> no_slash (String c' tail') = true ->
         no_slash ext = true -> no_slash ext' = true ->
         Ascii.eqb c "." = false -> Ascii.eqb c' "." = false ->
         Py.all_chars (fun d => negb (Ascii.eqb d ".")) ext = true ->
         Py.all_chars (fun d => negb (Ascii.eqb d ".")) ext' = true ->
         Py.lower ext = Py.lower ext' ->
         is_raw_file (stem ++ String c tail ++ String "." ext)
         = is_raw_file (stem' ++ String c' tail' ++ String "." ext')
         /\ is_jpg_file (stem ++ String c tail ++ String "." ext)
            = is_jpg_file (stem' ++ String c' tail' ++ String "." ext'))
  /\ (forall name,
         Py.all_chars (fun d => negb (Ascii.eqb d ".")) name = true ->
         no_slash name = true ->
         get_file_extension (String "." name) = ""
         /\ is_raw_file (String "." name) = false
         /\ is_jpg_file (String "." name) = false).
Proof.
  split; [|split].
  - intros filename. unfold is_raw_file, is_jpg_file.
    generalize (get_file_extension filename). intros e.
    destruct (Py.in_list e JPG_EXTENSIONS) eqn:Hjpg; [|apply andb_false_r].
    unfold Py.in_list, JPG_EXTENSIONS in Hjpg. simpl in Hjpg.
    destruct (String.eqb e ".jpg") eqn:E1.
    { apply String.eqb_eq in E1. subst e. reflexivity. }
    destruct (String.eqb e ".jpeg") eqn:E2; [|discriminate].
    apply String.eqb_eq in E2. subst e. reflexivity.
  - intros stem c tail ext stem' c' tail' ext'
           Hs Ht Hs' Ht' He He' Hc Hc' Hd Hd' Hlow.
    unfold is_raw_file, is_jpg_file, get_file_extension.
    rewrite (splitext_suffix stem c tail ext) by assumption.
    rewrite (splitext_suffix stem' c' tail' ext') by assumption.
    simpl. now rewrite Hlow.
  - intros name Hdot Hslash.
    unfold is_raw_file, is_jpg_file, get_file_extension.
    rewrite hidden_file_has_no_extension by assumption.
    repeat split.
Qed.

Lemma X8_witness :
  (is_raw_file "IMG_01.CR2" = is_raw_file "img_02.cr2"
   /\ is_jpg_file "IMG_01.CR2" = is_jpg_file "img_02.cr2")
  /\ is_raw_file "IMG_01.CR2" = true
  /\ (get_file_extension ".cr2" = "" /\ is_raw_file ".cr2" = false
      /\ is_jpg_file ".cr2" = false).
Proof.
  split; [|split].
  - exact (proj1 (proj2 X8_file_classification)
             "IMG" "_"%char "01" "CR2" "img" "_"%char "02" "cr2"
             eq_refl eq_refl eq_refl eq_refl eq_refl eq_refl
             eq_refl eq_refl eq_refl eq_refl eq_refl).
  - reflexivity.
  - exact (proj2 (proj2 X8_file_classification) "cr2" eq_refl eq_refl).
Defined.

(** ** The embedded-JPEG scan: what an accepted slice looks like *)

Lemma scan_without_start (W : World) (raw_data : bytes) :
  absent_from LambdaFunctionPil.jpeg_start raw_data 0 ->
  LambdaFunctionPil.find_jpeg_data_in_raw W raw_data = Ok None.
Proof.
  intros Habs. unfold LambdaFunctionPil.find_jpeg_data_in_raw.
  pose proof (find_absent LambdaFunctionPil.jpeg_start raw_data 0
                ltac:(discriminate) Habs) as H0.
  change (Z.of_nat 0) with 0 in H0. now rewrite H0.
Qed.

Lemma scan_without_end (W : World) (raw_data : bytes) (s : nat) :
  first_occurrence LambdaFunctionPil.jpeg_start raw_data 0 s ->
  absent_from LambdaFunctionPil.jpeg_end raw_data s ->
  LambdaFunctionPil.find_jpeg_data_in_raw W raw_data = Ok None.
Proof.
  intros Hfirst Habs. unfold LambdaFunctionPil.find_jpeg_data_in_raw.
  pose proof (find_first LambdaFunctionPil.jpeg_start raw_data 0 s
                ltac:(discriminate) Hfirst) as H0.
  change (Z.of_nat 0) with 0 in H0. rewrite H0.
  destruct (Z.eqb_spec (Z.of_nat s) (-1)); [lia|].
  now rewrite (find_absent LambdaFunctionPil.jpeg_end raw_data s
                 ltac:(discriminate) Habs).
Qed.

Lemma scan_with_both (W : World) (raw_data : bytes) (s e : nat) :
  first_occurrence LambdaFunctionPil.jpeg_start raw_data 0 s ->
  first_occurrence LambdaFunctionPil.jpeg_end raw_data s e ->
  LambdaFunctionPil.find_jpeg_data_in_raw W raw_data
  = match Image_open W (firstn (e + 2 - s) (skipn s raw_data)) with
    | Ok _ => Ok (Some (firstn (e + 2 - s) (skipn s raw_data)))
    | Raise _ => Ok None
    end.
Proof.
  intros Hfirst Hend. unfold LambdaFunctionPil.find_jpeg_data_in_raw.
  pose proof (find_first LambdaFunctionPil.jpeg_start raw_data 0 s
                ltac:(discriminate) Hfirst) as H0.
  change (Z.of_nat 0) with 0 in H0. rewrite H0.
  destruct (Z.eqb_spec (Z.of_nat s) (-1)); [lia|].
  rewrite (find_first LambdaFunctionPil.jpeg_end raw_data s e
             ltac:(discriminate) Hend).
  destruct (Z.eqb_spec (Z.of_nat e) (-1)); [lia|].
  unfold PyBytes.slice.
  replace (Z.to_nat (Z.of_nat e + 2 - Z.of_nat s)) with (e + 2 - s)%nat
    by (destruct Hend; lia).
  rewrite Nat2Z.id.
  destruct (Image_open W (firstn (e + 2 - s) (skipn s raw_data))); reflexivity.
Qed.

Lemma scan_accepts (W : World) (raw_data found : bytes) :
  LambdaFunctionPil.find_jpeg_data_in_raw W raw_data = Ok (Some found) ->
  exists s e,
    first_occurrence LambdaFunctionPil.jpeg_start raw_data 0 s
    /\ first_occurrence LambdaFunctionPil.jpeg_end raw_data s e
    /\ found = firstn (e + 2 - s) (skipn s raw_data)
    /\ exists img, Image_open W found = Ok img.
Proof.
  intros Hscan.
  destruct (first_occurrence_or_absent LambdaFunctionPil.jpeg_start raw_data 0)
    as [[s Hfirst]|Habs];
    [|rewrite (scan_without_start W raw_data Habs) in Hscan; discriminate].
  destruct (first_occurrence_or_absent LambdaFunctionPil.jpeg_end raw_data s)
    as [[e Hend]|Habs];
    [|rewrite (scan_without_end W raw_data s Hfirst Habs) in Hscan; discriminate].
  rewrite (scan_with_both W raw_data s e Hfirst Hend) in Hscan.
  destruct (Image_open W (firstn (e + 2 - s) (skipn s raw_data))) as [img|]
    eqn:Hopen; [|discriminate].
  injection Hscan as <-. exists s, e.
  split; [exact Hfirst|]. split; [exact Hend|]. split; [reflexivity|].
  now exists img.
Qed.

Lemma prefix_true_app (p t : bytes) :
  PyBytes.prefix p t = true -> exists rest, t = (p ++ rest)%list.
Proof.
  revert t. induction p as [|a p IH]; intros t H.
  - now exists t.
  - destruct t as [|b t]; [discriminate|]. simpl in H.
    apply andb_prop in H. destruct H as [Hab Hp].
    apply Byte.byte_dec_bl in Hab. subst b.
    destruct (IH t Hp) as [rest ->]. now exists rest.
Qed.

(** The slice between the two markers: it starts with [FF D8 FF], ends
    with [FF D9], has at least four bytes and sits inside the input. *)
Lemma marker_slice_structure (raw_data : bytes) (s e : nat) :
  first_occurrence LambdaFunctionPil.jpeg_start raw_data 0 s ->
  first_occurrence LambdaFunctionPil.jpeg_end raw_data s e ->
  let found := firstn (e + 2 - s) (skipn s raw_data) in
  PyBytes.prefix LambdaFunctionPil.jpeg_start found = true
  /\ (exists middle, found = (middle ++ LambdaFunctionPil.jpeg_end)%list)
  /\ (4 <= List.length found)%nat
  /\ (exists before after, raw_data = (before ++ found ++ after)%list).
Proof.
  intros (_ & Hstart & _) (Hle & Hend & _) found.
  unfold occurs_at in Hstart, Hend.
  set (t := skipn s raw_data) in *.
  destruct (prefix_true_app _ _ Hstart) as [t0 Ht].
  set (k := (e - s)%nat).
  assert (Hskip : skipn e raw_data = skipn k t).
  { unfold t, k. rewrite skipn_skipn. f_equal. lia. }
  rewrite Hskip in Hend.
  assert (Hk : (2 <= k)%nat).
  { destruct k as [|[|k]]; [| |lia].
    - rewrite Ht in Hend. discriminate Hend.
    - rewrite Ht in Hend. discriminate Hend. }
  destruct (prefix_true_app _ _ Hend) as [rest Hrest].
  assert (Hkt : List.length (firstn k t) = k).
  { apply firstn_length_le.
    destruct (Nat.le_gt_cases k (List.length t)) as [H|H]; [exact H|].
    rewrite skipn_all2 in Hrest by lia. discriminate Hrest. }
  assert (Hfound : found = (firstn k t ++ LambdaFunctionPil.jpeg_end)%list).
  { unfold found. fold t. replace (e + 2 - s)%nat with (k + 2)%nat by (unfold k; lia).
    rewrite <- (firstn_skipn k t) at 1. rewrite Hrest.
    rewrite <- Hkt at 1. rewrite firstn_app_2. reflexivity. }
  split; [|split; [|split]].
  - unfold found. fold t. rewrite Ht.
    replace (e + 2 - s)%nat with (3 + (k - 1))%nat by (unfold k in *; lia).
    change 3%nat with (List.length LambdaFunctionPil.jpeg_start).
    rewrite firstn_app_2. reflexivity.
  - now exists (firstn k t).
  - rewrite Hfound, List.length_app, Hkt. simpl. lia.
  - exists (firstn s raw_data), rest.
    rewrite Hfound, <- app_assoc, <- Hrest, firstn_skipn.
    unfold t. now rewrite firstn_skipn.
Qed.

(** X9.  Whatever the scan returns is a marker-delimited part of the
    input that Pillow opened: it starts with [FF D8 FF], ends with [FF D9],
    is at least four bytes long (the two markers may share a byte) and
    occurs as it is inside the RAW data.  In particular it is never empty,
    so the test [if jpeg_data:] of [process_raw_file] accepts every slice
    the scan accepted. *)
Theorem X9_scan_result_is_a_marker_delimited_slice
        (W : World) (raw_data found : bytes) :
  LambdaFunctionPil.find_jpeg_data_in_raw W raw_data = Ok (Some found) ->
  PyBytes.prefix LambdaFunctionPil.jpeg_start found = true
  /\ (exists middle, found = (middle ++ LambdaFunctionPil.jpeg_end)%list)
  /\ (4 <= List.length found)%nat
  /\ (exists before after, raw_data = (before ++ found ++ after)%list)
  /\ (exists img, Image_open W found = Ok img)
  /\ LambdaFunctionPil.truthy (Some found) = true.
Proof.
  intros Hscan.
  destruct (scan_accepts W raw_data found Hscan)
    as (s & e & Hfirst & Hend & -> & Himg).
  destruct (marker_slice_structure raw_data s e Hfirst Hend)
    as (Hp & Hm & Hlen & Hin).
  repeat split; try assumption.
  destruct (firstn (e + 2 - s) (skipn s raw_data)); [simpl in Hlen; lia|].
  reflexivity.
Qed.

Lemma X9_witness :
  PyBytes.prefix LambdaFunctionPil.jpeg_start (Sample.encode (64, 48) 90) = true
  /\ (exists before after,
         raw_with_preview = (before ++ Sample.encode (64, 48) 90 ++ after)%list).
Proof.
  pose proof (X9_scan_result_is_a_marker_delimited_slice calm_world
                raw_with_preview (Sample.encode (64, 48) 90) eq_refl)
    as (Hp & _ & _ & Hin & _).
  split; [exact Hp | exact Hin].
Defined.

(** ** The Pillow-only pipeline: where a thumbnail comes from *)

Lemma scan_never_raises (W : World) (raw_data : bytes) :
  exists found, LambdaFunctionPil.find_jpeg_data_in_raw W raw_data = Ok found.
Proof.
  destruct (first_occurrence_or_absent LambdaFunctionPil.jpeg_start raw_data 0)
    as [[s Hfirst]|Habs];
    [|exists None; now apply scan_without_start].
  destruct (first_occurrence_or_absent LambdaFunctionPil.jpeg_end raw_data s)
    as [[e Hend]|Habs];
    [|exists None; now apply (scan_without_end W raw_data s)].
  rewrite (scan_with_both W raw_data s e Hfirst Hend).
  destruct (Image_open W (firstn (e + 2 - s) (skipn s raw_data)));
    eauto.
Qed.

Lemma scan_result_truthy (W : World) (raw_data found : bytes) :
  LambdaFunctionPil.find_jpeg_data_in_raw W raw_data = Ok (Some found) ->
  LambdaFunctionPil.truthy (Some found) = true.
Proof.
  intros Hscan.
  destruct (scan_accepts W raw_data found Hscan) as (s & e & Hs & He & -> & _).
  destruct (marker_slice_structure raw_data s e Hs He) as (_ & _ & Hlen & _).
  destruct (firstn (e + 2 - s) (skipn s raw_data)); [simpl in Hlen; lia|].
  reflexivity.
Qed.

Lemma tiff_never_raises (W : World) (raw_data : bytes) :
  exists r, LambdaFunctionPil.process_tiff_file W raw_data = Ok r.
Proof.
  unfold LambdaFunctionPil.process_tiff_file.
  match goal with |- exists r, try_except ?b _ = _ => destruct b end;
    simpl; eauto.
Qed.

Lemma scan_has_priority (W : World) (raw_data found : bytes) (extension : string) :
  LambdaFunctionPil.find_jpeg_data_in_raw W raw_data = Ok (Some found) ->
  LambdaFunctionPil.process_raw_file W raw_data extension = Ok found.
Proof.
  intros Hscan. unfold LambdaFunctionPil.process_raw_file.
  rewrite Hscan. cbn [bind].
  now rewrite (scan_result_truthy W raw_data found Hscan).
Qed.

Lemma pil_process_raw_file_cases
      (W : World) (raw_data : bytes) (extension : string) :
  let out := LambdaFunctionPil.process_raw_file W raw_data extension in
  let is_tiff := Py.in_list (Py.lower extension) [".tiff"; ".tif"] in
  (exists found,
      LambdaFunctionPil.find_jpeg_data_in_raw W raw_data = Ok (Some found)
      /\ out = Ok found)
  \/ (exists converted,
         is_tiff = true
         /\ LambdaFunctionPil.process_tiff_file W raw_data = Ok (Some converted)
         /\ out = Ok converted)
  \/ out = LambdaFunctionPil.create_placeholder_thumbnail W 1200 800.
Proof.
  intros out is_tiff.
  - destruct (scan_never_raises W raw_data) as [[found|] Hscan].
    + left. exists found. split; [exact Hscan|]. now apply scan_has_priority.
    + right. unfold out, LambdaFunctionPil.process_raw_file. rewrite Hscan.
      cbn [bind LambdaFunctionPil.truthy]. fold is_tiff.
      destruct is_tiff eqn:Htiff.
      * destruct (tiff_never_raises W raw_data) as [[[|b converted]|] Hconv];
          rewrite Hconv; cbn [bind LambdaFunctionPil.truthy].
        -- right.
           destruct (LambdaFunctionPil.create_placeholder_thumbnail W 1200 800);
             reflexivity.
        -- left. exists (b :: converted). repeat split.
        -- right.
           destruct (LambdaFunctionPil.create_placeholder_thumbnail W 1200 800);
             reflexivity.
      * right. cbn [bind LambdaFunctionPil.truthy].
        destruct (LambdaFunctionPil.create_placeholder_thumbnail W 1200 800);
          reflexivity.
Qed.

(** X10.  [process_raw_file] of the Pillow-only module has exactly three
    sources for what it returns, tried in this order: the slice found by
    the marker scan, returned as it is whatever the extension; for a
    [.tiff]/[.tif] extension only, a non-empty conversion by
    [process_tiff_file]; otherwise whatever [create_placeholder_thumbnail]
    does, so an exception leaves the function only when the placeholder
    itself cannot be produced.  A file whose extension is not TIFF is never
    handed to [process_tiff_file]. *)
Theorem X10_pil_thumbnail_sources
        (W : World) (raw_data : bytes) (extension : string) :
  let out := LambdaFunctionPil.process_raw_file W raw_data extension in
  let is_tiff := Py.in_list (Py.lower extension) [".tiff"; ".tif"] in
  (forall found,
      LambdaFunctionPil.find_jpeg_data_in_raw W raw_data = Ok (Some found) ->
      out = Ok found)
  /\ (forall converted,
         LambdaFunctionPil.find_jpeg_data_in_raw W raw_data = Ok None ->
         is_tiff = true ->
         LambdaFunctionPil.process_tiff_file W raw_data = Ok (Some converted) ->
         converted <> [] ->
         out = Ok converted)
  /\ (LambdaFunctionPil.find_jpeg_data_in_raw W raw_data = Ok None ->
      is_tiff = false ->
      out = LambdaFunctionPil.create_placeholder_thumbnail W 1200 800)
  /\ ((exists found,
          LambdaFunctionPil.find_jpeg_data_in_raw W raw_data = Ok (Some found)
          /\ out = Ok found)
      \/ (exists converted,
             is_tiff = true
             /\ LambdaFunctionPil.process_tiff_file W raw_data = Ok (Some converted)
             /\ out = Ok converted)
      \/ out = LambdaFunctionPil.create_placeholder_thumbnail W 1200 800).
Proof.
  intros out is_tiff. split; [|split; [|split]].
  - intros found Hscan. now apply scan_has_priority.
  - intros converted Hscan Htiff Hconv Hne. unfold out.
    unfold LambdaFunctionPil.process_raw_file. rewrite Hscan.
    cbn [bind LambdaFunctionPil.truthy]. fold is_tiff. rewrite Htiff, Hconv.
    cbn [bind]. destruct converted; [contradiction|]. reflexivity.
  - intros Hscan Htiff. unfold out.
    unfold LambdaFunctionPil.process_raw_file. rewrite Hscan.
    cbn [bind LambdaFunctionPil.truthy]. fold is_tiff. rewrite Htiff.
    cbn [bind LambdaFunctionPil.truthy].
    destruct (LambdaFunctionPil.create_placeholder_thumbnail W 1200 800);
      reflexivity.
  - apply pil_process_raw_file_cases.
Qed.

Lemma X10_witness :
  LambdaFunctionPil.process_raw_file calm_world raw_with_preview ".tif"
  = Ok (Sample.encode (64, 48) 90)
  /\ LambdaFunctionPil.process_raw_file calm_world [x00] ".cr2"
     = LambdaFunctionPil.create_placeholder_thumbnail calm_world 1200 800.
Proof.
  split.
  - exact (proj1 (X10_pil_thumbnail_sources calm_world raw_with_preview ".tif")
             (Sample.encode (64, 48) 90) eq_refl).
  - exact (proj1 (proj2 (proj2
             (X10_pil_thumbnail_sources calm_world [x00] ".cr2")))
             eq_refl eq_refl).
Defined.

(** ** The Pillow-only handler: what it answers *)

Lemma pil_handler_first_record_only
      (W : World) (record : s3_record) (rest : list s3_record) :
  LambdaFunctionPil.lambda_handler W (record :: rest)
  = LambdaFunctionPil.lambda_handler W [record].
Proof. reflexivity. Qed.



(** ** The Pillow-only size optimisation *)

(** X12.  [optimize_thumbnail] of the Pillow-only module returns either
    its input or the result of one successful [save] at quality 85 with
    [optimize=True].  The second happens only for an input of at least
    100 KiB that Pillow opened; the image saved is the EXIF-transposed
    original when it fits the bounds, and otherwise the EXIF-transposed
    result of [thumbnail] (shrinking comes before the rotation).  Any
    failure on the way gives the input back unchanged. *)
Theorem X12_pil_optimize_is_input_or_one_save
        (W : World) (thumb_data : bytes) (max_width max_height : Z) :
  let out := LambdaFunctionPil.optimize_thumbnail W thumb_data
               max_width max_height in
  out = thumb_data
  \/ (102400 <= PyBytes.len thumb_data
      /\ exists img saved,
           Image_open W thumb_data = Ok img
           /\ Image_save W saved 85 true = Saved out
           /\ if (fst (Image_size W img) >? max_width)
                 || (snd (Image_size W img) >? max_height)
              then exists shrunk,
                     Image_thumbnail W img (max_width, max_height) = Ok shrunk
                     /\ exif_transpose W shrunk = Ok saved
              else exif_transpose W img = Ok saved).
Proof.
  intros out. unfold out, LambdaFunctionPil.optimize_thumbnail.
  destruct (Z.ltb_spec (PyBytes.len thumb_data) (100 * 1024)) as [Hlt|Hge];
    [now left|].
  destruct (Image_open W thumb_data) as [img|] eqn:Hopen; [|now left].
  cbn [bind]. destruct (Image_size W img) as [width height] eqn:Hsize.
  cbn [fst snd].
  destruct ((width >? max_width) || (height >? max_height)) eqn:Hbig.
  - destruct (Image_thumbnail W img (max_width, max_height)) as [shrunk|]
      eqn:Hth; [|now left].
    cbn [bind].
    destruct (exif_transpose W shrunk) as [saved|] eqn:Hex; [|now left].
    cbn [bind].
    destruct (Image_save W saved 85 true) as [content|e partial] eqn:Hsave;
      [|now left].
    right. split; [lia|]. exists img, saved.
    split; [reflexivity|]. split; [exact Hsave|].
    rewrite Hsize. cbn [fst snd]. rewrite Hbig. now exists shrunk.
  - destruct (exif_transpose W img) as [saved|] eqn:Hex; [|now left].
    cbn [bind].
    destruct (Image_save W saved 85 true) as [content|e partial] eqn:Hsave;
      [|now left].
    right. split; [lia|]. exists img, saved.
    split; [reflexivity|]. split; [exact Hsave|].
    rewrite Hsize. cbn [fst snd]. rewrite Hbig. exact Hex.
Qed.

(** X13.  An embedded preview shorter than 100 KiB is stored byte for
    byte: when the marker scan accepts a slice of the downloaded RAW file
    and the slice is shorter than 102400 bytes, the Pillow-only handler
    puts exactly that slice under the thumbnail key, without decoding it
    again and whatever its pixel size, and answers 200. *)
Theorem X13_pil_small_preview_is_stored_verbatim
        (W : World) (record : s3_record) (rest : list s3_record)
        (thumbnail_key : string) (raw_data preview : bytes) :
  let bucket := bucket_name record in
  let key := decode_key (object_key record) in
  let filename := Py.basename key in
  is_raw_file filename = true ->
  LambdaFunctionPil.generate_thumbnail_path key filename = Some thumbnail_key ->
  s3_get_object W bucket key = Ok raw_data ->
  LambdaFunctionPil.find_jpeg_data_in_raw W raw_data = Ok (Some preview) ->
  PyBytes.len preview < 102400 ->
  s3_put_object W bucket thumbnail_key preview = Ok tt ->
  LambdaFunctionPil.lambda_handler W (record :: rest)
  = ([Download bucket key; PutObject bucket thumbnail_key preview key],
     {| statusCode := 200; body := BodySuccess filename thumbnail_key |}).
Proof.
  intros bucket key filename Hraw Hpath Hget Hscan Hlen Hput.
  unfold LambdaFunctionPil.lambda_handler. fold bucket key filename.
  rewrite Hraw. cbn [negb]. rewrite Hpath, Hget.
  rewrite (scan_has_priority W raw_data preview _ Hscan).
  rewrite (optimize_thumbnail_small W preview 1200 1200 Hlen).
  now rewrite Hput.
Qed.

Lemma X13_witness :
  LambdaFunctionPil.lambda_handler
    (Sample.world (fun _ _ => Ok raw_with_preview) (fun _ _ => Ok tt) true)
    [Sample.record_for "user/u1/raw/2023/4/5/IMG_01.CR2"]
  = ([Download "photos" "user/u1/raw/2023/4/5/IMG_01.CR2";
      PutObject "photos" "user/u1/rawThumbnail/2023/04/05/IMG_01_thumb.jpg"
                (Sample.encode (64, 48) 90)
                "user/u1/raw/2023/4/5/IMG_01.CR2"],
     {| statusCode := 200;
        body := BodySuccess "IMG_01.CR2"
                  "user/u1/rawThumbnail/2023/04/05/IMG_01_thumb.jpg" |}).
Proof.
  apply (X13_pil_small_preview_is_stored_verbatim
           (Sample.world (fun _ _ => Ok raw_with_preview) (fun _ _ => Ok tt) true)
           (Sample.record_for "user/u1/raw/2023/4/5/IMG_01.CR2") []
           "user/u1/rawThumbnail/2023/04/05/IMG_01_thumb.jpg"
           raw_with_preview (Sample.encode (64, 48) 90));
    reflexivity.
Defined.

(** ** The rawpy pipeline: which failures are recoverable *)

(** X14.  [process_raw_file] of the multi-record module.  An embedded
    thumbnail whose format is ['jpeg'] is written out as it is, without
    developing the RAW data.  A thumbnail of another format, or a
    [LibRawError] or [OSError] from [extract_thumb], leads to the
    developed image saved at quality 85, and the function succeeds exactly
    when that succeeds.  An exception of any other class from
    [extract_thumb] makes the function return [False] even when developing
    the RAW data would have worked; so does a file rawpy cannot read. *)
Theorem X14_raw_thumbnail_recovery (W : World) (raw_file : bytes) :
  (forall e, rawpy_imread W raw_file = Raise e ->
             LambdaFunction.process_raw_file W raw_file = None)
  /\ (forall raw, rawpy_imread W raw_file = Ok raw ->
        let developed :=
          match LambdaFunction.postprocess_and_save W raw with
          | Ok content => Some content
          | Raise _ => None
          end in
        (forall data, raw_extract_thumb W raw = Ok ("jpeg", data) ->
                      LambdaFunction.process_raw_file W raw_file = Some data)
        /\ (forall format data,
               raw_extract_thumb W raw = Ok (format, data) -> format <> "jpeg" ->
               LambdaFunction.process_raw_file W raw_file = developed)
        /\ (raw_extract_thumb W raw = Raise LibRawError
            \/ raw_extract_thumb W raw = Raise OSError ->
            LambdaFunction.process_raw_file W raw_file = developed)
        /\ (forall e, raw_extract_thumb W raw = Raise e ->
                      e <> LibRawError -> e <> OSError ->
                      LambdaFunction.process_raw_file W raw_file = None)).
Proof.
  split.
  - intros e He. unfold LambdaFunction.process_raw_file. now rewrite He.
  - intros raw Hread developed.
    unfold LambdaFunction.process_raw_file. rewrite Hread. cbn [bind].
    split; [|split; [|split]].
    + intros data Hth. now rewrite Hth.
    + intros format data Hth Hfmt. rewrite Hth.
      destruct (String.eqb_spec format "jpeg"); [contradiction | reflexivity].
    + intros [Hth|Hth]; now rewrite Hth.
    + intros e Hth Hl Ho. rewrite Hth.
      destruct e; try reflexivity; contradiction.
Qed.

Lemma X14_witness :
  LambdaFunction.process_raw_file calm_world [] = None
  /\ LambdaFunction.process_raw_file calm_world [x00]
     = Some (Sample.encode (64, 48) 85).
Proof.
  split.
  - exact (proj1 (X14_raw_thumbnail_recovery calm_world [])
             LibRawError eq_refl).
  - exact (proj1 (proj2 (proj2
             (proj2 (X14_raw_thumbnail_recovery calm_world [x00])
                    [x00] eq_refl)))
             (or_introl eq_refl)).
Defined.

(** What [optimize_thumbnail] leaves at [thumb_path]: the file it found,
    the result of one save at quality 85, or what a failed save left. *)
Lemma optimize_thumbnail_outcome
      (W : World) (thumb : bytes) (max_width max_height : Z) :
  let '(optimized, output) :=
    LambdaFunction.optimize_thumbnail W thumb max_width max_height in
  output = thumb
  \/ (optimized = true
      /\ exists img, Image_save W img 85 true = Saved output)
  \/ (optimized = false
      /\ exists img e, Image_save W img 85 true = SaveFailed e output).
Proof.
  unfold LambdaFunction.optimize_thumbnail.
  destruct (Image_open W thumb) as [img|]; [|now left].
  destruct (Image_size W img) as [width height].
  destruct ((width >? max_width) || (height >? max_height)); [|now left].
  destruct (bind (LambdaFunction.optimize_new_size width height
                    max_width max_height)
                 (fun size => Image_resize W img size)) as [resized|];
    [|now left].
  destruct (Image_save W resized 85 true) as [content|e partial] eqn:Hsave.
  - right. left. eauto.
  - right. right. eauto.
Qed.

Lemma optimize_thumbnail_unreadable
      (W : World) (thumb : bytes) (max_width max_height : Z) (e : exn) :
  Image_open W thumb = Raise e ->
  LambdaFunction.optimize_thumbnail W thumb max_width max_height
  = (false, thumb).
Proof.
  intros H. unfold LambdaFunction.optimize_thumbnail. now rewrite H.
Qed.

(** X15.  In the multi-record handler a failed optimisation never blocks
    the upload.  Once a thumbnail has been generated for a record, the
    handler uploads what is at the output path and then removes the
    temporary files: the generated thumbnail itself, or the result of one
    save at quality 85, or, when that save raised, whatever it left
    behind.  In particular a generated file that Pillow cannot open is
    uploaded unchanged, with a warning in the log only. *)
Theorem X15_optimize_failure_does_not_block_upload
        (W : World) (record : s3_record) (thumbnail_key : string)
        (input thumb : bytes) :
  let bucket := bucket_name record in
  let key := decode_key (object_key record) in
  let filename := Py.basename key in
  eligible record ->
  LambdaFunction.generate_thumbnail_path key filename = Some thumbnail_key ->
  s3_download_file W bucket key = Ok input ->
  (if is_raw_file filename
   then LambdaFunction.process_raw_file W input
   else LambdaFunction.process_jpg_file W input) = Some thumb ->
  exists warn output,
    LambdaFunction.handle_record W record
    = (([Download bucket key] ++ warn
          ++ [Upload output bucket thumbnail_key; Cleanup filename])%list,
       s3_upload_file W output bucket thumbnail_key)
    /\ (warn = [] \/ warn = [LogOptimizeFailure])
    /\ (output = thumb
        \/ (exists img, Image_save W img 85 true = Saved output)
        \/ (exists img e, Image_save W img 85 true = SaveFailed e output))
    /\ (forall e, Image_open W thumb = Raise e ->
                  warn = [LogOptimizeFailure] /\ output = thumb).
Proof.
  intros bucket key filename Hel Hpath Hdl Hgen.
  rewrite (handle_record_eligible W record Hel). cbv zeta.
  fold bucket key filename. rewrite Hpath, Hdl, Hgen.
  pose proof (optimize_thumbnail_outcome W thumb 1200 1200) as Hout.
  pose proof (optimize_thumbnail_unreadable W thumb 1200 1200) as Hbad.
  destruct (LambdaFunction.optimize_thumbnail W thumb 1200 1200)
    as [optimized output].
  exists (if optimized then [] else [LogOptimizeFailure]), output.
  split; [reflexivity|]. split; [destruct optimized; auto|]. split.
  - destruct Hout as [H|[[_ H]|[_ H]]]; auto.
  - intros e He. specialize (Hbad e He). injection Hbad as -> ->. auto.
Qed.

Lemma X15_witness :
  exists warn output,
    LambdaFunction.handle_record
      (Sample.world (fun _ _ => Ok [x00]) (fun _ _ => Ok tt) true)
      (Sample.record_for "user/u1/raw/2023/4/5/IMG_01.CR2")
    = (([Download "photos" "user/u1/raw/2023/4/5/IMG_01.CR2"] ++ warn
          ++ [Upload output "photos"
                     "user/u1/rawThumbnail/2023/04/05/IMG_01_thumb.jpg";
              Cleanup "IMG_01.CR2"])%list,
       Ok tt)
    /\ (warn = [] \/ warn = [LogOptimizeFailure]).
Proof.
  destruct (X15_optimize_failure_does_not_block_upload
              (Sample.world (fun _ _ => Ok [x00]) (fun _ _ => Ok tt) true)
              (Sample.record_for "user/u1/raw/2023/4/5/IMG_01.CR2")
              "user/u1/rawThumbnail/2023/04/05/IMG_01_thumb.jpg"
              [x00] (Sample.encode (64, 48) 85))
    as (warn & output & Hrun & Hwarn & _).
  - repeat split.
  - reflexivity.
  - reflexivity.
  - reflexivity.
  - exists warn, output. split; [exact Hrun | exact Hwarn].
Defined.

(** ** Extreme aspect ratios *)







(** ** The quality of the second encoding *)

(** X17.  The quality [process_jpg_file] picks for its second encoding,
    as a function of the size of the first one (above 100 KiB): always
    between 50 and 80; still 80 up to 20 KiB over the limit, so that the
    second encoding then repeats the first; 50 from 700 KiB on; and never
    higher for a larger file. *)
Theorem X17_recompress_quality_range (size size' : Z) :
  102400 < size -> size <= size' -> size' < 2 ^ 50 ->
  exists quality quality',
    LambdaFunction.recompress_quality size = Ok quality
    /\ LambdaFunction.recompress_quality size' = Ok quality'
    /\ 50 <= quality' <= quality /\ quality <= 80
    /\ (size < 122880 -> quality = 80)
    /\ (716800 <= size -> quality = 50).
Proof.
  intros Hlo Hle Hhi.
  exists (Z.max 50 (80 - (size - 102400) / 20480)),
         (Z.max 50 (80 - (size' - 102400) / 20480)).
  split; [apply recompress_quality_spec; lia|].
  split; [apply recompress_quality_spec; lia|].
  pose proof (Z.div_le_mono (size - 102400) (size' - 102400) 20480
                ltac:(lia) ltac:(lia)) as Hmono.
  pose proof (Z.div_pos (size - 102400) 20480 ltac:(lia) ltac:(lia)) as Hpos.
  split; [lia|]. split; [lia|]. split.
  - intros Hsmall.
    rewrite (Z.div_small (size - 102400) 20480) by lia. lia.
  - intros Hbig.
    pose proof (Z.div_le_mono 614400 (size - 102400) 20480
                  ltac:(lia) ltac:(lia)) as H30.
    change (614400 / 20480) with 30 in H30. lia.
Qed.

Lemma X17_witness :
  exists quality quality',
    LambdaFunction.recompress_quality 122879 = Ok quality
    /\ LambdaFunction.recompress_quality 1000000 = Ok quality'
    /\ quality = 80 /\ 50 <= quality' <= quality.
Proof.
  destruct (X17_recompress_quality_range 122879 1000000
              ltac:(lia) ltac:(lia) ltac:(lia))
    as (q & q' & H & H' & Hrange & _ & Hsmall & _).
  exists q, q'. split; [exact H|]. split; [exact H'|].
  split; [apply Hsmall; lia | exact Hrange].
Defined.

(** ** The temporary files of a record *)

Lemma last_slash_split (p : string) :
  no_slash p = true
  \/ exists dir name, p = dir ++ String "/" name /\ no_slash name = true.
Proof.
  induction p as [|d p IH]; [now left|].
  destruct IH as [IH|(dir & name & -> & Hname)].
  - destruct (Ascii.eqb d "/") eqn:Hd.
    + right. exists "", p. apply Ascii.eqb_eq in Hd. subst d. auto.
    + left. unfold no_slash in *. simpl. now rewrite Hd.
  - right. exists (String d dir), name. auto.
Qed.

Lemma basename_no_slash (p : string) : no_slash (Py.basename p) = true.
Proof.
  destruct (last_slash_split p) as [Hp|(dir & name & -> & Hname)].
  - unfold Py.basename, Py.rfind.
    unfold no_slash in Hp. rewrite (rfind_from_absent _ _ _ _ Hp). exact Hp.
  - now rewrite basename_app.
Qed.

Lemma join_tmp (name : string) :
  no_slash name = true ->
  Py.path_join LambdaFunction.temp_dir name = "/tmp/" ++ name.
Proof.
  intros Hname. unfold Py.path_join, Py.startswith.
  destruct name as [|c name]; [reflexivity|].
  unfold no_slash in Hname. simpl in Hname.
  apply andb_prop in Hname. destruct Hname as [Hc _].
  cbn [String.prefix].
  destruct (Ascii.ascii_dec "/" c) as [<-|_]; [discriminate Hc | reflexivity].
Qed.

Lemma thumbnail_name_differs (filename : string) :
  no_slash filename = true ->
  filename <> fst (Py.splitext filename) ++ "_thumb.jpg".
Proof.
  intros Hname Heq.
  pose proof (splitext_stem_no_slash filename Hname) as Hstem.
  apply (f_equal (fun s => String.length (fst (Py.splitext s)))) in Heq.
  rewrite (thumbnail_name_extension _ Hstem) in Heq. cbn [fst] in Heq.
  rewrite string_length_app in Heq. simpl in Heq. lia.
Qed.

(** X18.  The two temporary files of a record never coincide.  For every
    key, the input is kept at [/tmp/<filename>] and the thumbnail at
    [/tmp/<stem>_thumb.jpg], both directly in [/tmp], and the two paths
    differ: writing the thumbnail cannot overwrite the downloaded file,
    also when the uploaded file is itself called [..._thumb.jpg]. *)
Theorem X18_temp_paths_never_coincide (key : string) :
  let filename := Py.basename key in
  LambdaFunction.temp_input_path filename = "/tmp/" ++ filename
  /\ LambdaFunction.temp_output_path filename
     = "/tmp/" ++ fst (Py.splitext filename) ++ "_thumb.jpg"
  /\ Py.basename (LambdaFunction.temp_input_path filename) = filename
  /\ LambdaFunction.temp_input_path filename
     <> LambdaFunction.temp_output_path filename.
Proof.
  intros filename.
  pose proof (basename_no_slash key) as Hname. fold filename in Hname.
  assert (Hout : no_slash (fst (Py.splitext filename) ++ "_thumb.jpg") = true).
  { unfold no_slash. rewrite all_chars_app.
    apply andb_true_intro. split; [|reflexivity].
    exact (splitext_stem_no_slash filename Hname). }
  assert (Hin : LambdaFunction.temp_input_path filename = "/tmp/" ++ filename)
    by (apply join_tmp; exact Hname).
  assert (Hth : LambdaFunction.temp_output_path filename
                = "/tmp/" ++ fst (Py.splitext filename) ++ "_thumb.jpg")
    by (apply join_tmp; exact Hout).
  split; [exact Hin|]. split; [exact Hth|]. split.
  - rewrite Hin. change ("/tmp/" ++ filename) with ("/tmp" ++ String "/" filename).
    now apply basename_app.
  - rewrite Hin, Hth. intros Heq. simpl in Heq.
    injection Heq as Heq. now apply (thumbnail_name_differs filename).
Qed.

(** ** Decoding of the incoming key *)

Lemma prefix_needs_first_char (c : ascii) (old s : string) :
  Py.all_chars (fun d => negb (Ascii.eqb d c)) s = true ->
  String.prefix (String c old) s = false.
Proof.
  destruct s as [|d s]; [reflexivity|]. simpl. intros H.
  apply andb_prop in H. destruct H as [Hd _].
  destruct (Ascii.ascii_dec c d) as [<-|_]; [|reflexivity].
  rewrite Ascii.eqb_refl in Hd. discriminate Hd.
Qed.

Lemma replace_fuel_absent (fuel : nat) (c : ascii) (old new s : string) :
  Py.all_chars (fun d => negb (Ascii.eqb d c)) s = true ->
  Py.replace_fuel fuel (String c old) new s = s.
Proof.
  revert s. induction fuel as [|fuel IH]; intros s Hs; [reflexivity|].
  destruct s as [|d s]; [reflexivity|].
  cbn [Py.replace_fuel]. rewrite (prefix_needs_first_char c old _ Hs).
  simpl in Hs. apply andb_prop in Hs. destruct Hs as [_ Hs].
  now rewrite (IH s Hs).
Qed.

Lemma prefix_split (old s : string) :
  String.prefix old s = true -> s = old ++ Py.drop (String.length old) s.
Proof.
  intros H. apply String.prefix_correct in H.
  pose proof (substring_drop s (String.length old)) as Hs.
  rewrite H in Hs. now symmetry.
Qed.

Lemma split_length_app (sep : ascii) (a b : string) :
  Py.all_chars (fun d => negb (Ascii.eqb d sep)) a = true ->
  List.length (Py.split sep (a ++ b)) = List.length (Py.split sep b).
Proof.
  induction a as [|c a IH]; intros Ha; [reflexivity|].
  simpl in Ha. apply andb_prop in Ha. destruct Ha as [Hc Ha].
  simpl. apply negb_true_iff in Hc. rewrite Hc.
  specialize (IH Ha). pose proof (split_nonempty sep (a ++ b)) as Hne.
  destruct (Py.split sep (a ++ b)); [contradiction | exact IH].
Qed.

Lemma split_length_cons (sep c : ascii) (s : string) :
  List.length (Py.split sep (String c s))
  = ((if Ascii.eqb c sep then 1 else 0) + List.length (Py.split sep s))%nat.
Proof.
  simpl. destruct (Ascii.eqb c sep); [reflexivity|].
  pose proof (split_nonempty sep s) as Hne.
  destruct (Py.split sep s); [contradiction | reflexivity].
Qed.

Lemma replace_fuel_keeps_segments (sep : ascii) (old new : string) :
  Py.all_chars (fun d => negb (Ascii.eqb d sep)) old = true ->
  Py.all_chars (fun d => negb (Ascii.eqb d sep)) new = true ->
  forall fuel s,
    List.length (Py.split sep (Py.replace_fuel fuel old new s))
    = List.length (Py.split sep s).
Proof.
  intros Hold Hnew fuel. induction fuel as [fuel IH] using lt_wf_ind.
  intros s. destruct fuel as [|fuel]; [reflexivity|].
  destruct s as [|c s]; [reflexivity|].
  cbn [Py.replace_fuel].
  destruct (String.prefix old (String c s)) eqn:Hp.
  - rewrite (split_length_app sep new _ Hnew), IH by lia.
    rewrite (prefix_split old (String c s) Hp) at 2.
    now rewrite (split_length_app sep old _ Hold).
  - rewrite !split_length_cons. now rewrite IH by lia.
Qed.

(** X19.  What decoding does to a key.  A key without [%] is left as it
    is.  For every key, decoded or not, the number of [/]-separated
    segments is unchanged: the three sequences the handler decodes
    ([%3A], [%2B], [%20]) never add or remove a separator. *)
Theorem X19_decoding_keeps_the_segments (key : string) :
  (Py.all_chars (fun c => negb (Ascii.eqb c "%")) key = true ->
   decode_key key = key)
  /\ List.length (Py.split "/" (decode_key key))
     = List.length (Py.split "/" key).
Proof.
  split.
  - intros Hkey. unfold decode_key, Py.replace.
    now rewrite !(replace_fuel_absent _ "%" _ _ key Hkey).
  - unfold decode_key, Py.replace.
    now rewrite !replace_fuel_keeps_segments by reflexivity.
Qed.

Lemma X19_witness :
  decode_key "user/u1/raw/2023/4/5/IMG_01.CR2"
  = "user/u1/raw/2023/4/5/IMG_01.CR2".
Proof.
  exact (proj1 (X19_decoding_keeps_the_segments
                  "user/u1/raw/2023/4/5/IMG_01.CR2") eq_refl).
Defined.

(** ** JPG sources: the two size limits together *)

Lemma bytes_size_round_trip (size : nat * nat) :
  bytes_size (size_bytes size) = size.
Proof.
  destruct size as [w h]. unfold size_bytes. cbn [fst snd].
  induction w as [|w IH].
  - simpl. now rewrite repeat_length.
  - simpl. now rewrite IH.
Qed.

Lemma resized_to_within_bound (bound w h new_w new_h : Z) :
  0 <= bound -> 0 < w -> 0 < h -> resized_to bound w h new_w new_h ->
  new_w <= bound /\ new_h <= bound.
Proof.
  intros Hbound Hw Hh [Hres _].
  destruct (Z.gtb_spec w h) as [Hgt|Hle]; destruct Hres as [-> [[Hb _] _]];
    split; try lia.
  - destruct (Z.le_gt_cases new_h bound) as [H|H]; [exact H|].
    assert (bound * h <= bound * w) by nia.
    assert ((bound + 1) * w <= new_h * w) by nia. nia.
  - destruct (Z.le_gt_cases new_w bound) as [H|H]; [exact H|].
    assert (bound * w <= bound * h) by nia.
    assert ((bound + 1) * h <= new_w * h) by nia. nia.
Qed.

Lemma save_with_size_cap_saved (W : World) (img : image W) (content : bytes) :
  snd (LambdaFunction.save_with_size_cap W img) = Ok content ->
  exists quality, Image_save W img quality true = Saved content.
Proof.
  unfold LambdaFunction.save_with_size_cap.
  destruct (Image_save W img 80 true) as [first|e partial] eqn:Hfirst;
    cbn [save_result]; [|discriminate].
  destruct (PyBytes.len first >? 100 * 1024).
  - destruct (LambdaFunction.recompress_quality (PyBytes.len first))
      as [quality|]; cbn [snd]; [|discriminate].
    destruct (Image_save W img quality true) as [second|e partial] eqn:Hsecond;
      cbn [save_result]; [|discriminate].
    intros H. injection H as <-. now exists quality.
  - cbn [snd]. intros H. injection H as <-. now exists 80.
Qed.

Lemma jpg_thumbnail_within_800
      (W : World) (jpg_file thumb : bytes) (img : image W) (w h : Z) :
  (forall i size i', Image_resize W i size = Ok i' -> Image_size W i' = size) ->
  Image_open W jpg_file = Ok img ->
  Image_size W img = (w, h) ->
  0 < w < 2 ^ 31 -> 0 < h < 2 ^ 31 ->
  LambdaFunction.process_jpg_file W jpg_file = Some thumb ->
  exists saved quality,
    Image_save W saved quality true = Saved thumb
    /\ fst (Image_size W saved) <= 800 /\ snd (Image_size W saved) <= 800.
Proof.
  intros Hresize Hopen Hsize Hw Hh Hgen.
  unfold LambdaFunction.process_jpg_file, LambdaFunction.process_jpg_file_trace
    in Hgen.
  rewrite Hopen, Hsize in Hgen.
  destruct ((w >? 800) || (h >? 800)) eqn:Hbig.
  - destruct (jpg_new_size_spec w h Hw Hh) as (nw & nh & Hnew & Hres).
    { apply orb_true_iff in Hbig. destruct Hbig as [H|H];
        apply Z.gtb_lt in H; auto. }
    rewrite Hnew in Hgen. cbn [bind] in Hgen.
    destruct (Image_resize W img (nw, nh)) as [resized|] eqn:Hrs;
      [|discriminate].
    destruct (snd (LambdaFunction.save_with_size_cap W resized)) as [content|]
      eqn:Hsave; [|discriminate].
    injection Hgen as <-.
    destruct (save_with_size_cap_saved W resized content Hsave) as [q Hq].
    exists resized, q. split; [exact Hq|].
    rewrite (Hresize _ _ _ Hrs). cbn [fst snd].
    apply (resized_to_within_bound 800 w h); [lia | lia | lia | exact Hres].
  - apply orb_false_elim in Hbig. destruct Hbig as [Hbw Hbh].
    destruct (snd (LambdaFunction.save_with_size_cap W img)) as [content|]
      eqn:Hsave; [|discriminate].
    injection Hgen as <-.
    destruct (save_with_size_cap_saved W img content Hsave) as [q Hq].
    exists img, q. split; [exact Hq|]. rewrite Hsize. cbn [fst snd].
    destruct (Z.gtb_spec w 800); [discriminate|].
    destruct (Z.gtb_spec h 800); [discriminate|]. lia.
Qed.

(** X20.  For JPG sources the optimisation pass changes nothing.  Assume
    a Pillow that keeps pixel sizes: a resize gives the size it was asked
    for, and an encoded image opens again with the size it had.  Then the
    thumbnail [process_jpg_file] writes is at most 800 pixels on each
    side, so [optimize_thumbnail], whose bounds are 1200, returns [True]
    without touching the file, and the multi-record handler uploads the
    file exactly as [process_jpg_file] wrote it. *)
Theorem X20_jpg_thumbnail_is_uploaded_as_generated
        (W : World) (record : s3_record) (thumbnail_key : string)
        (jpg_file thumb : bytes) (img : image W) (w h : Z) :
  let bucket := bucket_name record in
  let key := decode_key (object_key record) in
  let filename := Py.basename key in
  (forall i size i', Image_resize W i size = Ok i' -> Image_size W i' = size) ->
  (forall i quality optimize content,
      Image_save W i quality optimize = Saved content ->
      exists i', Image_open W content = Ok i'
                 /\ Image_size W i' = Image_size W i) ->
  eligible record ->
  is_raw_file filename = false ->
  LambdaFunction.generate_thumbnail_path key filename = Some thumbnail_key ->
  s3_download_file W bucket key = Ok jpg_file ->
  Image_open W jpg_file = Ok img ->
  Image_size W img = (w, h) ->
  0 < w < 2 ^ 31 -> 0 < h < 2 ^ 31 ->
  LambdaFunction.process_jpg_file W jpg_file = Some thumb ->
  LambdaFunction.optimize_thumbnail W thumb 1200 1200 = (true, thumb)
  /\ LambdaFunction.handle_record W record
     = ([Download bucket key; Upload thumb bucket thumbnail_key;
         Cleanup filename],
        s3_upload_file W thumb bucket thumbnail_key).
Proof.
  intros bucket key filename Hresize Hcodec Hel Hraw Hpath Hdl Hopen Hsize
         Hw Hh Hgen.
  destruct (jpg_thumbnail_within_800 W jpg_file thumb img w h
              Hresize Hopen Hsize Hw Hh Hgen)
    as (saved & quality & Hsave & Hsw & Hsh).
  destruct (Hcodec _ _ _ _ Hsave) as (reopened & Hreopen & Hsame).
  assert (Hopt : LambdaFunction.optimize_thumbnail W thumb 1200 1200
                 = (true, thumb)).
  { unfold LambdaFunction.optimize_thumbnail. rewrite Hreopen.
    rewrite Hsame. destruct (Image_size W saved) as [sw sh].
    cbn [fst snd] in Hsw, Hsh.
    destruct (Z.gtb_spec sw 1200); [lia|].
    destruct (Z.gtb_spec sh 1200); [lia|]. reflexivity. }
  split; [exact Hopt|].
  rewrite (handle_record_eligible W record Hel). cbv zeta.
  fold bucket key filename. rewrite Hpath, Hdl, Hraw, Hgen, Hopt.
  reflexivity.
Qed.

Lemma X20_witness :
  LambdaFunction.handle_record exact_world
    (Sample.record_for "user/u1/jpg/2023/4/5/IMG_01.JPG")
  = ([Download "photos" "user/u1/jpg/2023/4/5/IMG_01.JPG";
      Upload (size_bytes (800, 600)%nat) "photos"
             "user/u1/jpgThumbnail/2023/04/05/IMG_01_thumb.jpg";
      Cleanup "IMG_01.JPG"],
     Ok tt).
Proof.
  refine (proj2 (X20_jpg_thumbnail_is_uploaded_as_generated exact_world
                   (Sample.record_for "user/u1/jpg/2023/4/5/IMG_01.JPG")
                   "user/u1/jpgThumbnail/2023/04/05/IMG_01_thumb.jpg"
                   (size_bytes (1600, 1200)%nat) (size_bytes (800, 600)%nat)
                   (1600, 1200)%nat 1600 1200 _ _ _ _ _ _ _ _ _ _ _)).
  - intros i [sw sh] i'. cbn.
    destruct (Z.leb_spec 0 sw) as [Hsw|Hsw]; [|discriminate].
    destruct (Z.leb_spec 0 sh) as [Hsh|Hsh]; [|discriminate].
    cbn. intros Hrs. injection Hrs as <-. cbn. now rewrite !Z2Nat.id.
  - intros i quality optimize content H. injection H as <-.
    exists i. split; [|reflexivity].
    change (Ok (bytes_size (size_bytes i)) = Ok i).
    now rewrite bytes_size_round_trip.
  - repeat split.
  - reflexivity.
  - reflexivity.
  - reflexivity.
  - vm_compute. reflexivity.
  - reflexivity.
  - lia.
  - lia.
  - vm_compute. reflexivity.
Defined.

(** ** The single-record rawpy handler, and the three handlers compared *)

Lemma py39_process_raw_file_same (W : World) (raw_file : bytes) :
  LambdaFunctionPy39.process_raw_file W raw_file
  = LambdaFunction.process_raw_file W raw_file.
Proof. reflexivity. Qed.

Lemma py39_optimize_thumbnail_same
      (W : World) (thumb : bytes) (max_width max_height : Z) :
  LambdaFunctionPy39.optimize_thumbnail W thumb max_width max_height
  = LambdaFunction.optimize_thumbnail W thumb max_width max_height.
Proof. reflexivity. Qed.

Lemma py39_generate_thumbnail_path_same (key filename : string) :
  LambdaFunctionPy39.generate_thumbnail_path key filename
  = LambdaFunctionPil.generate_thumbnail_path key filename.
Proof.
  unfold LambdaFunctionPy39.generate_thumbnail_path,
    LambdaFunctionPil.generate_thumbnail_path,
    LambdaFunctionPy39.extract_path_info, LambdaFunctionPil.extract_path_info.
  destruct (Z.of_nat (List.length (Py.split "/" key)) <? 7); [reflexivity|].
  destruct (negb (Py.isdigit (nth 3 (Py.split "/" key) "")
                  && Py.isdigit (nth 4 (Py.split "/" key) "")
                  && Py.isdigit (nth 5 (Py.split "/" key) "")));
    reflexivity.
Qed.

Lemma string_app_inv_head (a b c : string) : a ++ b = a ++ c -> b = c.
Proof.
  induction a as [|x a IH]; simpl; intros H; [exact H|].
  injection H as H. auto.
Qed.

(** How the destination of the multi-record module relates to the one of
    the two single-record modules, by category. *)
Lemma destination_by_category (key filename : string) :
  let category := nth 2 (Py.split "/" key) "" in
  match LambdaFunctionPil.generate_thumbnail_path key filename with
  | None => LambdaFunction.generate_thumbnail_path key filename = None
  | Some single =>
      if String.eqb category "raw"
      then LambdaFunction.generate_thumbnail_path key filename = Some single
      else if String.eqb category "jpg"
      then exists multi,
             LambdaFunction.generate_thumbnail_path key filename = Some multi
             /\ multi <> single
      else LambdaFunction.generate_thumbnail_path key filename = None
  end.
Proof.
  intros category.
  unfold LambdaFunctionPil.generate_thumbnail_path,
    LambdaFunction.generate_thumbnail_path,
    LambdaFunctionPil.extract_path_info, LambdaFunction.extract_path_info.
  fold category.
  destruct (Z.of_nat (List.length (Py.split "/" key)) <? 7); [reflexivity|].
  destruct (negb (Py.isdigit (nth 3 (Py.split "/" key) "")
                  && Py.isdigit (nth 4 (Py.split "/" key) "")
                  && Py.isdigit (nth 5 (Py.split "/" key) "")));
    [reflexivity|].
  cbn [LambdaFunction.file_type LambdaFunction.user_id LambdaFunction.year
       LambdaFunction.month LambdaFunction.day
       LambdaFunctionPil.user_id LambdaFunctionPil.year
       LambdaFunctionPil.month LambdaFunctionPil.day].
  destruct (String.eqb category "raw").
  - reflexivity.
  - destruct (String.eqb category "jpg"); [|reflexivity].
    eexists. split; [reflexivity|]. intros Heq.
    apply string_app_inv_head in Heq. apply string_app_inv_head in Heq.
    discriminate Heq.
Qed.

(** X21.  The three modules and the destination key.  The two
    single-record modules always agree, and never look at the category
    segment.  They agree with the multi-record module exactly on keys of
    category [raw]: for a key of category [jpg] the multi-record module
    writes below [jpgThumbnail] where they write below [rawThumbnail],
    and a key of any other category, which they accept, is refused by
    the multi-record module. *)
Theorem X21_destination_across_modules (key filename single : string) :
  let category := nth 2 (Py.split "/" key) "" in
  LambdaFunctionPil.generate_thumbnail_path key filename = Some single ->
  LambdaFunctionPy39.generate_thumbnail_path key filename = Some single
  /\ (category = "raw" ->
      LambdaFunction.generate_thumbnail_path key filename = Some single)
  /\ (category = "jpg" ->
      exists multi,
        LambdaFunction.generate_thumbnail_path key filename = Some multi
        /\ multi <> single)
  /\ (category <> "raw" -> category <> "jpg" ->
      LambdaFunction.generate_thumbnail_path key filename = None).
Proof.
  intros category Hsingle.
  pose proof (destination_by_category key filename) as H. cbv zeta in H.
  fold category in H. rewrite Hsingle in H.
  split; [now rewrite py39_generate_thumbnail_path_same|].
  split; [|split].
  - intros Hc. rewrite Hc in H. exact H.
  - intros Hc. rewrite Hc in H. exact H.
  - intros Hr Hj.
    destruct (String.eqb_spec category "raw"); [contradiction|].
    destruct (String.eqb_spec category "jpg"); [contradiction|]. exact H.
Qed.

Lemma X21_witness :
  LambdaFunctionPy39.generate_thumbnail_path
    "user/u1/jpg/2023/4/5/IMG_01.CR2" "IMG_01.CR2"
  = Some "user/u1/rawThumbnail/2023/04/05/IMG_01_thumb.jpg"
  /\ exists multi,
       LambdaFunction.generate_thumbnail_path
         "user/u1/jpg/2023/4/5/IMG_01.CR2" "IMG_01.CR2" = Some multi
       /\ multi <> "user/u1/rawThumbnail/2023/04/05/IMG_01_thumb.jpg".
Proof.
  pose proof (X21_destination_across_modules
                "user/u1/jpg/2023/4/5/IMG_01.CR2" "IMG_01.CR2"
                "user/u1/rawThumbnail/2023/04/05/IMG_01_thumb.jpg" eq_refl)
    as (Hpy39 & _ & Hjpg & _).
  split; [exact Hpy39 | exact (Hjpg eq_refl)].
Defined.

Lemma py39_handler_raw (W : World) (record : s3_record)
      (rest : list s3_record) (thumbnail_key : string) :
  let bucket := bucket_name record in
  let key := decode_key (object_key record) in
  let filename := Py.basename key in
  is_raw_file filename = true ->
  LambdaFunctionPy39.generate_thumbnail_path key filename = Some thumbnail_key ->
  LambdaFunctionPy39.lambda_handler W (record :: rest)
  = let '(acts, outcome) :=
      LambdaFunctionPy39.convert_and_upload W bucket key thumbnail_key in
    match outcome with
    | Ok _ => ((acts ++ [Cleanup filename])%list,
               {| statusCode := 200;
                  body := BodySuccess filename thumbnail_key |})
    | Raise e => (((acts ++ [Cleanup filename]) ++ [LogError e])%list,
                  {| statusCode := 500; body := BodyError e |})
    end.
Proof.
  intros bucket key filename Hraw Hpath.
  unfold LambdaFunctionPy39.lambda_handler. fold bucket key filename.
  rewrite Hraw, Hpath. cbn [negb].
  destruct (LambdaFunctionPy39.convert_and_upload W bucket key thumbnail_key)
    as [acts [[]|e]]; reflexivity.
Qed.

(** The four shapes of the inner [try] block. *)
Lemma py39_convert_and_upload_shape
      (W : World) (bucket key thumbnail_key : string) :
  (exists e, s3_download_file W bucket key = Raise e
             /\ LambdaFunctionPy39.convert_and_upload W bucket key thumbnail_key
                = ([Download bucket key], Raise e))
  \/ (exists input,
         s3_download_file W bucket key = Ok input
         /\ LambdaFunction.process_raw_file W input = None
         /\ LambdaFunctionPy39.convert_and_upload W bucket key thumbnail_key
            = ([Download bucket key], Raise OtherError))
  \/ (exists input thumb output,
         s3_download_file W bucket key = Ok input
         /\ LambdaFunction.process_raw_file W input = Some thumb
         /\ output = snd (LambdaFunction.optimize_thumbnail W thumb 1200 1200)
         /\ LambdaFunctionPy39.convert_and_upload W bucket key thumbnail_key
            = ([Download bucket key; Upload output bucket thumbnail_key],
               s3_upload_file W output bucket thumbnail_key)).
Proof.
  unfold LambdaFunctionPy39.convert_and_upload.
  destruct (s3_download_file W bucket key) as [input|e]; [|left; eauto].
  right.
  change (LambdaFunctionPy39.process_raw_file W input)
    with (LambdaFunction.process_raw_file W input).
  destruct (LambdaFunction.process_raw_file W input) as [thumb|] eqn:Hgen.
  - right. exists input, thumb.
    change (LambdaFunctionPy39.optimize_thumbnail W thumb 1200 1200)
      with (LambdaFunction.optimize_thumbnail W thumb 1200 1200).
    destruct (LambdaFunction.optimize_thumbnail W thumb 1200 1200)
      as [optimized output].
    exists output. auto.
  - left. exists input. auto.
Qed.

(** X22.  The single-record rawpy handler.  It answers 200, 400 or 500;
    a download is always followed by the removal of the temporary files,
    also when the conversion or the upload raises; and 500 is answered
    only for an empty event, a download that raised, a RAW file that
    could not be converted, or an upload that raised. *)
Theorem X22_py39_handler_answers (W : World) (event : list s3_record) :
  let run := LambdaFunctionPy39.lambda_handler W event in
  temp_files_released None (fst run) = true
  /\ (statusCode (snd run) = 200 \/ statusCode (snd run) = 400
      \/ statusCode (snd run) = 500)
  /\ (statusCode (snd run) = 500 ->
      exists e,
        body (snd run) = BodyError e
        /\ (event = [] /\ e = IndexError
            \/ exists record rest,
                 event = record :: rest
                 /\ let bucket := bucket_name record in
                    let key := decode_key (object_key record) in
                    s3_download_file W bucket key = Raise e
                    \/ (exists input,
                           s3_download_file W bucket key = Ok input
                           /\ LambdaFunction.process_raw_file W input = None
                           /\ e = OtherError)
                    \/ (exists output thumbnail_key,
                           s3_upload_file W output bucket thumbnail_key
                           = Raise e))).
Proof.
  intros run. unfold run. destruct event as [|record rest].
  { cbn. split; [reflexivity|]. split; [auto|].
    intros _. exists IndexError. auto. }
  set (bucket := bucket_name record).
  set (key := decode_key (object_key record)).
  set (filename := Py.basename key).
  destruct (is_raw_file filename) eqn:Hraw.
  2:{ unfold LambdaFunctionPy39.lambda_handler. fold bucket key filename.
      rewrite Hraw. cbn. split; [reflexivity|]. split; [auto|discriminate]. }
  destruct (LambdaFunctionPy39.generate_thumbnail_path key filename)
    as [thumbnail_key|] eqn:Hpath.
  2:{ unfold LambdaFunctionPy39.lambda_handler. fold bucket key filename.
      rewrite Hraw, Hpath. cbn.
      split; [reflexivity|]. split; [auto|discriminate]. }
  rewrite (py39_handler_raw W record rest thumbnail_key Hraw Hpath).
  cbv zeta. fold bucket key filename.
  destruct (py39_convert_and_upload_shape W bucket key thumbnail_key)
    as [(e & Hdl & ->)|[(input & Hdl & Hgen & ->)
                       |(input & thumb & output & Hdl & Hgen & Hout & ->)]].
  - cbn [app fst snd statusCode body temp_files_released].
    unfold filename at 1. rewrite String.eqb_refl. cbn [andb]. split; [reflexivity|]. split; [auto|].
    intros _. exists e. split; [reflexivity|]. right.
    exists record, rest. split; [reflexivity|]. cbv zeta. now left.
  - cbn [app fst snd statusCode body temp_files_released].
    unfold filename at 1. rewrite String.eqb_refl. cbn [andb]. split; [reflexivity|]. split; [auto|].
    intros _. exists OtherError. split; [reflexivity|]. right.
    exists record, rest. split; [reflexivity|]. cbv zeta.
    right. left. exists input. auto.
  - destruct (s3_upload_file W output bucket thumbnail_key) as [[]|e] eqn:Hup;
      cbn [app fst snd statusCode body temp_files_released];
      unfold filename at 1; rewrite String.eqb_refl; cbn [andb].
    + split; [reflexivity|]. split; [auto|discriminate].
    + split; [reflexivity|]. split; [auto|].
      intros _. exists e. split; [reflexivity|]. right.
      exists record, rest. split; [reflexivity|]. cbv zeta.
      right. right. eauto.
Qed.

Lemma X22_witness :
  statusCode (snd (LambdaFunctionPy39.lambda_handler corrupt_world
                     two_raw_batch)) = 500
  /\ exists e,
       body (snd (LambdaFunctionPy39.lambda_handler corrupt_world
                    two_raw_batch)) = BodyError e.
Proof.
  assert (H500 : statusCode (snd (LambdaFunctionPy39.lambda_handler
                                    corrupt_world two_raw_batch)) = 500)
    by reflexivity.
  split; [exact H500|].
  destruct (proj2 (proj2 (X22_py39_handler_answers corrupt_world
                            two_raw_batch)) H500) as (e & He & _).
  now exists e.
Defined.

(** X23.  The same unreadable RAW file, two answers.  Take an eligible
    RAW upload of category [raw] with a well-formed key which S3 delivers
    and rawpy cannot convert.  The multi-record handler logs the failure
    and answers 200; the single-record rawpy handler answers 500.  Neither
    uploads anything, and both remove the temporary files. *)
Theorem X23_conversion_failure_200_versus_500
        (W : World) (record : s3_record) (thumbnail_key : string)
        (input : bytes) :
  let bucket := bucket_name record in
  let key := decode_key (object_key record) in
  let filename := Py.basename key in
  eligible record ->
  is_raw_file filename = true ->
  nth 2 (Py.split "/" key) "" = "raw" ->
  LambdaFunction.generate_thumbnail_path key filename = Some thumbnail_key ->
  s3_download_file W bucket key = Ok input ->
  LambdaFunction.process_raw_file W input = None ->
  LambdaFunction.lambda_handler W [record]
  = ([Download bucket key; LogGenerationFailure filename; Cleanup filename],
     {| statusCode := 200; body := BodyDone |})
  /\ LambdaFunctionPy39.lambda_handler W [record]
     = ([Download bucket key; Cleanup filename; LogError OtherError],
        {| statusCode := 500; body := BodyError OtherError |}).
Proof.
  intros bucket key filename Hel Hraw Hcat Hpath Hdl Hgen. split.
  - assert (Hrec : LambdaFunction.handle_record W record
                   = ([Download bucket key; LogGenerationFailure filename;
                       Cleanup filename], Ok tt)).
    { rewrite (handle_record_eligible W record Hel). cbv zeta.
      fold bucket key filename. now rewrite Hpath, Hdl, Hraw, Hgen. }
    rewrite (handler_continue W record [] _ Hrec). reflexivity.
  - assert (Hpy : LambdaFunctionPy39.generate_thumbnail_path key filename
                  = Some thumbnail_key).
    { rewrite py39_generate_thumbnail_path_same.
      pose proof (destination_by_category key filename) as H.
      cbv zeta in H.
      destruct (LambdaFunctionPil.generate_thumbnail_path key filename)
        as [single|]; [|congruence].
      rewrite Hcat in H. cbn in H. congruence. }
    rewrite (py39_handler_raw W record [] thumbnail_key Hraw Hpy).
    cbv zeta. fold bucket key filename.
    unfold LambdaFunctionPy39.convert_and_upload.
    rewrite Hdl.
    change (LambdaFunctionPy39.process_raw_file W input)
      with (LambdaFunction.process_raw_file W input).
    rewrite Hgen. reflexivity.
Qed.

Lemma X23_witness :
  snd (LambdaFunction.lambda_handler corrupt_world
         [Sample.record_for "user/u1/raw/2023/4/5/IMG_01.CR2"])
  = {| statusCode := 200; body := BodyDone |}
  /\ snd (LambdaFunctionPy39.lambda_handler corrupt_world
            [Sample.record_for "user/u1/raw/2023/4/5/IMG_01.CR2"])
     = {| statusCode := 500; body := BodyError OtherError |}.
Proof.
  destruct (X23_conversion_failure_200_versus_500 corrupt_world
              (Sample.record_for "user/u1/raw/2023/4/5/IMG_01.CR2")
              "user/u1/rawThumbnail/2023/04/05/IMG_01_thumb.jpg" [])
    as [Hmulti Hsingle].
  - repeat split.
  - reflexivity.
  - reflexivity.
  - reflexivity.
  - reflexivity.
  - reflexivity.
  - rewrite Hmulti, Hsingle. split; reflexivity.
Defined.

(* ===================================================================== *)
(** ** The restore notification *)
(* ===================================================================== *)

Lemma thumbnail_key_segments (key filename thumbnail_key : string) :
  no_slash filename = true ->
  LambdaFunction.generate_thumbnail_path key filename = Some thumbnail_key ->
  exists directory y m d name,
    Py.split "/" thumbnail_key
    = ["user"; nth 1 (Py.split "/" key) ""; directory; y; m; d; name].
Proof.
  intros Hname Hpath. unfold LambdaFunction.generate_thumbnail_path in Hpath.
  destruct (LambdaFunction.extract_path_info key) as [info|] eqn:Hinfo;
    [|discriminate].
  destruct (path_info_invariants key info Hinfo)
    as (_ & Huser & _ & Huid & _ & Hy & Hm & Hd & _ & _).
  set (name := fst (Py.splitext filename) ++ "_thumb.jpg") in *.
  assert (Hnm : no_slash name = true).
  { unfold name, no_slash. rewrite all_chars_app.
    fold (no_slash (fst (Py.splitext filename))).
    now rewrite splitext_stem_no_slash. }
  assert (Hgen : forall directory,
             no_slash directory = true ->
             Py.split "/"
               (Py.join "/" ["user"; LambdaFunction.user_id info; directory;
                             LambdaFunction.year info;
                             LambdaFunction.month info;
                             LambdaFunction.day info; name])
             = ["user"; nth 1 (Py.split "/" key) ""; directory;
                LambdaFunction.year info; LambdaFunction.month info;
                LambdaFunction.day info; name]).
  { intros directory Hdir. rewrite <- Huser. apply split_join;
      [discriminate | repeat constructor; auto using isdigit_no_slash]. }
  destruct (String.eqb (LambdaFunction.file_type info) "raw").
  - injection Hpath as <-. do 5 eexists. exact (Hgen "rawThumbnail" eq_refl).
  - destruct (String.eqb (LambdaFunction.file_type info) "jpg"); [|discriminate].
    injection Hpath as <-. do 5 eexists. exact (Hgen "jpgThumbnail" eq_refl).
Qed.

(** X24.  Who owns a thumbnail, according to the notification module.
    For every thumbnail key the multi-record handler derives,
    [extract_user_id_from_key] returns the second segment of the source
    key.  For the source key itself it returns that segment only when the
    first segment is [user], a test the thumbnail handler never makes: a
    source key with another first segment gets a thumbnail stored under
    [user/<id>/] and has no user of its own. *)
Theorem X24_thumbnail_key_names_the_user
        (key filename thumbnail_key : string) :
  no_slash filename = true ->
  LambdaFunction.generate_thumbnail_path key filename = Some thumbnail_key ->
  RestoreNotification.extract_user_id_from_key thumbnail_key
  = Some (nth 1 (Py.split "/" key) "")
  /\ (nth 0 (Py.split "/" key) "" = "user" ->
      RestoreNotification.extract_user_id_from_key key
      = Some (nth 1 (Py.split "/" key) ""))
  /\ (nth 0 (Py.split "/" key) "" <> "user" ->
      RestoreNotification.extract_user_id_from_key key = None).
Proof.
  intros Hname Hpath.
  destruct (thumbnail_key_segments key filename thumbnail_key Hname Hpath)
    as (directory & y & m & d & name & Hsplit).
  assert (Hlen : (7 <= List.length (Py.split "/" key))%nat).
  { unfold LambdaFunction.generate_thumbnail_path in Hpath.
    destruct (LambdaFunction.extract_path_info key) as [info|] eqn:Hinfo;
      [|discriminate].
    apply (path_info_invariants key info Hinfo). }
  unfold RestoreNotification.extract_user_id_from_key.
  split; [now rewrite Hsplit|].
  destruct (Z.gtb_spec (Z.of_nat (List.length (Py.split "/" key))) 2); [|lia].
  split.
  - intros ->. reflexivity.
  - intros Hfirst.
    destruct (String.eqb_spec (nth 0 (Py.split "/" key) "") "user");
      [contradiction | reflexivity].
Qed.

Lemma X24_witness :
  RestoreNotification.extract_user_id_from_key
    "user/u1/rawThumbnail/2023/04/05/IMG_01_thumb.jpg" = Some "u1"
  /\ RestoreNotification.extract_user_id_from_key
       "inbox/u1/raw/2023/4/5/IMG_01.CR2" = None.
Proof.
  pose proof (X24_thumbnail_key_names_the_user
                "inbox/u1/raw/2023/4/5/IMG_01.CR2" "IMG_01.CR2"
                "user/u1/rawThumbnail/2023/04/05/IMG_01_thumb.jpg"
                eq_refl eq_refl) as (Hthumb & _ & Hsource).
  split; [exact Hthumb|]. apply Hsource. discriminate.
Defined.

Lemma restored_keys_spec (A : RestoreNotification.Aws)
      (event : list s3_record) (key : string) :
  In key (RestoreNotification.restored_keys A event)
  <-> exists record,
        In record event
        /\ eventSource record = "aws:s3"
        /\ object_key record <> ""
        /\ Py.contains "ObjectRestore:Completed" (eventName record) = true
        /\ key = RestoreNotification.unquote_plus A (object_key record).
Proof.
  induction event as [|record rest IH].
  - split; [intros [] | intros (r & [] & _)].
  - cbn [RestoreNotification.restored_keys].
    assert (Hone : forall k,
               RestoreNotification.restored_key A record = Some k
               <-> eventSource record = "aws:s3"
                   /\ object_key record <> ""
                   /\ Py.contains "ObjectRestore:Completed" (eventName record)
                      = true
                   /\ k = RestoreNotification.unquote_plus A (object_key record)).
    { intros k. unfold RestoreNotification.restored_key.
      destruct (String.eqb_spec (eventSource record) "aws:s3") as [Hs|Hs];
        cbn [negb]; [|split; [discriminate | intros [H _]; contradiction]].
      destruct (String.eqb_spec (object_key record) "") as [Hk|Hk];
        [split; [discriminate | intros (_ & H & _); contradiction]|].
      destruct (Py.contains "ObjectRestore:Completed" (eventName record));
        [|split; [discriminate | intros (_ & _ & H & _); discriminate]].
      split.
      - intros H. injection H as <-. auto.
      - intros (_ & _ & _ & ->). reflexivity. }
    destruct (RestoreNotification.restored_key A record) as [k|] eqn:Hk.
    + split.
      * intros [<-|Hin].
        -- exists record. split; [now left|]. now apply Hone.
        -- apply IH in Hin. destruct Hin as (r & Hr & H).
           exists r. split; [now right | exact H].
      * intros (r & [<-|Hr] & H).
        -- left. apply Hone in H. congruence.
        -- right. apply IH. now exists r.
    + split.
      * intros Hin. apply IH in Hin. destruct Hin as (r & Hr & H).
        exists r. split; [now right | exact H].
      * intros (r & [<-|Hr] & H).
        -- apply Hone in H. discriminate H.
        -- apply IH. now exists r.
Qed.

(** X25.  Which records lead to a notification.  The keys the handler
    works on are exactly the decoded keys of the records that come from
    S3, carry a non-empty key and whose event name contains
    [ObjectRestore:Completed].  When the event has no such record the
    handler answers 200 and calls neither DynamoDB nor S3 nor SES. *)
Theorem X25_only_completed_restores_are_notified
        (A : RestoreNotification.Aws)
        (SENDER_EMAIL S3_BUCKET : string) (PRESIGNED_URL_EXPIRY : Z)
        (DYNAMODB_TABLE : string) (event : list s3_record) :
  (forall key,
      In key (RestoreNotification.restored_keys A event)
      <-> exists record,
            In record event
            /\ eventSource record = "aws:s3"
            /\ object_key record <> ""
            /\ Py.contains "ObjectRestore:Completed" (eventName record) = true
            /\ key = RestoreNotification.unquote_plus A (object_key record))
  /\ ((forall record,
          In record event ->
          Py.contains "ObjectRestore:Completed" (eventName record) = false) ->
      RestoreNotification.lambda_handler A SENDER_EMAIL S3_BUCKET
        PRESIGNED_URL_EXPIRY DYNAMODB_TABLE event
      = ([], {| RestoreNotification.statusCode := 200;
                RestoreNotification.body :=
                  RestoreNotification.NoRestoreEvents |})).
Proof.
  split; [intros key; apply restored_keys_spec|].
  intros Hnone.
  assert (Hkeys : RestoreNotification.restored_keys A event = []).
  { destruct (RestoreNotification.restored_keys A event) as [|key keys] eqn:Hk;
      [reflexivity|].
    assert (Hin : In key (RestoreNotification.restored_keys A event))
      by (rewrite Hk; now left).
    apply restored_keys_spec in Hin.
    destruct Hin as (record & Hr & _ & _ & Hc & _).
    rewrite (Hnone record Hr) in Hc. discriminate Hc. }
  unfold RestoreNotification.lambda_handler, RestoreNotification.notify.
  now rewrite Hkeys.
Qed.

Lemma X25_witness :
  RestoreNotification.lambda_handler calm_aws "noreply@example.com" "photos"
    86400 "user-emails" two_raw_batch
  = ([], {| RestoreNotification.statusCode := 200;
            RestoreNotification.body := RestoreNotification.NoRestoreEvents |}).
Proof.
  apply (proj2 (X25_only_completed_restores_are_notified calm_aws
                  "noreply@example.com" "photos" 86400 "user-emails"
                  two_raw_batch)).
  intros record [<-|[<-|[]]]; reflexivity.
Defined.

Lemma link_items_names (i : nat) (file_keys urls : list string)
      (items : list (string * string)) :
  RestoreNotification.link_items i file_keys urls = Ok items ->
  map fst items = map RestoreNotification.file_name file_keys.
Proof.
  revert i items. induction file_keys as [|key rest IH]; intros i items H.
  - injection H as <-. reflexivity.
  - cbn [RestoreNotification.link_items] in H.
    destruct (nth_error urls i) as [url|]; [|discriminate].
    destruct (RestoreNotification.link_items (S i) rest urls) as [tail|] eqn:E;
      [|discriminate].
    injection H as <-. cbn [map fst]. f_equal. exact (IH _ _ E).
Qed.

Lemma nth_error_skipn (A : Type) (l : list A) (i : nat) (x : A) :
  nth_error l i = Some x -> skipn i l = x :: skipn (S i) l.
Proof.
  revert i. induction l as [|a l IH]; intros [|i] H; try discriminate.
  - injection H as <-. reflexivity.
  - exact (IH i H).
Qed.

Lemma link_items_urls (i : nat) (file_keys urls : list string)
      (items : list (string * string)) :
  RestoreNotification.link_items i file_keys urls = Ok items ->
  map snd items = firstn (List.length file_keys) (skipn i urls).
Proof.
  revert i items. induction file_keys as [|key rest IH]; intros i items H.
  - injection H as <-. reflexivity.
  - cbn [RestoreNotification.link_items] in H.
    destruct (nth_error urls i) as [url|] eqn:Hnth; [|discriminate].
    destruct (RestoreNotification.link_items (S i) rest urls) as [tail|] eqn:E;
      [|discriminate].
    injection H as <-. rewrite (nth_error_skipn _ _ _ _ Hnth).
    cbn [map snd List.length firstn]. f_equal. exact (IH _ _ E).
Qed.

Lemma link_items_enough (i : nat) (file_keys urls : list string) :
  (i + List.length file_keys <= List.length urls)%nat ->
  exists items, RestoreNotification.link_items i file_keys urls = Ok items.
Proof.
  revert i. induction file_keys as [|key rest IH]; intros i Hlen.
  - now exists [].
  - cbn [RestoreNotification.link_items]. cbn [List.length] in Hlen.
    destruct (nth_error urls i) as [url|] eqn:Hnth.
    + destruct (IH (S i) ltac:(lia)) as [tail ->]. cbn [bind]. eauto.
    + apply nth_error_None in Hnth. lia.
Qed.

Lemma link_items_short (i : nat) (file_keys urls : list string) :
  file_keys <> [] ->
  (List.length urls < i + List.length file_keys)%nat ->
  RestoreNotification.link_items i file_keys urls = Raise IndexError.
Proof.
  revert i. induction file_keys as [|key rest IH]; intros i Hne Hlen;
    [contradiction|].
  cbn [RestoreNotification.link_items]. cbn [List.length] in Hlen.
  destruct (nth_error urls i) as [url|] eqn:Hnth; [|reflexivity].
  destruct rest as [|key' rest].
  - assert (Hi : nth_error urls i <> None) by congruence.
    apply nth_error_Some in Hi. cbn [List.length] in Hlen. lia.
  - rewrite (IH (S i) ltac:(discriminate) ltac:(cbn [List.length] in *; lia)).
    reflexivity.
Qed.

Lemma zip_actions_not_send (A : RestoreNotification.Aws) (S3_BUCKET : string)
      (keys : list string) (zip_name : string) (expiry : Z) :
  filter is_send
    (fst (RestoreNotification.create_download_zip_url A S3_BUCKET
            keys zip_name expiry)) = [].
Proof.
  unfold RestoreNotification.create_download_zip_url.
  destruct keys as [|first_key rest]; [reflexivity|].
  destruct (RestoreNotification.time_seconds A) as [timestamp|];
    [|reflexivity].
  match goal with
  | |- context [RestoreNotification.put_object ?a ?b ?k ?z ?t] =>
      destruct (RestoreNotification.put_object a b k z t)
  end; reflexivity.
Qed.

(** The outcomes of [send_notification_email] for a non-empty address and
    a non-empty list of links. *)
Lemma send_notification_cases (A : RestoreNotification.Aws)
      (SENDER_EMAIL email : string) (file_keys urls : list string) :
  email <> "" -> urls <> [] ->
  let run := RestoreNotification.send_notification_email A SENDER_EMAIL
               email file_keys urls in
  (exists e, run = ([], Raise e))
  \/ exists items zip,
       RestoreNotification.link_items 0 file_keys urls = Ok items
       /\ RestoreNotification.zip_paragraph file_keys urls = Ok zip
       /\ let m := {| RestoreNotification.msg_from := SENDER_EMAIL;
                      RestoreNotification.msg_to := email;
                      RestoreNotification.msg_links := items;
                      RestoreNotification.msg_zip := zip |} in
          (exists id, RestoreNotification.send_raw_email A m = Ok id
                      /\ run = ([RestoreNotification.SendEmail m], Ok true))
          \/ (RestoreNotification.send_raw_email A m = Raise ClientError
              /\ run = ([RestoreNotification.SendEmail m], Ok false))
          \/ (exists e, RestoreNotification.send_raw_email A m = Raise e
                        /\ run = ([RestoreNotification.SendEmail m], Raise e)).
Proof.
  intros Hemail Hurls run. unfold run.
  unfold RestoreNotification.send_notification_email.
  destruct (String.eqb_spec email ""); [contradiction|].
  destruct urls as [|url urls]; [contradiction|]. cbn [orb].
  destruct (RestoreNotification.link_items 0 file_keys (url :: urls))
    as [items|e]; [|left; now exists e].
  cbn [bind].
  destruct (RestoreNotification.zip_paragraph file_keys (url :: urls))
    as [zip|e]; [|left; now exists e].
  cbn [bind]. right. exists items, zip.
  split; [reflexivity|]. split; [reflexivity|]. cbv zeta.
  destruct (RestoreNotification.send_raw_email A _) as [id|e] eqn:Hsend.
  - left. now exists id.
  - right. destruct e; try (right; eexists; split; reflexivity).
    left. split; reflexivity.
Qed.

(** The outcomes of the handler's [try] block. *)
Lemma notify_cases (A : RestoreNotification.Aws)
      (SENDER_EMAIL S3_BUCKET : string) (PRESIGNED_URL_EXPIRY : Z)
      (DYNAMODB_TABLE : string) (event : list s3_record) :
  let run := RestoreNotification.notify A SENDER_EMAIL S3_BUCKET
               PRESIGNED_URL_EXPIRY DYNAMODB_TABLE event in
  let keys := RestoreNotification.restored_keys A event in
  run = ([], Ok {| RestoreNotification.statusCode := 200;
                   RestoreNotification.body :=
                     RestoreNotification.NoRestoreEvents |})
  \/ run = ([], Ok {| RestoreNotification.statusCode := 400;
                      RestoreNotification.body :=
                        RestoreNotification.UserIdNotFound |})
  \/ run = ([], Ok {| RestoreNotification.statusCode := 400;
                      RestoreNotification.body :=
                        RestoreNotification.UserEmailNotFound |})
  \/ (exists zip_acts e,
         run = (zip_acts, Raise e) /\ filter is_send zip_acts = [])
  \/ (exists zip_acts,
         run = (zip_acts, Ok {| RestoreNotification.statusCode := 400;
                                RestoreNotification.body :=
                                  RestoreNotification.NothingToSend |})
         /\ filter is_send zip_acts = [])
  \/ (exists first others uid email urls zip_acts,
         keys = first :: others
         /\ RestoreNotification.extract_user_id_from_key first = Some uid
         /\ RestoreNotification.table_get_item A DYNAMODB_TABLE uid
            = Ok (Some email)
         /\ email <> "" /\ urls <> []
         /\ filter is_send zip_acts = []
         /\ let sent := RestoreNotification.send_notification_email
                          A SENDER_EMAIL email keys urls in
            run = ((zip_acts ++ fst sent)%list,
                   match snd sent with
                   | Ok true =>
                       Ok {| RestoreNotification.statusCode := 200;
                             RestoreNotification.body :=
                               RestoreNotification.EmailSent email |}
                   | Ok false =>
                       Ok {| RestoreNotification.statusCode := 500;
                             RestoreNotification.body :=
                               RestoreNotification.SendFailed |}
                   | Raise e => Raise e
                   end)).
Proof.
  intros run keys. unfold run, RestoreNotification.notify. fold keys.
  destruct keys as [|first others] eqn:Hkeys; [now left|].
  right.
  destruct (RestoreNotification.extract_user_id_from_key first)
    as [[|c uid]|] eqn:Huid; cbn [RestoreNotification.truthy negb];
    [now left | | now left].
  right. cbn [RestoreNotification.format_optional].
  unfold RestoreNotification.get_user_email.
  destruct (RestoreNotification.table_get_item A DYNAMODB_TABLE (String c uid))
    as [[[|d email]|]|e] eqn:Hget;
    cbn [RestoreNotification.truthy negb];
    [now left | | now left | ].
  2:{ destruct e; cbn [RestoreNotification.truthy negb];
        try (right; left; eexists [], _; split; reflexivity).
      now left. }
  right. cbn [RestoreNotification.format_optional].
  destruct (RestoreNotification.presigned_urls A S3_BUCKET
              PRESIGNED_URL_EXPIRY (first :: others)) as [urls|e] eqn:Hurls;
    [|left; exists [], e; split; reflexivity].
  assert (Hsend : forall zip_acts urls',
             filter is_send zip_acts = [] ->
             let out :=
               match urls' with
               | [] => (zip_acts,
                        Ok {| RestoreNotification.statusCode := 400;
                              RestoreNotification.body :=
                                RestoreNotification.NothingToSend |})
               | _ :: _ =>
                   let '(acts, sent) :=
                     RestoreNotification.send_notification_email
                       A SENDER_EMAIL (String d email) (first :: others) urls' in
                   ((zip_acts ++ acts)%list,
                    match sent with
                    | Ok true =>
                        Ok {| RestoreNotification.statusCode := 200;
                              RestoreNotification.body :=
                                RestoreNotification.EmailSent (String d email) |}
                    | Ok false =>
                        Ok {| RestoreNotification.statusCode := 500;
                              RestoreNotification.body :=
                                RestoreNotification.SendFailed |}
                    | Raise e => Raise e
                    end)
               end in
             (exists zip_acts0 e, out = (zip_acts0, Raise e)
                                  /\ filter is_send zip_acts0 = [])
             \/ (exists zip_acts0,
                    out = (zip_acts0,
                           Ok {| RestoreNotification.statusCode := 400;
                                 RestoreNotification.body :=
                                   RestoreNotification.NothingToSend |})
                    /\ filter is_send zip_acts0 = [])
             \/ (exists first0 others0 uid0 email0 urls0 zip_acts0,
                    first :: others = first0 :: others0
                    /\ RestoreNotification.extract_user_id_from_key first0
                       = Some uid0
                    /\ RestoreNotification.table_get_item A DYNAMODB_TABLE uid0
                       = Ok (Some email0)
                    /\ email0 <> "" /\ urls0 <> []
                    /\ filter is_send zip_acts0 = []
                    /\ let sent := RestoreNotification.send_notification_email
                                     A SENDER_EMAIL email0 (first :: others)
                                     urls0 in
                       out = ((zip_acts0 ++ fst sent)%list,
                              match snd sent with
                              | Ok true =>
                                  Ok {| RestoreNotification.statusCode := 200;
                                        RestoreNotification.body :=
                                          RestoreNotification.EmailSent email0 |}
                              | Ok false =>
                                  Ok {| RestoreNotification.statusCode := 500;
                                        RestoreNotification.body :=
                                          RestoreNotification.SendFailed |}
                              | Raise e => Raise e
                              end))).
  { intros zip_acts urls' Hz out. unfold out.
    destruct urls' as [|url urls']; [right; left; now exists zip_acts|].
    right. right.
    exists first, others, (String c uid), (String d email), (url :: urls'),
           zip_acts.
    split; [reflexivity|]. split; [exact Huid|]. split; [exact Hget|].
    split; [discriminate|]. split; [discriminate|]. split; [exact Hz|].
    cbv zeta.
    destruct (RestoreNotification.send_notification_email A SENDER_EMAIL
                (String d email) (first :: others) (url :: urls'))
      as [acts sent].
    reflexivity. }
  destruct (Z.of_nat (List.length (first :: others)) >? 1).
  - pose proof (zip_actions_not_send A S3_BUCKET (first :: others) "download"
                  PRESIGNED_URL_EXPIRY) as Hz.
    destruct (RestoreNotification.create_download_zip_url A S3_BUCKET
                (first :: others) "download" PRESIGNED_URL_EXPIRY)
      as [zip_acts [zip_url|e]]; cbn [fst] in Hz.
    + exact (Hsend zip_acts _ Hz).
    + left. exists zip_acts, e. split; [reflexivity | exact Hz].
  - exact (Hsend [] urls eq_refl).
Qed.

Lemma handler_of_notify (A : RestoreNotification.Aws)
      (SENDER_EMAIL S3_BUCKET : string) (PRESIGNED_URL_EXPIRY : Z)
      (DYNAMODB_TABLE : string) (event : list s3_record) :
  let run := RestoreNotification.notify A SENDER_EMAIL S3_BUCKET
               PRESIGNED_URL_EXPIRY DYNAMODB_TABLE event in
  RestoreNotification.lambda_handler A SENDER_EMAIL S3_BUCKET
    PRESIGNED_URL_EXPIRY DYNAMODB_TABLE event
  = (fst run,
     match snd run with
     | Ok response => response
     | Raise e => {| RestoreNotification.statusCode := 500;
                     RestoreNotification.body :=
                       RestoreNotification.NotifyError e |}
     end).
Proof.
  intros run. unfold run, RestoreNotification.lambda_handler.
  destruct (RestoreNotification.notify A SENDER_EMAIL S3_BUCKET
              PRESIGNED_URL_EXPIRY DYNAMODB_TABLE event) as [acts [r|e]];
    reflexivity.
Qed.

Lemma no_send_in (acts : list RestoreNotification.notify_action)
      (m : RestoreNotification.message) :
  filter is_send acts = [] -> ~ In (RestoreNotification.SendEmail m) acts.
Proof.
  intros Hf Hin.
  assert (H : In (RestoreNotification.SendEmail m) (filter is_send acts))
    by (apply filter_In; split; [exact Hin | reflexivity]).
  rewrite Hf in H. destruct H.
Qed.

(** X26.  Who receives the links.  Every mail the handler sends goes to
    the address DynamoDB holds for the user named in the first restored
    key, comes from [SENDER_EMAIL], and lists one entry for each restored
    key of the event, whoever these keys belong to: the user id is taken
    from [restored_keys[0]] alone.  The address reported in a 200 answer
    is that same address. *)
Theorem X26_links_go_to_the_owner_of_the_first_key
        (A : RestoreNotification.Aws)
        (SENDER_EMAIL S3_BUCKET : string) (PRESIGNED_URL_EXPIRY : Z)
        (DYNAMODB_TABLE : string) (event : list s3_record)
        (first : string) (others : list string) :
  let run := RestoreNotification.lambda_handler A SENDER_EMAIL S3_BUCKET
               PRESIGNED_URL_EXPIRY DYNAMODB_TABLE event in
  RestoreNotification.restored_keys A event = first :: others ->
  (forall m,
      In (RestoreNotification.SendEmail m) (fst run) ->
      exists uid,
        RestoreNotification.extract_user_id_from_key first = Some uid
        /\ RestoreNotification.table_get_item A DYNAMODB_TABLE uid
           = Ok (Some (RestoreNotification.msg_to m))
        /\ RestoreNotification.msg_from m = SENDER_EMAIL
        /\ map fst (RestoreNotification.msg_links m)
           = map RestoreNotification.file_name (first :: others))
  /\ (forall email,
         RestoreNotification.body (snd run) = RestoreNotification.EmailSent email ->
         exists uid,
           RestoreNotification.extract_user_id_from_key first = Some uid
           /\ RestoreNotification.table_get_item A DYNAMODB_TABLE uid
              = Ok (Some email)).
Proof.
  intros run Hkeys. unfold run. rewrite handler_of_notify. cbv zeta.
  pose proof (notify_cases A SENDER_EMAIL S3_BUCKET PRESIGNED_URL_EXPIRY
                DYNAMODB_TABLE event) as Hcases.
  cbv zeta in Hcases.
  destruct Hcases
    as [H|[H|[H|[(zip_acts & e & H & Hz)|[(zip_acts & H & Hz)
       |(first0 & others0 & uid & email & urls & zip_acts
         & Hk & Huid & Hget & Hemail & Hurls & Hz & H)]]]]];
    rewrite H; cbn [fst snd RestoreNotification.body].
  1-3: split; [intros m [] | intros email Hb; discriminate Hb].
  1-2: split; [intros m Hin; now apply no_send_in in Hin
              | intros email Hb; discriminate Hb].
  rewrite Hkeys in Hk. injection Hk as <- <-.
  rewrite Hkeys in *.
  destruct (send_notification_cases A SENDER_EMAIL email (first :: others)
              urls Hemail Hurls)
    as [[e Hs]|(items & zip & Hitems & _ & Hs)].
  - rewrite Hs. cbn [fst snd]. split.
    + intros m Hin. apply in_app_or in Hin.
      destruct Hin as [Hin|[]]. now apply no_send_in in Hin.
    + intros email' Hb. discriminate Hb.
  - cbv zeta in Hs.
    assert (Hm : forall m,
               In (RestoreNotification.SendEmail m)
                  (zip_acts ++ [RestoreNotification.SendEmail
                                  {| RestoreNotification.msg_from := SENDER_EMAIL;
                                     RestoreNotification.msg_to := email;
                                     RestoreNotification.msg_links := items;
                                     RestoreNotification.msg_zip := zip |}]) ->
               exists uid0,
                 RestoreNotification.extract_user_id_from_key first = Some uid0
                 /\ RestoreNotification.table_get_item A DYNAMODB_TABLE uid0
                    = Ok (Some (RestoreNotification.msg_to m))
                 /\ RestoreNotification.msg_from m = SENDER_EMAIL
                 /\ map fst (RestoreNotification.msg_links m)
                    = map RestoreNotification.file_name (first :: others)).
    { intros m Hin. apply in_app_or in Hin.
      destruct Hin as [Hin|[Hin|[]]]; [now apply no_send_in in Hin|].
      injection Hin as <-. exists uid. cbn.
      split; [exact Huid|]. split; [exact Hget|]. split; [reflexivity|].
      exact (link_items_names 0 _ _ _ Hitems). }
    destruct Hs as [(id & _ & Hs)|[(_ & Hs)|(e & _ & Hs)]];
      rewrite Hs; cbn [fst snd RestoreNotification.body];
      (split; [exact Hm|]); intros email' Hb; try discriminate Hb.
    injection Hb as <-. now exists uid.
Qed.

Lemma X26_witness :
  exists m,
    In (RestoreNotification.SendEmail m)
       (fst (RestoreNotification.lambda_handler calm_aws "noreply@example.com"
               "photos" 86400 "user-emails" two_owner_restore))
    /\ RestoreNotification.msg_to m = "u1@example.com"
    /\ map fst (RestoreNotification.msg_links m) = ["a.CR2"; "b.CR2"].
Proof.
  set (m := {| RestoreNotification.msg_from := "noreply@example.com";
               RestoreNotification.msg_to := "u1@example.com";
               RestoreNotification.msg_links :=
                 [("a.CR2", "https://photos/user/u1/raw/2023/04/05/a.CR2");
                  ("b.CR2", "https://photos/user/u2/raw/2023/04/05/b.CR2")];
               RestoreNotification.msg_zip :=
                 Some "https://photos/temp/u1/1700000000_download.zip" |}).
  assert (Hin : In (RestoreNotification.SendEmail m)
                   (fst (RestoreNotification.lambda_handler calm_aws
                           "noreply@example.com" "photos" 86400 "user-emails"
                           two_owner_restore)))
    by (vm_compute; right; left; reflexivity).
  exists m. split; [exact Hin|].
  destruct (proj1 (X26_links_go_to_the_owner_of_the_first_key calm_aws
                     "noreply@example.com" "photos" 86400 "user-emails"
                     two_owner_restore
                     "user/u1/raw/2023/04/05/a.CR2"
                     ["user/u2/raw/2023/04/05/b.CR2"] eq_refl) m Hin)
    as (uid & _ & _ & _ & Hnames).
  split; [reflexivity | exact Hnames].
Defined.

Lemma notify_with_recipient (A : RestoreNotification.Aws)
      (SENDER_EMAIL S3_BUCKET : string) (PRESIGNED_URL_EXPIRY : Z)
      (DYNAMODB_TABLE : string) (event : list s3_record)
      (first second : string) (others : list string)
      (uid email : string) (urls all_urls : list string)
      (zip_acts : list RestoreNotification.notify_action)
      (zip_url : option string) :
  let keys := first :: second :: others in
  RestoreNotification.restored_keys A event = keys ->
  RestoreNotification.extract_user_id_from_key first = Some uid ->
  uid <> "" ->
  RestoreNotification.table_get_item A DYNAMODB_TABLE uid = Ok (Some email) ->
  email <> "" ->
  RestoreNotification.presigned_urls A S3_BUCKET PRESIGNED_URL_EXPIRY keys
  = Ok urls ->
  RestoreNotification.create_download_zip_url A S3_BUCKET keys "download"
    PRESIGNED_URL_EXPIRY = (zip_acts, Ok zip_url) ->
  all_urls = (if RestoreNotification.truthy zip_url
              then (urls ++ [RestoreNotification.format_optional zip_url])%list
              else urls) ->
  all_urls <> [] ->
  let sent := RestoreNotification.send_notification_email A SENDER_EMAIL
                email keys all_urls in
  RestoreNotification.lambda_handler A SENDER_EMAIL S3_BUCKET
    PRESIGNED_URL_EXPIRY DYNAMODB_TABLE event
  = ((zip_acts ++ fst sent)%list,
     match snd sent with
     | Ok true => {| RestoreNotification.statusCode := 200;
                     RestoreNotification.body :=
                       RestoreNotification.EmailSent email |}
     | Ok false => {| RestoreNotification.statusCode := 500;
                      RestoreNotification.body :=
                        RestoreNotification.SendFailed |}
     | Raise e => {| RestoreNotification.statusCode := 500;
                     RestoreNotification.body :=
                       RestoreNotification.NotifyError e |}
     end).
Proof.
  intros keys Hkeys Huid Hne Hget Hemail Hurls Hzip Hall Hsome sent.
  unfold sent. clear sent. unfold keys in *. clear keys.
  unfold RestoreNotification.lambda_handler, RestoreNotification.notify.
  rewrite Hkeys. cbv beta iota zeta. rewrite Huid.
  destruct uid as [|c uid]; [contradiction|].
  cbn [RestoreNotification.truthy negb RestoreNotification.format_optional].
  unfold RestoreNotification.get_user_email. rewrite Hget.
  destruct email as [|d email]; [contradiction|].
  cbn [RestoreNotification.truthy negb RestoreNotification.format_optional].
  rewrite Hurls.
  replace (Z.of_nat (List.length (first :: second :: others)) >? 1) with true
    by (cbn [List.length]; symmetry; apply Z.gtb_lt; lia).
  rewrite Hzip, <- Hall.
  destruct all_urls as [|url all_urls]; [contradiction|].
  destruct (RestoreNotification.send_notification_email A SENDER_EMAIL
              (String d email) (first :: second :: others) (url :: all_urls))
    as [acts [[|]|e]];
    reflexivity.
Qed.

Lemma from_end_in_range (urls : list string) (k : nat) :
  (1 <= k <= List.length urls)%nat ->
  exists url, RestoreNotification.from_end urls k = Ok url.
Proof.
  intros Hk. unfold RestoreNotification.from_end.
  destruct (Nat.leb_spec k (List.length urls)); [|lia].
  destruct (nth_error urls (List.length urls - k)) as [url|] eqn:Hnth;
    [now exists url|].
  apply nth_error_None in Hnth. lia.
Qed.

(** X27.  The paragraph that offers everything as one ZIP.  Take an
    event with at least two restored keys for which every link could be
    signed but no link to the archive was obtained.  The mail still has
    the paragraph as soon as the links of the last two files differ, and
    the link it offers there is the link of the last file alone. *)
Theorem X27_zip_paragraph_offers_the_last_file
        (A : RestoreNotification.Aws)
        (SENDER_EMAIL S3_BUCKET : string) (PRESIGNED_URL_EXPIRY : Z)
        (DYNAMODB_TABLE : string) (event : list s3_record)
        (first second : string) (others : list string)
        (uid email : string) (urls : list string)
        (zip_acts : list RestoreNotification.notify_action)
        (zip_url : option string) (last_url before_last : string) :
  let keys := first :: second :: others in
  let run := RestoreNotification.lambda_handler A SENDER_EMAIL S3_BUCKET
               PRESIGNED_URL_EXPIRY DYNAMODB_TABLE event in
  RestoreNotification.restored_keys A event = keys ->
  RestoreNotification.extract_user_id_from_key first = Some uid ->
  uid <> "" ->
  RestoreNotification.table_get_item A DYNAMODB_TABLE uid = Ok (Some email) ->
  email <> "" ->
  RestoreNotification.presigned_urls A S3_BUCKET PRESIGNED_URL_EXPIRY keys
  = Ok urls ->
  List.length urls = List.length keys ->
  RestoreNotification.create_download_zip_url A S3_BUCKET keys "download"
    PRESIGNED_URL_EXPIRY = (zip_acts, Ok zip_url) ->
  RestoreNotification.truthy zip_url = false ->
  RestoreNotification.from_end urls 1 = Ok last_url ->
  RestoreNotification.from_end urls 2 = Ok before_last ->
  last_url <> before_last ->
  exists m,
    fst run = (zip_acts ++ [RestoreNotification.SendEmail m])%list
    /\ map fst (RestoreNotification.msg_links m)
       = map RestoreNotification.file_name keys
    /\ map snd (RestoreNotification.msg_links m) = urls
    /\ RestoreNotification.msg_zip m = Some last_url.
Proof.
  intros keys run Hkeys Huid Hne Hget Hemail Hurls Hlen Hzip Hfalsy
         Hlast Hbefore Hdiff.
  assert (Hsome : urls <> []).
  { destruct urls; [discriminate Hlen | discriminate]. }
  unfold run.
  rewrite (notify_with_recipient A SENDER_EMAIL S3_BUCKET PRESIGNED_URL_EXPIRY
             DYNAMODB_TABLE event first second others uid email urls urls
             zip_acts zip_url Hkeys Huid Hne Hget Hemail Hurls Hzip
             ltac:(now rewrite Hfalsy) Hsome).
  fold keys. cbn [fst].
  destruct (link_items_enough 0 keys urls ltac:(lia)) as [items Hitems].
  assert (Hpar : RestoreNotification.zip_paragraph keys urls = Ok (Some last_url)).
  { unfold RestoreNotification.zip_paragraph.
    replace (Z.of_nat (List.length keys) >? 1) with true
      by (unfold keys; cbn [List.length]; symmetry; apply Z.gtb_lt; lia).
    rewrite Hlast, Hbefore. cbn [bind].
    destruct (String.eqb_spec last_url before_last); [contradiction|].
    reflexivity. }
  exists {| RestoreNotification.msg_from := SENDER_EMAIL;
            RestoreNotification.msg_to := email;
            RestoreNotification.msg_links := items;
            RestoreNotification.msg_zip := Some last_url |}.
  split.
  - unfold RestoreNotification.send_notification_email.
    destruct (String.eqb_spec email ""); [contradiction|].
    destruct urls as [|url urls]; [contradiction|]. cbn [orb].
    rewrite Hitems, Hpar. cbn [bind].
    destruct (RestoreNotification.send_raw_email A _) as [id|[]];
      reflexivity.
  - cbn. split; [exact (link_items_names 0 _ _ _ Hitems)|].
    split; [|reflexivity].
    rewrite (link_items_urls 0 _ _ _ Hitems). cbn [skipn].
    rewrite <- Hlen. apply firstn_all.
Qed.

Lemma X27_witness :
  exists m,
    fst (RestoreNotification.lambda_handler no_zip_aws "noreply@example.com"
           "photos" 86400 "user-emails" two_owner_restore)
    = ([RestoreNotification.PutZip "temp/u1/1700000000_download.zip"
          [("a.CR2", [x00]); ("b.CR2", [x00])]]
         ++ [RestoreNotification.SendEmail m])%list
    /\ RestoreNotification.msg_zip m
       = Some "https://photos/user/u2/raw/2023/04/05/b.CR2".
Proof.
  destruct (X27_zip_paragraph_offers_the_last_file no_zip_aws
              "noreply@example.com" "photos" 86400 "user-emails"
              two_owner_restore
              "user/u1/raw/2023/04/05/a.CR2" "user/u2/raw/2023/04/05/b.CR2" []
              "u1" "u1@example.com"
              ["https://photos/user/u1/raw/2023/04/05/a.CR2";
               "https://photos/user/u2/raw/2023/04/05/b.CR2"]
              [RestoreNotification.PutZip "temp/u1/1700000000_download.zip"
                 [("a.CR2", [x00]); ("b.CR2", [x00])]]
              None
              "https://photos/user/u2/raw/2023/04/05/b.CR2"
              "https://photos/user/u1/raw/2023/04/05/a.CR2")
    as (m & Hrun & _ & _ & Hzip);
    try reflexivity; try discriminate.
  exists m. split; [exact Hrun | exact Hzip].
Defined.

(** X28.  A link that could not be signed.  Take an event with at least
    two restored keys of which some, but not all, got a link.  Without a
    link to the archive the handler sends nothing and answers 500 with an
    [IndexError]: the mail body is indexed by position in the list of
    keys.  With a link to the archive and exactly one file link missing,
    the mail is sent with the links shifted: the entries carry, in order,
    the links that were obtained, and the last file carries the link to
    the archive. *)
Theorem X28_a_missing_link_shifts_or_aborts
        (A : RestoreNotification.Aws)
        (SENDER_EMAIL S3_BUCKET : string) (PRESIGNED_URL_EXPIRY : Z)
        (DYNAMODB_TABLE : string) (event : list s3_record)
        (first second : string) (others : list string)
        (uid email : string) (urls : list string)
        (zip_acts : list RestoreNotification.notify_action)
        (zip_url : option string) :
  let keys := first :: second :: others in
  let run := RestoreNotification.lambda_handler A SENDER_EMAIL S3_BUCKET
               PRESIGNED_URL_EXPIRY DYNAMODB_TABLE event in
  RestoreNotification.restored_keys A event = keys ->
  RestoreNotification.extract_user_id_from_key first = Some uid ->
  uid <> "" ->
  RestoreNotification.table_get_item A DYNAMODB_TABLE uid = Ok (Some email) ->
  email <> "" ->
  RestoreNotification.presigned_urls A S3_BUCKET PRESIGNED_URL_EXPIRY keys
  = Ok urls ->
  urls <> [] ->
  (List.length urls < List.length keys)%nat ->
  RestoreNotification.create_download_zip_url A S3_BUCKET keys "download"
    PRESIGNED_URL_EXPIRY = (zip_acts, Ok zip_url) ->
  (RestoreNotification.truthy zip_url = false ->
   run = (zip_acts,
          {| RestoreNotification.statusCode := 500;
             RestoreNotification.body :=
               RestoreNotification.NotifyError IndexError |}))
  /\ (RestoreNotification.truthy zip_url = true ->
      (List.length urls + 1 = List.length keys)%nat ->
      exists m,
        fst run = (zip_acts ++ [RestoreNotification.SendEmail m])%list
        /\ map fst (RestoreNotification.msg_links m)
           = map RestoreNotification.file_name keys
        /\ map snd (RestoreNotification.msg_links m)
           = (urls ++ [RestoreNotification.format_optional zip_url])%list).
Proof.
  intros keys run Hkeys Huid Hne Hget Hemail Hurls Hsome Hshort Hzip.
  split.
  - intros Hfalsy. unfold run.
    rewrite (notify_with_recipient A SENDER_EMAIL S3_BUCKET PRESIGNED_URL_EXPIRY
               DYNAMODB_TABLE event first second others uid email urls urls
               zip_acts zip_url Hkeys Huid Hne Hget Hemail Hurls Hzip
               ltac:(now rewrite Hfalsy) Hsome).
    fold keys.
    unfold RestoreNotification.send_notification_email.
    destruct (String.eqb_spec email ""); [contradiction|].
    destruct urls as [|url urls]; [contradiction|]. cbn [orb].
    rewrite (link_items_short 0 keys (url :: urls) ltac:(discriminate)
               ltac:(lia)).
    cbn [bind fst snd]. now rewrite app_nil_r.
  - intros Htruthy Hone. unfold run.
    set (all_urls := (urls ++ [RestoreNotification.format_optional zip_url])%list).
    assert (Hall : all_urls <> []).
    { unfold all_urls. destruct urls; discriminate. }
    assert (Hlen : List.length all_urls = List.length keys).
    { unfold all_urls. rewrite List.length_app. cbn [List.length]. lia. }
    rewrite (notify_with_recipient A SENDER_EMAIL S3_BUCKET PRESIGNED_URL_EXPIRY
               DYNAMODB_TABLE event first second others uid email urls all_urls
               zip_acts zip_url Hkeys Huid Hne Hget Hemail Hurls Hzip
               ltac:(now rewrite Htruthy) Hall).
    fold keys. cbn [fst].
    destruct (link_items_enough 0 keys all_urls ltac:(lia)) as [items Hitems].
    assert (Hpar : exists zip,
               RestoreNotification.zip_paragraph keys all_urls = Ok zip).
    { unfold RestoreNotification.zip_paragraph.
      destruct (Z.of_nat (List.length keys) >? 1); [|eauto].
      destruct (from_end_in_range all_urls 1) as [u1 ->];
        [unfold keys in Hlen; cbn [List.length] in Hlen; lia|].
      destruct (from_end_in_range all_urls 2) as [u2 ->];
        [unfold keys in Hlen; cbn [List.length] in Hlen; lia|].
      cbn [bind]. eauto. }
    destruct Hpar as [zip Hpar].
    exists {| RestoreNotification.msg_from := SENDER_EMAIL;
              RestoreNotification.msg_to := email;
              RestoreNotification.msg_links := items;
              RestoreNotification.msg_zip := zip |}.
    split.
    + unfold RestoreNotification.send_notification_email.
      destruct (String.eqb_spec email ""); [contradiction|].
      destruct all_urls as [|url rest]; [contradiction|]. cbn [orb].
      rewrite Hitems, Hpar. cbn [bind].
      destruct (RestoreNotification.send_raw_email A _) as [id|[]];
        reflexivity.
    + cbn. split; [exact (link_items_names 0 _ _ _ Hitems)|].
      rewrite (link_items_urls 0 _ _ _ Hitems). cbn [skipn].
      rewrite <- Hlen. apply firstn_all.
Qed.

Lemma X28_witness :
  exists m,
    fst (RestoreNotification.lambda_handler one_link_missing_aws
           "noreply@example.com" "photos" 86400 "user-emails"
           two_owner_restore)
    = ([RestoreNotification.PutZip "temp/u1/1700000000_download.zip"
          [("a.CR2", [x00]); ("b.CR2", [x00])]]
         ++ [RestoreNotification.SendEmail m])%list
    /\ RestoreNotification.msg_links m
       = [("a.CR2", "https://photos/user/u2/raw/2023/04/05/b.CR2");
          ("b.CR2", "https://photos/temp/u1/1700000000_download.zip")].
Proof.
  destruct (proj2 (X28_a_missing_link_shifts_or_aborts one_link_missing_aws
              "noreply@example.com" "photos" 86400 "user-emails"
              two_owner_restore
              "user/u1/raw/2023/04/05/a.CR2" "user/u2/raw/2023/04/05/b.CR2" []
              "u1" "u1@example.com"
              ["https://photos/user/u2/raw/2023/04/05/b.CR2"]
              [RestoreNotification.PutZip "temp/u1/1700000000_download.zip"
                 [("a.CR2", [x00]); ("b.CR2", [x00])]]
              (Some "https://photos/temp/u1/1700000000_download.zip")
              eq_refl eq_refl ltac:(discriminate) eq_refl ltac:(discriminate)
              eq_refl ltac:(discriminate) ltac:(cbn; lia) eq_refl)
              eq_refl eq_refl)
    as (m & Hrun & Hnames & Hlinks).
  exists m. split; [exact Hrun|].
  destruct m as [from to links zip].
  cbn [RestoreNotification.msg_links] in Hnames, Hlinks |- *.
  destruct links as [|[n1 l1] [|[n2 l2] [|]]]; try discriminate.
  vm_compute in Hnames, Hlinks.
  injection Hnames as -> ->. injection Hlinks as -> ->. reflexivity.
Defined.

(** X29.  What the notification handler answers.  The status is 200, 400
    or 500 and at most one mail is sent.  A 400 answer means that nothing
    was sent.  A 200 answer means either that the event had no completed
    restore and nothing was done, or that SES accepted a mail addressed to
    the address named in the answer.  The answer "failed to send" is given
    exactly for a [ClientError] from SES. *)
Theorem X29_notification_answers
        (A : RestoreNotification.Aws)
        (SENDER_EMAIL S3_BUCKET : string) (PRESIGNED_URL_EXPIRY : Z)
        (DYNAMODB_TABLE : string) (event : list s3_record) :
  let run := RestoreNotification.lambda_handler A SENDER_EMAIL S3_BUCKET
               PRESIGNED_URL_EXPIRY DYNAMODB_TABLE event in
  let status := RestoreNotification.statusCode (snd run) in
  (status = 200 \/ status = 400 \/ status = 500)
  /\ (List.length (filter is_send (fst run)) <= 1)%nat
  /\ (status = 400 -> filter is_send (fst run) = [])
  /\ (status = 200 ->
      (RestoreNotification.body (snd run) = RestoreNotification.NoRestoreEvents
       /\ fst run = [])
      \/ exists m id,
           RestoreNotification.body (snd run)
           = RestoreNotification.EmailSent (RestoreNotification.msg_to m)
           /\ In (RestoreNotification.SendEmail m) (fst run)
           /\ RestoreNotification.send_raw_email A m = Ok id)
  /\ (RestoreNotification.body (snd run) = RestoreNotification.SendFailed ->
      exists m,
        In (RestoreNotification.SendEmail m) (fst run)
        /\ RestoreNotification.send_raw_email A m = Raise ClientError).
Proof.
  intros run status. unfold status, run. rewrite handler_of_notify. cbv zeta.
  pose proof (notify_cases A SENDER_EMAIL S3_BUCKET PRESIGNED_URL_EXPIRY
                DYNAMODB_TABLE event) as Hcases.
  cbv zeta in Hcases.
  destruct Hcases
    as [H|[H|[H|[(zip_acts & e & H & Hz)|[(zip_acts & H & Hz)
       |(first & others & uid & email & urls & zip_acts
         & Hk & Huid & Hget & Hemail & Hurls & Hz & H)]]]]];
    rewrite H;
    cbn [fst snd RestoreNotification.body RestoreNotification.statusCode].
  - split; [auto|]. split; [cbn; lia|]. split; [reflexivity|].
    split; [auto | discriminate].
  - split; [auto|]. split; [cbn; lia|]. split; [reflexivity|].
    split; discriminate.
  - split; [auto|]. split; [cbn; lia|]. split; [reflexivity|].
    split; discriminate.
  - split; [auto|]. split; [rewrite Hz; cbn; lia|]. split; [discriminate|].
    split; discriminate.
  - split; [auto|]. split; [rewrite Hz; cbn; lia|]. split; [intros _; exact Hz|].
    split; discriminate.
  - destruct (send_notification_cases A SENDER_EMAIL email
                (RestoreNotification.restored_keys A event) urls Hemail Hurls)
      as [[e Hs]|(items & zip & _ & _ & Hs)].
    + rewrite Hs.
      cbn [fst snd RestoreNotification.body RestoreNotification.statusCode].
      rewrite app_nil_r, Hz.
      split; [auto|]. split; [cbn; lia|]. split; [discriminate|].
      split; discriminate.
    + cbv zeta in Hs.
      set (m := {| RestoreNotification.msg_from := SENDER_EMAIL;
                   RestoreNotification.msg_to := email;
                   RestoreNotification.msg_links := items;
                   RestoreNotification.msg_zip := zip |}) in *.
      assert (Hin : In (RestoreNotification.SendEmail m)
                       (zip_acts ++ [RestoreNotification.SendEmail m]))
        by (apply in_or_app; right; now left).
      assert (Hone : filter is_send (zip_acts ++ [RestoreNotification.SendEmail m])
                     = [RestoreNotification.SendEmail m])
        by (rewrite filter_app, Hz; reflexivity).
      destruct Hs as [(id & Hsend & Hs)|[(Hsend & Hs)|(e & Hsend & Hs)]];
        rewrite Hs;
        cbn [fst snd RestoreNotification.body RestoreNotification.statusCode];
        rewrite Hone.
      * split; [auto|]. split; [cbn; lia|]. split; [discriminate|].
        split; [|discriminate].
        intros _. right. exists m, id. auto.
      * split; [auto|]. split; [cbn; lia|]. split; [discriminate|].
        split; [discriminate|]. intros _. exists m. auto.
      * split; [auto|]. split; [cbn; lia|]. split; [discriminate|].
        split; discriminate.
Qed.
